(** * Swimmer Tracker: the client-side synchronisation core and the
      personal-bests view

    A shallow embedding of [src/App.tsx] (the React component's handlers,
    the CSV helper and the filtered/paginated view) and of the
    [personal_bests] view of [supabase/schema.sql], followed by the
    properties of the specification that were checked against it. *)

From Stdlib Require Import List String Ascii Bool Arith ZArith QArith Lia.
From Stdlib Require Import DecimalString.
From Stdlib Require Import Sorting.Sorted Sorting.Permutation.
From Stdlib Require Import Structures.OrderedTypeEx.
Import ListNotations.

Local Close Scope Q_scope.
Local Open Scope list_scope.

(* ===================================================================== *)
(** * JavaScript values and built-ins used by the application             *)
(* ===================================================================== *)

Module Js.

(** A JavaScript [number].  The application only compares numbers and
    takes [Math.max] / [Math.min] of them, which are exact operations, so
    a finite double is represented by the rational it denotes.  The sign
    of zero is not observable through the modelled code ([-0] is falsy
    like [0], and [Math.max(0, -0)] is [0]). *)
Inductive number : Type :=
| NaN
| NegInf
| Fin (q : Q)
| PosInf.

(** [Boolean(n)]: [NaN] and zero are falsy. *)
Definition truthy_number (n : number) : bool :=
  match n with
  | NaN => false
  | Fin q => negb (Qeq_bool q 0)
  | NegInf | PosInf => true
  end.

(** [a || b] on numbers. *)
Definition or_number (a b : number) : number :=
  if truthy_number a then a else b.

(** [a <= b]; every comparison with [NaN] is false. *)
Definition num_leb (a b : number) : bool :=
  match a, b with
  | NaN, _ | _, NaN => false
  | NegInf, _ => true
  | _, PosInf => true
  | Fin x, Fin y => Qle_bool x y
  | Fin _, NegInf => false
  | PosInf, _ => false
  end.

(** [Math.max(a, b)] and [Math.min(a, b)]: [NaN] is contagious. *)
Definition Math_max (a b : number) : number :=
  match a, b with
  | NaN, _ | _, NaN => NaN
  | _, _ => if num_leb a b then b else a
  end.

Definition Math_min (a b : number) : number :=
  match a, b with
  | NaN, _ | _, NaN => NaN
  | _, _ => if num_leb a b then a else b
  end.

Definition of_Z (z : Z) : number := Fin (inject_Z z).

(** Untyped values, for the objects the code handles as [any]. *)
Inductive value : Type :=
| Undefined
| Null
| Num (n : number)
| Str (s : string).

Definition truthy (v : value) : bool :=
  match v with
  | Undefined | Null => false
  | Num n => truthy_number n
  | Str s => negb (String.eqb s "")
  end.

(** [a || b] *)
Definition or (a b : value) : value := if truthy a then a else b.

(** [a ?? b] *)
Definition nullish (a b : value) : value :=
  match a with
  | Undefined | Null => b
  | _ => a
  end.

(** A string stands for the UTF-8 encoding of the JavaScript string:
    equality, substring search and splitting at an ASCII separator give
    the same answers on the encoding as on the text.  Case mapping
    ([toLowerCase]) and white-space stripping ([trim]) follow the Unicode
    tables; they are supplied by the host, see [App.Host]. *)

(** [s.includes(q)] *)
Fixpoint includes (s q : string) : bool :=
  String.prefix q s
  || match s with
     | EmptyString => false
     | String _ s' => includes s' q
     end.

(** [s.split(sep)] for a one-character separator. *)
Fixpoint split_on (sep : ascii) (s : string) : list string :=
  match s with
  | EmptyString => [EmptyString]
  | String c s' =>
      if Ascii.eqb c sep then EmptyString :: split_on sep s'
      else match split_on sep s' with
           | [] => [String c EmptyString]
           | l :: ls => String c l :: ls
           end
  end.

Definition LF : ascii := ascii_of_nat 10.
Definition CR : ascii := ascii_of_nat 13.

Definition starts_with_LF (s : string) : bool :=
  match s with
  | String c _ => Ascii.eqb c LF
  | EmptyString => false
  end.

(** [s.split(/\r?\n/)] *)
Fixpoint split_lines (s : string) : list string :=
  match s with
  | EmptyString => [EmptyString]
  | String c s' =>
      if Ascii.eqb c LF then EmptyString :: split_lines s'
      else if Ascii.eqb c CR && starts_with_LF s' then split_lines s'
      else match split_lines s' with
           | [] => [String c EmptyString]
           | l :: ls => String c l :: ls
           end
  end.

(** [arr.indexOf(x)] on an array of strings; [None] stands for [-1]. *)
Fixpoint indexOf (arr : list string) (x : string) : option nat :=
  match arr with
  | [] => None
  | y :: arr' =>
      if String.eqb y x then Some 0%nat
      else option_map S (indexOf arr' x)
  end.

(** [arr[i]] where [i] may be [-1]: out of range reads give
    [undefined]. *)
Definition at_index (arr : list string) (i : option nat) : option string :=
  match i with
  | None => None
  | Some n => nth_error arr n
  end.

(** [arr.slice(start, end)] for non-negative indices. *)
Definition slice {A : Type} (arr : list A) (start stop : nat) : list A :=
  firstn (stop - start) (skipn start arr).

End Js.

(* ===================================================================== *)
(** * [supabase/schema.sql]: the competitions table and the
      [personal_bests] view                                               *)
(* ===================================================================== *)

Module Schema.

(** A row of [competitions].  [uuid] and [text] are strings, [int] and
    [date] (a day number) are integers, [numeric] is an exact rational.
    The columns read by the view are all [not null]. *)
Module Competitions.
Record row : Type := {
  id : string;
  user_id : string;
  date : Z;
  meet : string;
  distance_m : Z;
  stroke : string;
  time_sec : Q;
  location : option string;
  notes : option string
}.
End Competitions.

(** A row of the [personal_bests] view. *)
Module PersonalBests.
Record row : Type := {
  user_id : string;
  stroke : string;
  distance_m : Z;
  time_sec : Q;
  date : Z;
  meet : string
}.
End PersonalBests.

(** Lexicographic composition of two comparison results. *)
Definition lex (c1 c2 : comparison) : comparison :=
  match c1 with
  | Eq => c2
  | _ => c1
  end.

(** [order by user_id, stroke, distance_m, time_sec asc, date asc] *)
Definition order_by (a b : Competitions.row) : comparison :=
  lex (String.compare (Competitions.user_id a) (Competitions.user_id b))
 (lex (String.compare (Competitions.stroke a) (Competitions.stroke b))
 (lex (Z.compare (Competitions.distance_m a) (Competitions.distance_m b))
 (lex (Qcompare (Competitions.time_sec a) (Competitions.time_sec b))
      (Z.compare (Competitions.date a) (Competitions.date b))))).

Definition order_leb (a b : Competitions.row) : bool :=
  match order_by a b with
  | Gt => false
  | _ => true
  end.

(** The sort step of the query plan. *)
Fixpoint insert_sorted {A : Type} (leb : A -> A -> bool) (x : A) (l : list A)
  : list A :=
  match l with
  | [] => [x]
  | y :: l' => if leb x y then x :: l else y :: insert_sorted leb x l'
  end.

Fixpoint sort_by {A : Type} (leb : A -> A -> bool) (l : list A) : list A :=
  match l with
  | [] => []
  | x :: l' => insert_sorted leb x (sort_by leb l')
  end.

(** The expressions of [distinct on (user_id, stroke, distance_m)]
    evaluate to equal on two rows. *)
Definition same_key (a b : Competitions.row) : bool :=
  String.eqb (Competitions.user_id a) (Competitions.user_id b)
  && String.eqb (Competitions.stroke a) (Competitions.stroke b)
  && Z.eqb (Competitions.distance_m a) (Competitions.distance_m b).

(** [select distinct on (...)] keeps the first row of each set of rows
    with equal expressions, in the order of the input. *)
Fixpoint distinct_on {A : Type} (same : A -> A -> bool) (seen l : list A)
  : list A :=
  match l with
  | [] => []
  | x :: l' =>
      if existsb (same x) seen then distinct_on same seen l'
      else x :: distinct_on same (x :: seen) l'
  end.

(** The select list of the view. *)
Definition project (c : Competitions.row) : PersonalBests.row :=
  {| PersonalBests.user_id := Competitions.user_id c;
     PersonalBests.stroke := Competitions.stroke c;
     PersonalBests.distance_m := Competitions.distance_m c;
     PersonalBests.time_sec := Competitions.time_sec c;
     PersonalBests.date := Competitions.date c;
     PersonalBests.meet := Competitions.meet c |}.

(** [create or replace view personal_bests as ...] *)
Definition personal_bests (competitions : list Competitions.row)
  : list PersonalBests.row :=
  map project (distinct_on same_key [] (sort_by order_leb competitions)).

(** A view row is the row of the key of a competition. *)
Definition has_key (c : Competitions.row) (p : PersonalBests.row) : bool :=
  String.eqb (PersonalBests.user_id p) (Competitions.user_id c)
  && String.eqb (PersonalBests.stroke p) (Competitions.stroke c)
  && Z.eqb (PersonalBests.distance_m p) (Competitions.distance_m c).

End Schema.

(* ===================================================================== *)
(** * [src/App.tsx]                                                       *)
(* ===================================================================== *)

Module App.

Import Js.
Local Open Scope string_scope.
Local Open Scope list_scope.

(** ** Types *)

Module Workout.
Inductive Stroke : Type := Free | Back | Breast | Fly | IM | Drill.

Definition stroke_text (s : Stroke) : string :=
  match s with
  | Free => "Free" | Back => "Back" | Breast => "Breast"
  | Fly => "Fly" | IM => "IM" | Drill => "Drill"
  end.

Record t : Type := {
  id : option string;
  user_id : option string;
  date : string;
  distance_m : number;
  duration_min : number;
  stroke : Stroke;
  rpe : option number;
  notes : option string
}.

(** [x.id === s] for a string [s] *)
Definition id_is (s : string) (x : t) : bool :=
  match id x with
  | Some i => String.eqb i s
  | None => false
  end.

(** [{ ...w, id: s }] and [{ ...w, user_id: u }] *)
Definition with_id (w : t) (s : string) : t :=
  {| id := Some s; user_id := user_id w; date := date w;
     distance_m := distance_m w; duration_min := duration_min w;
     stroke := stroke w; rpe := rpe w; notes := notes w |}.

Definition with_user_id (w : t) (u : string) : t :=
  {| id := id w; user_id := Some u; date := date w;
     distance_m := distance_m w; duration_min := duration_min w;
     stroke := stroke w; rpe := rpe w; notes := notes w |}.
End Workout.

Module Competition.
Inductive Stroke : Type := Free | Back | Breast | Fly | IM.

Record t : Type := {
  id : option string;
  user_id : option string;
  date : string;
  meet : string;
  distance_m : number;
  stroke : Stroke;
  time_sec : number;
  location : option string;
  notes : option string
}.

Definition id_is (s : string) (x : t) : bool :=
  match id x with
  | Some i => String.eqb i s
  | None => false
  end.

Definition with_id (c : t) (s : string) : t :=
  {| id := Some s; user_id := user_id c; date := date c; meet := meet c;
     distance_m := distance_m c; stroke := stroke c;
     time_sec := time_sec c; location := location c; notes := notes c |}.

Definition with_user_id (c : t) (u : string) : t :=
  {| id := id c; user_id := Some u; date := date c; meet := meet c;
     distance_m := distance_m c; stroke := stroke c;
     time_sec := time_sec c; location := location c; notes := notes c |}.
End Competition.

Module PB.
Record t : Type := {
  user_id : string;
  stroke : string;
  distance_m : number;
  time_sec : number;
  date : string;
  meet : string
}.
End PB.

(** The objects built by [parseCSV] (typed [any] in the source). *)
Module ImportRow.
Record t : Type := {
  date : value;
  distance_m : value;
  duration_min : value;
  stroke : value;
  rpe : value;
  notes : value
}.
End ImportRow.

(** The objects sent by the bulk insert. *)
Module CleanedRow.
Record t : Type := {
  date : value;
  distance_m : number;
  duration_min : number;
  stroke : value;
  rpe : value;
  notes : value;
  user_id : string
}.
End CleanedRow.

Record User : Type := { user_ident : string; email : string }.
Record Session : Type := { user : option User }.

(** The component state (the [useState] cells). *)
Record State : Type := {
  session : option Session;
  loading : bool;
  rows : list Workout.t;
  comps : list Competition.t;
  pbs : list PB.t;
  draft : Workout.t;
  cdraft : Competition.t;
  editingId : option string;
  ceditingId : option string;
  page : nat;
  search : string;
  query : string
}.

(** [session?.user] *)
Definition session_user (st : State) : option User :=
  match session st with
  | Some s => user s
  | None => None
  end.

(** The state setters; [setRows] and [setComps] are used with an updater
    function applied to the state current at that moment. *)
Definition setLoading (b : bool) (st : State) : State :=
  {| session := session st; loading := b; rows := rows st;
     comps := comps st; pbs := pbs st; draft := draft st;
     cdraft := cdraft st; editingId := editingId st;
     ceditingId := ceditingId st; page := page st; search := search st;
     query := query st |}.

Definition setRows (f : list Workout.t -> list Workout.t) (st : State)
  : State :=
  {| session := session st; loading := loading st; rows := f (rows st);
     comps := comps st; pbs := pbs st; draft := draft st;
     cdraft := cdraft st; editingId := editingId st;
     ceditingId := ceditingId st; page := page st; search := search st;
     query := query st |}.

Definition setComps (f : list Competition.t -> list Competition.t)
  (st : State) : State :=
  {| session := session st; loading := loading st; rows := rows st;
     comps := f (comps st); pbs := pbs st; draft := draft st;
     cdraft := cdraft st; editingId := editingId st;
     ceditingId := ceditingId st; page := page st; search := search st;
     query := query st |}.

Definition setPBs (l : list PB.t) (st : State) : State :=
  {| session := session st; loading := loading st; rows := rows st;
     comps := comps st; pbs := l; draft := draft st;
     cdraft := cdraft st; editingId := editingId st;
     ceditingId := ceditingId st; page := page st; search := search st;
     query := query st |}.

Definition setDraft (d : Workout.t) (st : State) : State :=
  {| session := session st; loading := loading st; rows := rows st;
     comps := comps st; pbs := pbs st; draft := d;
     cdraft := cdraft st; editingId := editingId st;
     ceditingId := ceditingId st; page := page st; search := search st;
     query := query st |}.

Definition setCDraft (d : Competition.t) (st : State) : State :=
  {| session := session st; loading := loading st; rows := rows st;
     comps := comps st; pbs := pbs st; draft := draft st;
     cdraft := d; editingId := editingId st;
     ceditingId := ceditingId st; page := page st; search := search st;
     query := query st |}.

Definition setEditingId (e : option string) (st : State) : State :=
  {| session := session st; loading := loading st; rows := rows st;
     comps := comps st; pbs := pbs st; draft := draft st;
     cdraft := cdraft st; editingId := e;
     ceditingId := ceditingId st; page := page st; search := search st;
     query := query st |}.

Definition setCEditingId (e : option string) (st : State) : State :=
  {| session := session st; loading := loading st; rows := rows st;
     comps := comps st; pbs := pbs st; draft := draft st;
     cdraft := cdraft st; editingId := editingId st;
     ceditingId := e; page := page st; search := search st;
     query := query st |}.

(** ** The remote store client

    Each request of the code to Supabase, indexed by the type of the
    [data] it resolves to.  A response carries either [data] or an
    [error] with its [message]. *)
Inductive Request : Type -> Type :=
| SelectWorkouts : Request (option (list Workout.t))
    (* from("workouts").select("*").order("date",{ascending:false}).limit(500) *)
| SelectCompetitions : Request (option (list Competition.t))
| SelectPersonalBests : Request (option (list PB.t))
    (* from("personal_bests").select("*") *)
| InsertWorkout (payload : Workout.t) : Request Workout.t
    (* from("workouts").insert(payload).select().single() *)
| UpdateWorkout (payload : Workout.t) (id : string) : Request unit
| DeleteWorkout (id : string) : Request unit
| InsertWorkouts (batch : list CleanedRow.t) : Request unit
| InsertCompetition (payload : Competition.t) : Request Competition.t
| UpdateCompetition (payload : Competition.t) (id : string) : Request unit
| DeleteCompetition (id : string) : Request unit.

Inductive Response (A : Type) : Type :=
| Ok (data : A)
| Error (message : string).
Arguments Ok {A} data.
Arguments Error {A} message.

(** ** Handlers as trees of effects

    A handler runs until it returns or reaches an [await]; every other
    effect it has is listed here.  [SetState] applies an updater to the
    state current when it runs, so what a handler captured from the
    render it was created in (its closure) stays distinct from the state
    it later updates. *)
Inductive Prog : Type :=
| Return : Prog
| SetState (f : State -> State) (k : Prog)
| Alert (message : string) (k : Prog)
| Confirm (message : string) (k : bool -> Prog)
| RandomUUID (k : string -> Prog)
| Today (k : string -> Prog)
| Await {A : Type} (req : Request A) (k : Response A -> Prog)
| SetTimeout (callback : Prog) (ms : nat) (k : Prog).

(** [p; q]: a [return] inside [p] ends [p] only. *)
Fixpoint andThen (p q : Prog) : Prog :=
  match p with
  | Return => q
  | SetState f k => SetState f (andThen k q)
  | Alert m k => Alert m (andThen k q)
  | Confirm m k => Confirm m (fun b => andThen (k b) q)
  | RandomUUID k => RandomUUID (fun s => andThen (k s) q)
  | Today k => Today (fun s => andThen (k s) q)
  | Await req k => Await req (fun r => andThen (k r) q)
  | SetTimeout cb ms k => SetTimeout cb ms (andThen k q)
  end.

(** What the surroundings answer: the user to [confirm], the platform to
    [crypto.randomUUID()] and [new Date()], the remote store to the
    [n]-th request of a run. *)
Record Env : Type := {
  confirm : string -> bool;
  randomUUID : string;
  today : string;
  respond : forall A : Type, nat -> Request A -> Response A
}.

(** What can be observed of a run. *)
Inductive Event : Type :=
| EvAlert (message : string)
| EvConfirm (message : string) (answer : bool)
| EvRequest {A : Type} (req : Request A) (inflight : State)
    (* a request, with the state on display while it is pending *)
| EvTimer (ms : nat).

Record Outcome : Type := {
  final : State;
  trace : list Event;
  timers : list (Prog * nat)
}.

Definition emit (e : Event) (o : Outcome) : Outcome :=
  {| final := final o; trace := e :: trace o; timers := timers o |}.

Definition schedule (cb : Prog) (ms : nat) (o : Outcome) : Outcome :=
  {| final := final o; trace := EvTimer ms :: trace o;
     timers := (cb, ms) :: timers o |}.

(** Run a handler to completion from state [st], [n] requests having
    been issued before. *)
Fixpoint run (env : Env) (p : Prog) (n : nat) (st : State) : Outcome :=
  match p with
  | Return => {| final := st; trace := []; timers := [] |}
  | SetState f k => run env k n (f st)
  | Alert m k => emit (EvAlert m) (run env k n st)
  | Confirm m k =>
      let b := confirm env m in
      emit (EvConfirm m b) (run env (k b) n st)
  | RandomUUID k => run env (k (randomUUID env)) n st
  | Today k => run env (k (today env)) n st
  | Await req k =>
      emit (EvRequest req st) (run env (k (respond env _ n req)) (S n) st)
  | SetTimeout cb ms k => schedule cb ms (run env k n st)
  end.

(** ** What the JavaScript host supplies

    Number formatting and parsing round to doubles and are taken as
    given; [load_date] is [new Date().toISOString().slice(0, 10)] as
    evaluated when the module is loaded.  [toLowerCase] and [trim] are
    [String.prototype.toLowerCase] and [String.prototype.trim]: the
    first maps every cased letter of Unicode, the second strips the
    white space and line terminators of ECMAScript at both ends; both
    are taken as given, so that what is proved holds of whatever text
    they are applied to. *)
Record Host : Type := {
  String_of_number : number -> string;
  Number_of_string : string -> number;
  load_date : string;
  toLowerCase : string -> string;
  trim : string -> string
}.

Section Component.

Variable host : Host.

Definition emptyWorkout : Workout.t :=
  {| Workout.id := None; Workout.user_id := None;
     Workout.date := load_date host;
     Workout.distance_m := of_Z 0;
     Workout.duration_min := of_Z 0;
     Workout.stroke := Workout.Free;
     Workout.rpe := Some (of_Z 5);
     Workout.notes := Some EmptyString |}.

Definition emptyComp : Competition.t :=
  {| Competition.id := None; Competition.user_id := None;
     Competition.date := load_date host;
     Competition.meet := EmptyString;
     Competition.distance_m := of_Z 50;
     Competition.stroke := Competition.Free;
     Competition.time_sec := of_Z 40;
     Competition.location := Some EmptyString;
     Competition.notes := Some EmptyString |}.

(** [Number(v)] and [String(v)] on untyped values. *)
Definition Number (v : value) : number :=
  match v with
  | Undefined => NaN
  | Null => of_Z 0
  | Num n => n
  | Str s => Number_of_string host s
  end.

Definition String_ (v : value) : string :=
  match v with
  | Undefined => "undefined"
  | Null => "null"
  | Num n => String_of_number host n
  | Str s => s
  end.

(** An identifier or [null] used as a condition: [null] and the empty
    string are falsy. *)
Definition truthy_id (e : option string) : option string :=
  match e with
  | Some s => if String.eqb s "" then None else Some s
  | None => None
  end.

(** [e.message || fallback] *)
Definition message_or (m fallback : string) : string :=
  if String.eqb m "" then fallback else m.

(** *** [fetchAll] *)
Definition fetchAll : Prog :=
  let finally := SetState (setLoading false) Return in
  let catch (m : string) := Alert (message_or m "Error loading data") finally in
  SetState (setLoading true)
 (Await SelectWorkouts (fun rw =>
  Await SelectCompetitions (fun rc =>
  Await SelectPersonalBests (fun rp =>
    match rw, rc, rp with
    | Error ew, _, _ => catch ew
    | Ok _, Error ec, _ => catch ec
    | Ok _, Ok _, Error ep => catch ep
    | Ok w, Ok c, Ok p =>
        SetState (setRows (fun _ => match w with Some l => l | None => [] end))
       (SetState (setComps (fun _ => match c with Some l => l | None => [] end))
       (SetState (setPBs (match p with Some l => l | None => [] end))
        finally))
    end)))).

(** *** The filtered and paginated rows *)
Definition matches (q : string) (r : Workout.t) : bool :=
  includes (Workout.date r) q
  || includes (String_of_number host (Workout.distance_m r)) q
  || includes (String_of_number host (Workout.duration_min r)) q
  || includes (toLowerCase host (Workout.stroke_text (Workout.stroke r))) q
  || includes (toLowerCase host (match Workout.notes r with
                            | Some s => s
                            | None => EmptyString
                            end)) q.

Definition view (rows : list Workout.t) (query : string) (page : nat)
  : list Workout.t :=
  let q := toLowerCase host (trim host query) in
  let pageSize := 50 in
  let base := if String.eqb q "" then rows else filter (matches q) rows in
  let start := page * pageSize in
  slice base start (start + pageSize).

Definition filtered (st : State) : list Workout.t :=
  view (rows st) (query st) (page st).

(** *** [saveWorkout] *)
Definition clean_workout (draft : Workout.t) : Workout.t :=
  {| Workout.id := Workout.id draft;
     Workout.user_id := Workout.user_id draft;
     Workout.date := Workout.date draft;
     Workout.distance_m :=
       Math_max (of_Z 0) (or_number (Workout.distance_m draft) (of_Z 0));
     Workout.duration_min :=
       Math_max (of_Z 0) (or_number (Workout.duration_min draft) (of_Z 0));
     Workout.rpe :=
       match Workout.rpe draft with
       | Some n =>
           if truthy_number n
           then Some (Math_min (of_Z 10) (Math_max (of_Z 1) n))
           else None
       | None => None
       end;
     Workout.stroke := Workout.stroke draft;
     Workout.notes := Workout.notes draft |}.

(** [x.id === editingId ? prev : x] where [prev] is [rows[idx]]: the
    slot is read only where [findIndex] found an entry, so [prev] is
    present whenever an entry of the list it came from matches. *)
Definition restore {A : Type} (prev : option A) (x : A) : A :=
  match prev with
  | Some p => p
  | None => x
  end.

Definition saveWorkout (st : State) : Prog :=
  let clean := clean_workout (draft st) in
  let done :=
    SetState (setEditingId None) (SetState (setDraft emptyWorkout) Return) in
  match session_user st with
  | None => Alert "Please sign in first." Return
  | Some u =>
      match truthy_id (editingId st) with
      | Some editingId =>
          let prev := find (Workout.id_is editingId) (rows st) in
          let updated := Workout.with_id clean editingId in
          SetState (setRows (map (fun x =>
            if Workout.id_is editingId x then updated else x)))
         (Await (UpdateWorkout updated editingId) (fun r =>
            match r with
            | Error m =>
                Alert m
               (SetState (setRows (map (fun x =>
                  if Workout.id_is editingId x then restore prev x else x)))
                done)
            | Ok _ => done
            end))
      | None =>
          RandomUUID (fun uuid =>
          let optimistic := Workout.with_id clean uuid in
          SetState (setRows (fun r => optimistic :: r))
         (Await (InsertWorkout (Workout.with_user_id clean (user_ident u)))
            (fun r =>
               match r with
               | Error m =>
                   Alert m
                  (SetState (setRows (filter (fun x =>
                     negb (Workout.id_is uuid x))))
                   done)
               | Ok data =>
                   SetState (setRows (map (fun x =>
                     if Workout.id_is uuid x then data else x)))
                   done
               end)))
      end
  end.

(** *** [deleteWorkout] *)
Definition deleteWorkout (st : State) (id : string) : Prog :=
  Confirm "Delete this session?" (fun ok =>
    if negb ok then Return
    else
      let prev := rows st in
      SetState (setRows (filter (fun x => negb (Workout.id_is id x))))
     (Await (DeleteWorkout id) (fun r =>
        match r with
        | Error m => Alert m (SetState (setRows (fun _ => prev)) Return)
        | Ok _ => Return
        end))).

(** *** [refreshPBs] *)
Definition refreshPBs : Prog :=
  Await SelectPersonalBests (fun r =>
    match r with
    | Ok data =>
        SetState (setPBs (match data with Some l => l | None => [] end))
          Return
    | Error _ => Return
    end).

(** *** [saveCompetition] *)
Definition clean_competition (cdraft : Competition.t) : Competition.t :=
  {| Competition.id := Competition.id cdraft;
     Competition.user_id := Competition.user_id cdraft;
     Competition.date := Competition.date cdraft;
     Competition.meet := Competition.meet cdraft;
     Competition.distance_m :=
       Math_max (of_Z 25)
         (or_number (Competition.distance_m cdraft) (of_Z 50));
     Competition.stroke := Competition.stroke cdraft;
     Competition.time_sec :=
       Math_max (of_Z 1)
         (or_number (Competition.time_sec cdraft) (of_Z 40));
     Competition.location := Competition.location cdraft;
     Competition.notes := Competition.notes cdraft |}.

Definition saveCompetition (st : State) : Prog :=
  let clean := clean_competition (cdraft st) in
  let done :=
    SetState (setCEditingId None)
   (SetState (setCDraft emptyComp)
   (SetTimeout refreshPBs 250 Return)) in
  match session_user st with
  | None => Alert "Please sign in first." Return
  | Some u =>
      match truthy_id (ceditingId st) with
      | Some ceditingId =>
          let prev := find (Competition.id_is ceditingId) (comps st) in
          let updated := Competition.with_id clean ceditingId in
          SetState (setComps (map (fun x =>
            if Competition.id_is ceditingId x then updated else x)))
         (Await (UpdateCompetition updated ceditingId) (fun r =>
            match r with
            | Error m =>
                Alert m
               (SetState (setComps (map (fun x =>
                  if Competition.id_is ceditingId x
                  then restore prev x else x)))
                done)
            | Ok _ => done
            end))
      | None =>
          RandomUUID (fun uuid =>
          let optimistic := Competition.with_id clean uuid in
          SetState (setComps (fun r => optimistic :: r))
         (Await (InsertCompetition
                   (Competition.with_user_id clean (user_ident u)))
            (fun r =>
               match r with
               | Error m =>
                   Alert m
                  (SetState (setComps (filter (fun x =>
                     negb (Competition.id_is uuid x))))
                   done)
               | Ok data =>
                   SetState (setComps (map (fun x =>
                     if Competition.id_is uuid x then data else x)))
                   done
               end)))
      end
  end.

(** *** [deleteCompetition] *)
Definition deleteCompetition (st : State) (id : string) : Prog :=
  Confirm "Delete this result?" (fun ok =>
    if negb ok then Return
    else
      let prev := comps st in
      SetState (setComps (filter (fun x => negb (Competition.id_is id x))))
     (Await (DeleteCompetition id) (fun r =>
        match r with
        | Error m =>
            Alert m
           (SetState (setComps (fun _ => prev))
           (SetTimeout refreshPBs 250 Return))
        | Ok _ => SetTimeout refreshPBs 250 Return
        end))).

(** *** [CSVImport]: [parseCSV] and the file reader's [onload] *)
Definition trimmed (c : option string) : value :=
  match c with
  | Some s => Str (trim host s)
  | None => Undefined
  end.

Definition cell (c : option string) : value :=
  match c with
  | Some s => Str s
  | None => Undefined
  end.

Definition parseCSV (text : string) : list ImportRow.t :=
  let lines :=
    filter (fun l => negb (String.eqb l "")) (split_lines text) in
  match lines with
  | [] => []
  | first :: rest =>
      let header :=
        map (fun h => toLowerCase host (trim host h)) (split_on "," first) in
      let idx (name : string) := indexOf header name in
      map (fun line =>
        let cols := split_on "," line in
        {| ImportRow.date := trimmed (at_index cols (idx "date"));
           ImportRow.distance_m :=
             or (or (cell (at_index cols (idx "distance_m")))
                    (cell (at_index cols (idx "distance"))))
                (Num (of_Z 0));
           ImportRow.duration_min :=
             or (or (cell (at_index cols (idx "duration_min")))
                    (cell (at_index cols (idx "duration"))))
                (Num (of_Z 0));
           ImportRow.stroke :=
             or (trimmed (at_index cols (idx "stroke"))) (Str "Free");
           ImportRow.rpe := or (cell (at_index cols (idx "rpe"))) Null;
           ImportRow.notes :=
             or (trimmed (at_index cols (idx "notes"))) (Str "") |})
        rest
  end.

Definition no_rows_found : string :=
  "No rows found. Ensure your CSV has a header row.".

Definition onload (onRows : list ImportRow.t -> Prog) (text : string)
  : Prog :=
  let data := parseCSV text in
  if (List.length data =? 0)%nat then Alert no_rows_found Return
  else onRows data.

(** *** [onRows]: the bulk insert *)
Definition clean_row (today uid : string) (r : ImportRow.t)
  : CleanedRow.t :=
  {| CleanedRow.date := nullish (ImportRow.date r) (Str today);
     CleanedRow.distance_m :=
       Math_max (of_Z 0)
         (or_number (Number (ImportRow.distance_m r)) (of_Z 0));
     CleanedRow.duration_min :=
       Math_max (of_Z 0)
         (or_number (Number (ImportRow.duration_min r)) (of_Z 0));
     CleanedRow.stroke :=
       if existsb (String.eqb (String_ (ImportRow.stroke r)))
            ["Free"; "Back"; "Breast"; "Fly"; "IM"; "Drill"]
       then ImportRow.stroke r
       else Str "Free";
     CleanedRow.rpe :=
       if truthy (ImportRow.rpe r)
       then Num (Math_min (of_Z 10)
                   (Math_max (of_Z 1) (Number (ImportRow.rpe r))))
       else Null;
     CleanedRow.notes := nullish (ImportRow.notes r) Null;
     CleanedRow.user_id := uid |}.

(** [for (let i = 0; i < cleaned.length; i += 500) ...]; the loop is
    entered at most [cleaned.length] times, which bounds [fuel]. *)
Fixpoint insert_loop (fuel : nat) (cleaned : list CleanedRow.t) (i : nat)
  : Prog :=
  match fuel with
  | O => Return
  | S fuel' =>
      if (i <? List.length cleaned)%nat then
        Await (InsertWorkouts (slice cleaned i (i + 500))) (fun r =>
          match r with
          | Error m => Alert m Return
          | Ok _ => insert_loop fuel' cleaned (i + 500)
          end)
      else Return
  end.

Definition onRows (st : State) (rows : list ImportRow.t) : Prog :=
  match session_user st with
  | None => Alert "Please sign in first." Return
  | Some u =>
      Today (fun today =>
        let cleaned := map (clean_row today (user_ident u)) rows in
        andThen (insert_loop (List.length cleaned) cleaned 0) fetchAll)
  end.

End Component.

End App.

(* ===================================================================== *)
(** * Vocabulary of the properties                                        *)
(* ===================================================================== *)

(** A comparison function that composes lexicographically into a total
    preorder. *)
Record Cmp_ok {A : Type} (cmp : A -> A -> comparison) : Prop := {
  cmp_opp : forall x y, cmp y x = CompOpp (cmp x y);
  cmp_lt_trans : forall x y z, cmp x y = Lt -> cmp y z = Lt -> cmp x z = Lt;
  cmp_eq_left : forall x y z, cmp x y = Eq -> cmp x z = cmp y z
}.

Module Vocabulary.

Import Js App.
Local Open Scope string_scope.
Local Open Scope list_scope.

(** [q] occurs in [s]. *)
Definition occurs_in (q s : string) : Prop :=
  exists a b : string, s = String.append a (String.append q b).

(** ** Identifiers *)

(** No two different entries carry the same identifier. *)
Definition ids_distinct {A : Type} (id : A -> option string) (l : list A)
  : Prop :=
  forall e x y, In x l -> In y l -> id x = Some e -> id y = Some e -> x = y.

(** The identifier is carried by no entry. *)
Definition id_fresh {A : Type} (id : A -> option string) (s : string)
  (l : list A) : Prop :=
  forall x, In x l -> id x <> Some s.

(** The state a component is in before any handler ran: the initial
    values of its [useState] cells. *)
Definition initial (host : Host) : State :=
  {| session := None; loading := true; rows := []; comps := []; pbs := [];
     draft := emptyWorkout host; cdraft := emptyComp host;
     editingId := None; ceditingId := None;
     page := 0; search := ""; query := "" |}.

(** [setSession(s)], as the authentication listener calls it. *)
Definition setSession (s : option Session) (st : State) : State :=
  {| session := s; loading := loading st; rows := rows st;
     comps := comps st; pbs := pbs st; draft := draft st;
     cdraft := cdraft st; editingId := editingId st;
     ceditingId := ceditingId st; page := page st; search := search st;
     query := query st |}.

(** ** The mutating operations of the two repositories

    A save is a create or an update according to the editing
    identifier of the state. *)
Inductive Mutation : Type :=
| SaveSession
| DeleteSession (id : string)
| SaveResult
| DeleteResult (id : string).

Definition handler (host : Host) (st : State) (op : Mutation) : Prog :=
  match op with
  | SaveSession => saveWorkout host st
  | DeleteSession id => deleteWorkout st id
  | SaveResult => saveCompetition host st
  | DeleteResult id => deleteCompetition st id
  end.

(** The remote store reports an error to the [n]-th request. *)
Definition fails_at (env : Env) (n : nat) : Prop :=
  forall (A : Type) (req : Request A),
    exists m, respond env A n req = Error m.

(** Equality of two sessions, or two results, up to the identifier. *)
Definition same_but_id (a b : Workout.t) : Prop :=
  Workout.user_id a = Workout.user_id b
  /\ Workout.date a = Workout.date b
  /\ Workout.distance_m a = Workout.distance_m b
  /\ Workout.duration_min a = Workout.duration_min b
  /\ Workout.stroke a = Workout.stroke b
  /\ Workout.rpe a = Workout.rpe b
  /\ Workout.notes a = Workout.notes b.

Definition same_result_but_id (a b : Competition.t) : Prop :=
  Competition.user_id a = Competition.user_id b
  /\ Competition.date a = Competition.date b
  /\ Competition.meet a = Competition.meet b
  /\ Competition.distance_m a = Competition.distance_m b
  /\ Competition.stroke a = Competition.stroke b
  /\ Competition.time_sec a = Competition.time_sec b
  /\ Competition.location a = Competition.location b
  /\ Competition.notes a = Competition.notes b.

(** ** The validation table, in the words of the specification *)

(** "clamp to >= [lo], default [dflt] if non-numeric" *)
Definition spec_clamp_min (lo dflt x : number) : number :=
  match x with
  | NaN => dflt
  | _ => Math_max lo x
  end.

(** "clamp to [1,10] if present, else omitted" *)
Definition spec_effort (rpe : option number) : option number :=
  match rpe with
  | Some n => Some (Math_min (of_Z 10) (Math_max (of_Z 1) n))
  | None => None
  end.

(** Equality of numbers: that of the rationals on finite ones. *)
Definition num_eq (a b : number) : Prop :=
  match a, b with
  | NaN, NaN | NegInf, NegInf | PosInf, PosInf => True
  | Fin x, Fin y => Qeq x y
  | _, _ => False
  end.

(** A number lies between two bounds. *)
Definition between (lo hi x : number) : Prop :=
  num_leb lo x = true /\ num_leb x hi = true.

(** ** Order of the in-memory sequence *)

(** [a] may stand before [b] in a sequence sorted by date descending. *)
Definition date_geb (a b : Workout.t) : bool :=
  String.leb (Workout.date b) (Workout.date a).

Definition sorted_by_date_desc (l : list Workout.t) : Prop :=
  Sorted (fun a b => date_geb a b = true) l.

(** What the store answers to
    [select("*").order("date", { ascending: false }).limit(500)] over the
    rows [table] the signed-in user may read. *)
Definition select_workouts (table : list Workout.t) : list Workout.t :=
  firstn 500 (Schema.sort_by date_geb table).

(** The states on display while the requests of a run were pending. *)
Fixpoint inflight_states (t : list Event) : list State :=
  match t with
  | [] => []
  | EvRequest _ s :: t' => s :: inflight_states t'
  | _ :: t' => inflight_states t'
  end.

(** ** The view, in the words of the specification *)

(** "case-insensitive substring match" *)
Definition contains_ci (host : Host) (field query : string) : bool :=
  includes (toLowerCase host field) (toLowerCase host query).

Definition spec_matches (host : Host) (query : string) (r : Workout.t)
  : bool :=
  contains_ci host (Workout.date r) query
  || contains_ci host (String_of_number host (Workout.distance_m r)) query
  || contains_ci host (String_of_number host (Workout.duration_min r)) query
  || contains_ci host (Workout.stroke_text (Workout.stroke r)) query
  || contains_ci host (match Workout.notes r with
                  | Some s => s
                  | None => ""
                  end) query.

Definition spec_view (host : Host) (rows : list Workout.t) (query : string)
  (page : nat) : list Workout.t :=
  slice (filter (spec_matches host query) rows) (page * 50) (page * 50 + 50).

(** ** The bulk import *)

(** The [i]-th batch of 500 rows. *)
Definition batch (cleaned : list CleanedRow.t) (i : nat)
  : list CleanedRow.t :=
  slice cleaned (500 * i) (500 * i + 500).

(** The sizes of the batches a run submitted. *)
Fixpoint submitted_sizes (t : list Event) : list nat :=
  match t with
  | [] => []
  | EvRequest (InsertWorkouts b) _ :: t' =>
      List.length b :: submitted_sizes t'
  | _ :: t' => submitted_sizes t'
  end.

(** The three requests of a full re-list, as [fetchAll] issues them
    from state [st]. *)
Definition relist (st : State) : list Event :=
  [ EvRequest SelectWorkouts (setLoading true st);
    EvRequest SelectCompetitions (setLoading true st);
    EvRequest SelectPersonalBests (setLoading true st) ].

End Vocabulary.

(** ** Concrete surroundings, to evaluate the handlers *)

Module Sample.

Import Js App Vocabulary.
Local Open Scope string_scope.
Local Open Scope list_scope.

(** [toLowerCase] and [trim] on ASCII text: exact on strings of ASCII
    characters, which is all the evaluations below feed them; elsewhere
    these stand-ins leave the letters and the white space of the other
    Unicode blocks as they are. *)
Definition lower_ascii (c : ascii) : ascii :=
  let n := nat_of_ascii c in
  if (65 <=? n)%nat && (n <=? 90)%nat then ascii_of_nat (n + 32) else c.

Fixpoint ascii_toLowerCase (s : string) : string :=
  match s with
  | EmptyString => EmptyString
  | String c s' => String (lower_ascii c) (ascii_toLowerCase s')
  end.

Definition is_space (c : ascii) : bool :=
  let n := nat_of_ascii c in
  ((9 <=? n)%nat && (n <=? 13)%nat) || (n =? 32)%nat.

Fixpoint trimStart (s : string) : string :=
  match s with
  | EmptyString => EmptyString
  | String c s' => if is_space c then trimStart s' else s
  end.

Fixpoint trimEnd (s : string) : string :=
  match s with
  | EmptyString => EmptyString
  | String c s' =>
      match trimEnd s' with
      | EmptyString => if is_space c then EmptyString else String c EmptyString
      | t => String c t
      end
  end.

Definition ascii_trim (s : string) : string := trimEnd (trimStart s).

(** [String(n)] and [Number(s)] on integers: exact on integer-valued
    numbers and on strings of decimal digits, which is all the
    evaluations below feed it; elsewhere this stand-in rounds down,
    respectively answers [NaN]. *)
Definition integer_text (n : number) : string :=
  match n with
  | NaN => "NaN"
  | NegInf => "-Infinity"
  | PosInf => "Infinity"
  | Fin q => NilZero.string_of_int (Z.to_int (Qnum q / Zpos (Qden q)))
  end.

Definition integer_value (s : string) : number :=
  let t := ascii_trim s in
  if String.eqb t "" then of_Z 0
  else match NilZero.int_of_string t with
       | Some i => of_Z (Z.of_int i)
       | None => NaN
       end.

Definition host : Host :=
  {| String_of_number := integer_text;
     Number_of_string := integer_value;
     load_date := "2024-05-01";
     toLowerCase := ascii_toLowerCase;
     trim := ascii_trim |}.

Definition swimmer : User :=
  {| user_ident := "user-1"; email := "swimmer@example.com" |}.

(** A store that accepts every request; inserted rows come back with
    the identifier the store assigns. *)
Definition server_id (n : nat) : string :=
  "server-" ++ NilZero.string_of_uint (Nat.to_uint n).

Definition accept (A : Type) (n : nat) (req : Request A) : Response A :=
  match req in Request T return Response T with
  | SelectWorkouts => Ok (Some [])
  | SelectCompetitions => Ok (Some [])
  | SelectPersonalBests => Ok (Some [])
  | InsertWorkout p => Ok (Workout.with_id p (server_id n))
  | UpdateWorkout _ _ => Ok tt
  | DeleteWorkout _ => Ok tt
  | InsertWorkouts _ => Ok tt
  | InsertCompetition p => Ok (Competition.with_id p (server_id n))
  | UpdateCompetition _ _ => Ok tt
  | DeleteCompetition _ => Ok tt
  end.

(** A store that fails every request. *)
Definition reject (A : Type) (n : nat) (req : Request A) : Response A :=
  Error "network error".

Definition accepting : Env :=
  {| confirm := fun _ => true; randomUUID := "temp-id";
     today := "2024-05-02"; respond := accept |}.

Definition rejecting : Env :=
  {| confirm := fun _ => true; randomUUID := "temp-id";
     today := "2024-05-02"; respond := reject |}.

Definition session_of (y : number) (day : string) (notes : string)
  (id : option string) : Workout.t :=
  {| Workout.id := id; Workout.user_id := None; Workout.date := day;
     Workout.distance_m := y; Workout.duration_min := of_Z 25;
     Workout.stroke := Workout.Free; Workout.rpe := Some (of_Z 6);
     Workout.notes := Some notes |}.

Definition result_of (y t : number) (day : string) (id : option string)
  : Competition.t :=
  {| Competition.id := id; Competition.user_id := None;
     Competition.date := day; Competition.meet := "Spring Open";
     Competition.distance_m := y; Competition.stroke := Competition.Free;
     Competition.time_sec := t; Competition.location := None;
     Competition.notes := None |}.

(** Signed in, one session and one result on display. *)
Definition signed_in : State :=
  setComps (fun _ => [result_of (of_Z 50) (of_Z 28) "2024-02-01" (Some "c1")])
 (setRows (fun _ => [session_of (of_Z 1500) "2024-05-01" "steady" (Some "w1")])
 (setLoading false
 (setSession (Some {| user := Some swimmer |}) (initial host)))).

(** Signed in with nothing recorded yet, then a session of 2 May
    created, then one of 1 January. *)
Definition signed_in_empty : State :=
  setLoading false
    (setSession (Some {| user := Some swimmer |}) (initial host)).

Definition create (env : Env) (n : nat) (d : Workout.t) (st : State)
  : State :=
  final (run env (saveWorkout host (setDraft d st)) n (setDraft d st)).

Definition after_two_creates : State :=
  create accepting 1 (session_of (of_Z 800) "2024-01-01" "easy" None)
    (create accepting 0 (session_of (of_Z 1500) "2024-05-02" "steady" None)
       signed_in_empty).

(** A store that fails the second request of a run only. *)
Definition rejecting_second : Env :=
  {| confirm := fun _ => true; randomUUID := "temp-id";
     today := "2024-05-02";
     respond := fun A n req =>
       if (n =? 1)%nat then reject A n req else accept A n req |}.

(** Two import files: a header alone, and a header with one row. *)
Definition newline : string := String LF "".

Definition header_line : string :=
  "date,distance_m,duration_min,stroke,rpe,notes".

Definition header_only : string := header_line ++ newline.

Definition one_row : string :=
  header_line ++ newline ++ "2024-05-01,1500,25,Free,6,steady" ++ newline.

(** The same collections on display with nobody signed in. *)
Definition signed_out : State := setSession None signed_in.

(** The session on display is being edited into a longer one. *)
Definition editing : State :=
  setDraft (session_of (of_Z 2000) "2024-05-01" "long" (Some "w1"))
    (setEditingId (Some "w1") signed_in).

(** A session draft whose effort field was cleared, which the form
    reads as [0]; a result draft whose distance and time are [0]. *)
Definition effort_cleared : Workout.t :=
  {| Workout.id := None; Workout.user_id := None;
     Workout.date := "2024-05-03"; Workout.distance_m := of_Z 1000;
     Workout.duration_min := of_Z 20; Workout.stroke := Workout.Back;
     Workout.rpe := Some (of_Z 0); Workout.notes := Some "" |}.

Definition zero_result : Competition.t :=
  result_of (of_Z 0) (of_Z 0) "2024-05-03" None.

(** Rows of the competitions table. *)
Definition swim (id : string) (y : Z) (t : Q) (day : Z)
  : Schema.Competitions.row :=
  {| Schema.Competitions.id := id; Schema.Competitions.user_id := "user-1";
     Schema.Competitions.date := day; Schema.Competitions.meet := "Spring Open";
     Schema.Competitions.distance_m := y; Schema.Competitions.stroke := "Free";
     Schema.Competitions.time_sec := t; Schema.Competitions.location := None;
     Schema.Competitions.notes := None |}.

End Sample.

(* ===================================================================== *)
(** * [src/App.tsx], continued: editing, paging and the CSV export        *)
(* ===================================================================== *)

Module Rest.

Import Js App.
Local Open Scope string_scope.
Local Open Scope list_scope.

(** [setPage(f)] *)
Definition setPage (f : nat -> nat) (st : State) : State :=
  {| session := session st; loading := loading st; rows := rows st;
     comps := comps st; pbs := pbs st; draft := draft st;
     cdraft := cdraft st; editingId := editingId st;
     ceditingId := ceditingId st; page := f (page st); search := search st;
     query := query st |}.

(** The Prev button: [setPage((p) => Math.max(0, p - 1))]; on naturals
    [p - 1] is already [0] at [0]. *)
Definition prevPage : Prog := SetState (setPage (fun p => Nat.max 0 (p - 1))) Return.

(** The Next button: [setPage((p) => p + 1)] *)
Definition nextPage : Prog := SetState (setPage (fun p => p + 1)) Return.

(** [editWorkout(id)]; [window.scrollTo] moves the viewport only and is
    left out of the state. *)
Definition editWorkout (st : State) (id : string) : Prog :=
  match find (Workout.id_is id) (rows st) with
  | Some r => SetState (setEditingId (Some id)) (SetState (setDraft r) Return)
  | None => Return
  end.

(** [editCompetition(id)] *)
Definition editCompetition (st : State) (id : string) : Prog :=
  match find (Competition.id_is id) (comps st) with
  | Some r => SetState (setCEditingId (Some id)) (SetState (setCDraft r) Return)
  | None => Return
  end.

(** [s.replaceAll(a, b)] for one-character [a] and [b]. *)
Fixpoint replaceAll (a b : ascii) (s : string) : string :=
  match s with
  | EmptyString => EmptyString
  | String c s' =>
      String (if Ascii.eqb c a then b else c) (replaceAll a b s')
  end.

Section CsvExport.

Variable host : Host.

(** The text that [exportCSV(rows)] offers for download: the header and
    one line per session, joined by line feeds. *)
Definition export_line (r : Workout.t) : string :=
  String.concat ","
    [ Workout.date r;
      String_of_number host (Workout.distance_m r);
      String_of_number host (Workout.duration_min r);
      Workout.stroke_text (Workout.stroke r);
      match Workout.rpe r with
      | Some n => String_of_number host n
      | None => ""
      end;
      replaceAll "," " " (match Workout.notes r with
                          | Some s => s
                          | None => ""
                          end) ].

Definition exportCSV (rows : list Workout.t) : string :=
  let header :=
    ["date"; "distance_m"; "duration_min"; "stroke"; "rpe"; "notes"] in
  let body := map export_line rows in
  String.concat (String LF "") (String.concat "," header :: body).

End CsvExport.

(** ** Vocabulary of the further properties *)

(** No character of [s] satisfies [bad]. *)
Fixpoint avoids (bad : ascii -> bool) (s : string) : bool :=
  match s with
  | EmptyString => true
  | String c s' => negb (bad c) && avoids bad s'
  end.

Definition is_comma (c : ascii) : bool := Ascii.eqb c ",".
Definition is_break (c : ascii) : bool := Ascii.eqb c LF || Ascii.eqb c CR.
Definition is_separator (c : ascii) : bool := is_comma c || is_break c.

(** The column names that [exportCSV] writes. *)
Definition exported_names : list string :=
  ["date"; "distance_m"; "duration_min"; "stroke"; "rpe"; "notes"].

(** The column names and the stroke names are words of lower-case ASCII
    letters, digits and underscores, respectively of ASCII letters:
    [trim] finds no white space at their ends and [toLowerCase] no
    letter to change in a column name. *)
Definition keeps_plain_words (host : Host) : Prop :=
  (forall name, In name exported_names ->
                toLowerCase host (trim host name) = name)
  /\ (forall s : Workout.Stroke,
        trim host (Workout.stroke_text s) = Workout.stroke_text s).

(** The host reads back the numbers of [r] that it wrote, and writes
    none of them as the empty text. *)
Definition read_back (host : Host) (r : Workout.t) : Prop :=
  String_of_number host (Workout.distance_m r) <> ""
  /\ String_of_number host (Workout.duration_min r) <> ""
  /\ Number_of_string host (String_of_number host (Workout.distance_m r))
     = Workout.distance_m r
  /\ Number_of_string host (String_of_number host (Workout.duration_min r))
     = Workout.duration_min r
  /\ (forall n, Workout.rpe r = Some n ->
                String_of_number host n <> ""
                /\ Number_of_string host (String_of_number host n) = n).

(** What [parseCSV] reads back from the line exported for [r]. *)
Definition reimported (host : Host) (r : Workout.t) : ImportRow.t :=
  {| ImportRow.date := Str (trim host (Workout.date r));
     ImportRow.distance_m :=
       or (Str (String_of_number host (Workout.distance_m r))) (Num (of_Z 0));
     ImportRow.duration_min :=
       or (Str (String_of_number host (Workout.duration_min r))) (Num (of_Z 0));
     ImportRow.stroke := Str (Workout.stroke_text (Workout.stroke r));
     ImportRow.rpe :=
       match Workout.rpe r with
       | Some n => or (Str (String_of_number host n)) Null
       | None => Null
       end;
     ImportRow.notes :=
       Str (trim host (replaceAll "," " " (match Workout.notes r with
                                      | Some s => s
                                      | None => ""
                                      end))) |}.

(** The fields of a session can be exported without breaking the line or
    the columns. *)
Definition exportable (host : Host) (r : Workout.t) : Prop :=
  avoids is_separator (Workout.date r) = true
  /\ avoids is_separator (String_of_number host (Workout.distance_m r)) = true
  /\ avoids is_separator (String_of_number host (Workout.duration_min r)) = true
  /\ (forall n, Workout.rpe r = Some n ->
        avoids is_separator (String_of_number host n) = true)
  /\ avoids is_break (match Workout.notes r with
                      | Some s => s
                      | None => ""
                      end) = true.

(** A line is not empty; the column names of a header line, as
    [parseCSV] compares them; a carriage return and line feed. *)
Definition nonempty (l : string) : bool := negb (String.eqb l "").

Definition column_names (host : Host) (header_line : string)
  : list string :=
  map (fun h => toLowerCase host (trim host h)) (split_on "," header_line).

Definition CRLF : string := String CR (String LF "").

(** The key of a view row. *)
Definition pb_key (p : Schema.PersonalBests.row) : string * string * Z :=
  (Schema.PersonalBests.user_id p, Schema.PersonalBests.stroke p,
   Schema.PersonalBests.distance_m p).

(** The key of a result. *)
Definition row_key (c : Schema.Competitions.row) : string * string * Z :=
  (Schema.Competitions.user_id c, Schema.Competitions.stroke c,
   Schema.Competitions.distance_m c).

(** The same results are recorded under the key of [c] in both tables. *)
Definition same_results_for (c : Schema.Competitions.row)
  (l1 l2 : list Schema.Competitions.row) : Prop :=
  forall x, Schema.same_key x c = true -> (In x l1 <-> In x l2).

(** The first error among the answers to the three requests of a full
    fetch, in the order the code looks at them. *)
Definition first_error {A B C : Type} (rw : Response A) (rc : Response B)
  (rp : Response C) : option string :=
  match rw, rc, rp with
  | Error m, _, _ => Some m
  | Ok _, Error m, _ => Some m
  | Ok _, Ok _, Error m => Some m
  | Ok _, Ok _, Ok _ => None
  end.

(** A user who declines every confirmation. *)
Definition declining : Env :=
  {| confirm := fun _ => false; randomUUID := "temp-id";
     today := "2024-05-02"; respond := Sample.accept |}.

(** Three results: two over 50 m Free, one over 100 m. *)
Definition three_swims : list Schema.Competitions.row :=
  [Sample.swim "r1" 50 (281 # 10) 8797; Sample.swim "r2" 100 (61 # 1) 8797;
   Sample.swim "r3" 50 (2810 # 100) 8766].

(** A faster result over 50 m Free. *)
Definition faster_swim : Schema.Competitions.row :=
  Sample.swim "r4" 50 (2795 # 100) 8800.

(** A header line in capitals with blanks around the names. *)
Definition shouting_header : string :=
  " DATE , Distance_M ,DURATION_MIN, Stroke ,RPE , Notes".

(** The six strokes of a session, as the bulk insert lists them. *)
Definition session_strokes : list string :=
  ["Free"; "Back"; "Breast"; "Fly"; "IM"; "Drill"].

(** ** What the component draws

    [App] returns the loading notice while [loading] holds, the sign-in
    card when there is no session, and the authenticated screen
    otherwise; the header of that screen reads [session.user.email],
    which throws when the session has no user. *)
Inductive Screen : Type :=
| LoadingScreen
| SignInScreen
| AuthenticatedScreen
| RenderError.

Definition screen (st : State) : Screen :=
  if loading st then LoadingScreen
  else match session st with
       | None => SignInScreen
       | Some s =>
           match user s with
           | Some _ => AuthenticatedScreen
           | None => RenderError
           end
       end.

(** The mutating controls drawn in state [st], by the operation they
    start: the two forms, a Delete button for every session of the page
    on display and for every result, and the file input of the import.
    All of them belong to the authenticated screen. *)
Definition offers (host : Host) (st : State) (op : Vocabulary.Mutation)
  : bool :=
  match screen st with
  | AuthenticatedScreen =>
      match op with
      | Vocabulary.SaveSession | Vocabulary.SaveResult => true
      | Vocabulary.DeleteSession id =>
          existsb (Workout.id_is id) (filtered host st)
      | Vocabulary.DeleteResult id =>
          existsb (Competition.id_is id) (comps st)
      end
  | _ => false
  end.

Definition offers_import (st : State) : bool :=
  match screen st with
  | AuthenticatedScreen => true
  | _ => false
  end.

(** ** Larger samples *)

(** A season of 250 sessions, every other one an easy swim. *)
Definition season : list Workout.t :=
  map (fun i =>
         Sample.session_of (of_Z (1000 + Z.of_nat i)) "2024-05-01"
           (if Nat.even i then "Easy swim" else "sprint set")
           (Some (Sample.server_id i)))
    (seq 0 250).

(** Three sessions: notes with a comma, an effort of 0, mixed case. *)
Definition logbook : list Workout.t :=
  [ Sample.session_of (of_Z 1500) "2024-05-01" "steady, then fast"
      (Some "w1");
    Sample.effort_cleared;
    Sample.session_of (of_Z 400) "2024-05-04" "ButterFLY drills"
      (Some "w3") ].

(** A file of 1001 rows. *)
Definition thousand_and_one : list ImportRow.t :=
  repeat
    {| ImportRow.date := Str "2024-05-01"; ImportRow.distance_m := Str "1500";
       ImportRow.duration_min := Str "25"; ImportRow.stroke := Str "Free";
       ImportRow.rpe := Null; ImportRow.notes := Str "" |} 1001.

(** A store that accepts every request and lists two sessions, one
    result and one personal best, none of which is the session on
    display in [Sample.signed_in]. *)
Definition listed_sessions : list Workout.t :=
  [ Sample.session_of (of_Z 1500) "2024-05-01" "" (Some "server-7");
    Sample.session_of (of_Z 800) "2024-04-30" "drills" (Some "server-3") ].

Definition listed_results : list Competition.t :=
  [ Sample.result_of (of_Z 100) (of_Z 61) "2024-03-01" (Some "server-5") ].

Definition listed_bests : list PB.t :=
  [ {| PB.user_id := "user-1"; PB.stroke := "Free";
       PB.distance_m := of_Z 100; PB.time_sec := of_Z 61;
       PB.date := "2024-03-01"; PB.meet := "Spring Open" |} ].

Definition stocked : Env :=
  {| confirm := fun _ => true; randomUUID := "temp-id";
     today := "2024-05-02";
     respond := fun A n req =>
       match req in Request T return Response T with
       | SelectWorkouts => Ok (Some listed_sessions)
       | SelectCompetitions => Ok (Some listed_results)
       | SelectPersonalBests => Ok (Some listed_bests)
       | other => Sample.accept _ n other
       end |}.

End Rest.

(* ===================================================================== *)
(** * Properties                                                          *)
(* ===================================================================== *)

(** ** Comparisons that compose lexicographically *)

Section Comparators.

Lemma cmp_refl {A} (cmp : A -> A -> comparison) (H : Cmp_ok cmp) x :
  cmp x x = Eq.
Proof.
  pose proof (cmp_opp cmp H x x) as E.
  destruct (cmp x x); simpl in E; congruence.
Qed.

Lemma cmp_eq_right {A} (cmp : A -> A -> comparison) (H : Cmp_ok cmp) x y z :
  cmp y z = Eq -> cmp x y = cmp x z.
Proof.
  intros E.
  rewrite (cmp_opp cmp H y x), (cmp_opp cmp H z x).
  f_equal. apply (cmp_eq_left cmp H). exact E.
Qed.

Lemma cmp_le_trans {A} (cmp : A -> A -> comparison) (H : Cmp_ok cmp) x y z :
  cmp x y <> Gt -> cmp y z <> Gt -> cmp x z <> Gt.
Proof.
  intros Hxy Hyz.
  destruct (cmp x y) eqn:Exy; try congruence.
  - rewrite (cmp_eq_left cmp H x y z Exy). exact Hyz.
  - destruct (cmp y z) eqn:Eyz; try congruence.
    + rewrite (cmp_eq_right cmp H x y z Eyz) in Exy. congruence.
    + rewrite (cmp_lt_trans cmp H x y z Exy Eyz). discriminate.
Qed.

Lemma String_compare_ok : Cmp_ok String.compare.
Proof.
  split.
  - intros x y. apply String.compare_antisym.
  - intros x y z Hxy Hyz.
    apply String_as_OT.cmp_lt. apply String_as_OT.cmp_lt in Hxy, Hyz.
    eapply String_as_OT.lt_trans; eassumption.
  - intros x y z E. apply String.compare_eq_iff in E. now subst.
Qed.

Lemma Z_compare_ok : Cmp_ok Z.compare.
Proof.
  split.
  - intros x y. apply Z.compare_antisym.
  - intros x y z. rewrite !Z.compare_lt_iff. lia.
  - intros x y z E. apply Z.compare_eq in E. now subst.
Qed.

Lemma Qcompare_ok : Cmp_ok Qcompare.
Proof.
  split.
  - intros x y. symmetry. apply Qcompare_antisym.
  - intros x y z. rewrite <- !Qlt_alt. apply Qlt_trans.
  - intros x y z E. apply Qeq_alt in E. now rewrite E.
Qed.

Lemma on_ok {A B} (f : A -> B) (cmp : B -> B -> comparison) :
  Cmp_ok cmp -> Cmp_ok (fun a b => cmp (f a) (f b)).
Proof.
  intros H. split; intros.
  - apply (cmp_opp cmp H).
  - eapply (cmp_lt_trans cmp H); eassumption.
  - now apply (cmp_eq_left cmp H).
Qed.

Lemma lex_ok {A} (c1 c2 : A -> A -> comparison) :
  Cmp_ok c1 -> Cmp_ok c2 ->
  Cmp_ok (fun a b => Schema.lex (c1 a b) (c2 a b)).
Proof.
  intros H1 H2. split.
  - intros x y. rewrite (cmp_opp c1 H1 x y), (cmp_opp c2 H2 x y).
    destruct (c1 x y); reflexivity.
  - intros x y z. unfold Schema.lex.
    destruct (c1 x y) eqn:E1; try discriminate.
    + rewrite (cmp_eq_left c1 H1 x y z E1).
      destruct (c1 y z) eqn:E2; try discriminate; auto.
      apply (cmp_lt_trans c2 H2).
    + intros _. destruct (c1 y z) eqn:E2; try discriminate.
      * rewrite <- (cmp_eq_right c1 H1 x y z E2), E1. reflexivity.
      * rewrite (cmp_lt_trans c1 H1 x y z E1 E2). reflexivity.
  - intros x y z. unfold Schema.lex.
    destruct (c1 x y) eqn:E1; try discriminate.
    rewrite (cmp_eq_left c1 H1 x y z E1).
    intros E2. now rewrite (cmp_eq_left c2 H2 x y z E2).
Qed.

End Comparators.

(** ** The sort step *)

Section Sorting.

Context {A : Type} (leb : A -> A -> bool).
Hypothesis leb_total : forall x y, leb x y = true \/ leb y x = true.
Hypothesis leb_trans :
  forall x y z, leb x y = true -> leb y z = true -> leb x z = true.

Lemma insert_sorted_perm x l :
  Permutation (x :: l) (Schema.insert_sorted leb x l).
Proof.
  induction l as [|y l IH]; simpl.
  - apply Permutation_refl.
  - destruct (leb x y).
    + apply Permutation_refl.
    + eapply perm_trans; [apply perm_swap|]. now apply perm_skip.
Qed.

Lemma sort_by_perm l : Permutation l (Schema.sort_by leb l).
Proof.
  induction l as [|x l IH]; simpl.
  - apply perm_nil.
  - eapply perm_trans; [|apply insert_sorted_perm]. now apply perm_skip.
Qed.

Lemma insert_sorted_sorted x l :
  StronglySorted (fun a b => leb a b = true) l ->
  StronglySorted (fun a b => leb a b = true) (Schema.insert_sorted leb x l).
Proof.
  induction 1 as [|y l Hs IH Hall]; simpl.
  - repeat constructor.
  - destruct (leb x y) eqn:E.
    + constructor; [now constructor|].
      constructor; [exact E|].
      eapply Forall_impl; [|exact Hall].
      intros z Hz. eapply leb_trans; eassumption.
    + constructor; [exact IH|].
      assert (Hyx : leb y x = true).
      { destruct (leb_total x y) as [H|H]; [congruence|exact H]. }
      eapply Permutation_Forall; [apply insert_sorted_perm|].
      now constructor.
Qed.

Lemma sort_by_sorted l :
  StronglySorted (fun a b => leb a b = true) (Schema.sort_by leb l).
Proof.
  induction l as [|x l IH]; simpl.
  - constructor.
  - now apply insert_sorted_sorted.
Qed.

End Sorting.

(** ** [distinct on]: the first row of each set *)

Section Distinct.

Context {A : Type} (same : A -> A -> bool).
Hypothesis same_refl : forall x, same x x = true.
Hypothesis same_sym : forall x y, same x y = same y x.
Hypothesis same_trans :
  forall x y z, same x y = true -> same y z = true -> same x z = true.

Lemma seen_same x y seen :
  same x y = true -> existsb (same y) seen = true ->
  existsb (same x) seen = true.
Proof.
  intros Hxy Hy. apply existsb_exists in Hy as [s [Hs Hys]].
  apply existsb_exists. exists s. split; [exact Hs|].
  eapply same_trans; eassumption.
Qed.

Lemma distinct_on_unseen x seen l :
  In x (Schema.distinct_on same seen l) ->
  In x l /\ existsb (same x) seen = false.
Proof.
  revert seen. induction l as [|y l IH]; intros seen; simpl.
  - tauto.
  - destruct (existsb (same y) seen) eqn:E.
    + intros H. apply IH in H. tauto.
    + intros [H|H].
      * subst. tauto.
      * apply IH in H as [Hin Hun]. simpl in Hun.
        apply orb_false_iff in Hun. tauto.
Qed.

Lemma distinct_on_first x seen l :
  In x (Schema.distinct_on same seen l) ->
  exists l1 l2, l = l1 ++ x :: l2 /\ forall y, In y l1 -> same x y = false.
Proof.
  revert seen. induction l as [|y l IH]; intros seen; simpl.
  - tauto.
  - destruct (existsb (same y) seen) eqn:E.
    + intros H. pose proof (distinct_on_unseen _ _ _ H) as [_ Hun].
      apply IH in H as (l1 & l2 & -> & Hl1).
      exists (y :: l1), l2. split; [reflexivity|].
      intros z [<-|Hz]; [|now apply Hl1].
      destruct (same x y) eqn:Exy; [|reflexivity].
      rewrite (seen_same x y seen Exy E) in Hun. discriminate.
    + intros [H|H].
      * subst. exists [], l. split; [reflexivity|]. intros z [].
      * pose proof (distinct_on_unseen _ _ _ H) as [_ Hun].
        simpl in Hun. apply orb_false_iff in Hun as [Hxy _].
        apply IH in H as (l1 & l2 & -> & Hl1).
        exists (y :: l1), l2. split; [reflexivity|].
        intros z [<-|Hz]; [exact Hxy|now apply Hl1].
Qed.

Lemma filter_none {B} (f : B -> bool) (l : list B) :
  (forall z, In z l -> f z = false) -> filter f l = [].
Proof.
  induction l as [|z l IH]; simpl; intros H; [reflexivity|].
  rewrite (H z (or_introl eq_refl)). apply IH. intros; apply H; now right.
Qed.

Lemma distinct_on_seen_none y seen l :
  existsb (same y) seen = true ->
  filter (same y) (Schema.distinct_on same seen l) = [].
Proof.
  intros Hy. apply filter_none. intros z Hz.
  apply distinct_on_unseen in Hz as [_ Hun].
  destruct (same y z) eqn:E; [|reflexivity].
  rewrite same_sym in E.
  rewrite (seen_same z y seen E Hy) in Hun. discriminate.
Qed.

Lemma distinct_on_unique y seen l :
  In y l -> existsb (same y) seen = false ->
  exists x, filter (same y) (Schema.distinct_on same seen l) = [x].
Proof.
  revert seen. induction l as [|z l IH]; intros seen; simpl.
  - tauto.
  - intros Hin Hy. destruct (existsb (same z) seen) eqn:E.
    + destruct Hin as [<-|Hin]; [congruence|]. now apply IH.
    + simpl. destruct (same y z) eqn:Eyz.
      * exists z. f_equal. apply distinct_on_seen_none.
        simpl. now rewrite Eyz.
      * destruct Hin as [<-|Hin].
        -- rewrite same_refl in Eyz. discriminate.
        -- apply IH; [exact Hin|]. simpl. now rewrite Eyz.
Qed.

End Distinct.

(** ** The [personal_bests] view *)

Section PersonalBestsView.

Import Schema.

Lemma same_key_iff a b :
  same_key a b = true <->
  Competitions.user_id a = Competitions.user_id b
  /\ Competitions.stroke a = Competitions.stroke b
  /\ Competitions.distance_m a = Competitions.distance_m b.
Proof.
  unfold same_key.
  rewrite !andb_true_iff, !String.eqb_eq, Z.eqb_eq. tauto.
Qed.

Lemma same_key_refl a : same_key a a = true.
Proof. apply same_key_iff. auto. Qed.

Lemma same_key_sym a b : same_key a b = same_key b a.
Proof.
  unfold same_key.
  now rewrite (String.eqb_sym (Competitions.user_id a)),
    (String.eqb_sym (Competitions.stroke a)),
    (Z.eqb_sym (Competitions.distance_m a)).
Qed.

Lemma same_key_trans a b c :
  same_key a b = true -> same_key b c = true -> same_key a c = true.
Proof.
  rewrite !same_key_iff. intros (-> & -> & ->) (-> & -> & ->). auto.
Qed.

Lemma has_key_project c x : has_key c (project x) = same_key x c.
Proof. reflexivity. Qed.

Lemma order_by_ok : Cmp_ok order_by.
Proof.
  unfold order_by.
  apply (lex_ok (fun a b => String.compare (Competitions.user_id a) (Competitions.user_id b))).
  { apply (on_ok Competitions.user_id), String_compare_ok. }
  apply (lex_ok (fun a b => String.compare (Competitions.stroke a) (Competitions.stroke b))).
  { apply (on_ok Competitions.stroke), String_compare_ok. }
  apply (lex_ok (fun a b => Z.compare (Competitions.distance_m a) (Competitions.distance_m b))).
  { apply (on_ok Competitions.distance_m), Z_compare_ok. }
  apply (lex_ok (fun a b => Qcompare (Competitions.time_sec a) (Competitions.time_sec b))).
  { apply (on_ok Competitions.time_sec), Qcompare_ok. }
  apply (on_ok Competitions.date), Z_compare_ok.
Qed.

Lemma order_leb_total a b : order_leb a b = true \/ order_leb b a = true.
Proof.
  unfold order_leb. rewrite (cmp_opp order_by order_by_ok a b).
  destruct (order_by a b); simpl; auto.
Qed.

Lemma order_leb_trans a b c :
  order_leb a b = true -> order_leb b c = true -> order_leb a c = true.
Proof.
  unfold order_leb. intros Hab Hbc.
  pose proof (cmp_le_trans order_by order_by_ok a b c) as T.
  destruct (order_by a b); try discriminate;
    destruct (order_by b c); try discriminate;
    destruct (order_by a c); try reflexivity;
    exfalso; apply T; congruence.
Qed.

Lemma order_leb_refl a : order_leb a a = true.
Proof. unfold order_leb. now rewrite (cmp_refl order_by order_by_ok). Qed.

(** Within one key the order is by time, then by date. *)
Lemma order_leb_same_key a b :
  same_key a b = true -> order_leb a b = true ->
  (Competitions.time_sec a <= Competitions.time_sec b)%Q
  /\ ((Competitions.time_sec b == Competitions.time_sec a)%Q ->
      (Competitions.date a <= Competitions.date b)%Z).
Proof.
  intros K. apply same_key_iff in K as (Ku & Ks & Kd).
  unfold order_leb, order_by. rewrite Ku, Ks, Kd.
  rewrite !(cmp_refl _ String_compare_ok), (cmp_refl _ Z_compare_ok).
  simpl.
  destruct (Qcompare_spec (Competitions.time_sec a) (Competitions.time_sec b))
    as [E|L|G]; simpl.
  - intros H. split; [rewrite E; apply Qle_refl|].
    intros _. destruct (Z.compare_spec (Competitions.date a) (Competitions.date b));
      try lia; discriminate.
  - intros _. split; [now apply Qlt_le_weak|].
    intros E. rewrite E in L. now apply Qlt_irrefl in L.
  - discriminate.
Qed.

(** C1.  For every competition row, hence for every user and every
    (stroke, distance) pair present in the results, the view holds
    exactly one row with that key; the row is the projection of a result
    with that key whose time is the minimum over all results sharing the
    key, and among the results that tie on that minimum it carries the
    earliest date. *)
Theorem personal_bests_one_minimal_row :
  forall (competitions : list Competitions.row) (c : Competitions.row),
    In c competitions ->
    exists (p : PersonalBests.row) (best : Competitions.row),
      filter (has_key c) (personal_bests competitions) = [p]
      /\ In best competitions
      /\ same_key best c = true
      /\ p = project best
      /\ forall c', In c' competitions -> same_key c' c = true ->
           (PersonalBests.time_sec p <= Competitions.time_sec c')%Q
           /\ ((Competitions.time_sec c' == PersonalBests.time_sec p)%Q ->
               (PersonalBests.date p <= Competitions.date c')%Z).
Proof.
  intros competitions c Hc.
  set (l := sort_by order_leb competitions).
  assert (Hperm : Permutation competitions l) by apply sort_by_perm.
  assert (Hsorted : StronglySorted (fun x y => order_leb x y = true) l).
  { apply sort_by_sorted; [apply order_leb_total|apply order_leb_trans]. }
  assert (Hcl : In c l) by (eapply Permutation_in; eassumption).
  destruct (distinct_on_unique same_key same_key_refl same_key_sym
              same_key_trans c [] l Hcl eq_refl) as [x Hx].
  assert (Hxin : In x (filter (same_key c) (distinct_on same_key [] l))).
  { rewrite Hx. now left. }
  apply filter_In in Hxin as [Hxd Hcx].
  pose proof (distinct_on_unseen same_key x [] l Hxd) as [Hxl _].
  exists (project x), x.
  split; [|split; [|split; [|split; [reflexivity|]]]].
  - unfold personal_bests. fold l.
    transitivity (map project (filter (same_key c) (distinct_on same_key [] l))).
    + generalize (distinct_on same_key [] l) as d.
      induction d as [|z d IH]; simpl; [reflexivity|].
      rewrite has_key_project, (same_key_sym z c).
      destruct (same_key c z); simpl; now rewrite IH.
    + now rewrite Hx.
  - eapply Permutation_in; [apply Permutation_sym; exact Hperm|exact Hxl].
  - now rewrite same_key_sym.
  - intros c' Hc' Kc'.
    assert (Hxc' : same_key x c' = true).
    { eapply same_key_trans; [rewrite same_key_sym; exact Hcx|].
      now rewrite same_key_sym. }
    assert (Hle : order_leb x c' = true).
    { destruct (distinct_on_first same_key same_key_trans x [] l Hxd)
        as (l1 & l2 & El & Hl1).
      assert (Hc'l : In c' l) by (eapply Permutation_in; eassumption).
      rewrite El in Hc'l, Hsorted.
      apply in_app_or in Hc'l as [Hin|[<-|Hin]].
      - rewrite (Hl1 c' Hin) in Hxc'. discriminate.
      - apply order_leb_refl.
      - clear - Hsorted Hin. induction l1 as [|z l1 IH]; simpl in Hsorted.
        + inversion Hsorted as [|? ? _ Hall]; subst.
          rewrite Forall_forall in Hall. now apply Hall.
        + inversion Hsorted; subst. now apply IH. }
    apply (order_leb_same_key x c' Hxc' Hle).
Qed.

End PersonalBestsView.

(** The example of the specification: 28.10 on 2024-01-01 and 27.95 on
    2024-02-01 over 50 m Free give 27.95 / 2024-02-01 (days are counted
    from 2000-01-01). *)
Example personal_bests_faster_later :
  Schema.personal_bests
    [Sample.swim "r1" 50 (2810 # 100) 8766; Sample.swim "r2" 50 (2795 # 100) 8797]
  = [Schema.project (Sample.swim "r2" 50 (2795 # 100) 8797)].
Proof. reflexivity. Qed.

(** A tie on the time, written 28.1 and 28.10: the earlier date is kept,
    and another distance has a row of its own. *)
Example personal_bests_tie :
  Schema.personal_bests
    [Sample.swim "r1" 50 (281 # 10) 8797; Sample.swim "r2" 100 (61 # 1) 8797;
     Sample.swim "r3" 50 (2810 # 100) 8766]
  = [Schema.project (Sample.swim "r3" 50 (2810 # 100) 8766);
     Schema.project (Sample.swim "r2" 100 (61 # 1) 8797)].
Proof. reflexivity. Qed.

Lemma personal_bests_one_minimal_row_witness :
  let competitions :=
    [Sample.swim "r1" 50 (281 # 10) 8797; Sample.swim "r2" 100 (61 # 1) 8797;
     Sample.swim "r3" 50 (2810 # 100) 8766] in
  let c := Sample.swim "r1" 50 (281 # 10) 8797 in
  In c competitions
  /\ exists p best,
       filter (Schema.has_key c) (Schema.personal_bests competitions) = [p]
       /\ In best competitions
       /\ Schema.same_key best c = true
       /\ p = Schema.project best
       /\ forall c', In c' competitions -> Schema.same_key c' c = true ->
            (Schema.PersonalBests.time_sec p <= Schema.Competitions.time_sec c')%Q
            /\ ((Schema.Competitions.time_sec c' == Schema.PersonalBests.time_sec p)%Q ->
                (Schema.PersonalBests.date p <= Schema.Competitions.date c')%Z).
Proof.
  intros competitions c.
  assert (H : In c competitions) by (simpl; auto).
  split; [exact H|].
  exact (personal_bests_one_minimal_row competitions c H).
Defined.

(** ** Optimistic updates and their rollback *)

Section Rollback.

Context {A : Type} (P : A -> bool).

(** Replacing the matching entry and then putting back the entry that
    [find] captured gives the list back, when the match is unique. *)
Lemma map_restore (updated : A) (l : list A) :
  (forall x y, In x l -> In y l -> P x = true -> P y = true -> x = y) ->
  P updated = true ->
  map (fun x => if P x then App.restore (find P l) x else x)
      (map (fun x => if P x then updated else x) l) = l.
Proof.
  intros Huniq Hupd. rewrite map_map.
  rewrite <- (map_id l) at 2. apply map_ext_in.
  intros x Hx. destruct (P x) eqn:E.
  - rewrite Hupd.
    destruct (find P l) as [p|] eqn:F; simpl.
    + apply find_some in F as [Hp Pp]. now apply Huniq.
    + apply (find_none _ _ F) in Hx. congruence.
  - now rewrite E.
Qed.

(** Removing the matching entries after putting one in front gives the
    list back, when nothing else matches. *)
Lemma filter_fresh (o : A) (l : list A) :
  (forall x, In x l -> P x = false) ->
  P o = true ->
  filter (fun x => negb (P x)) (o :: l) = l.
Proof.
  intros Hfresh Ho. simpl. rewrite Ho. simpl.
  induction l as [|x l IH]; simpl; [reflexivity|].
  rewrite (Hfresh x (or_introl eq_refl)). simpl. f_equal.
  apply IH. intros; apply Hfresh; now right.
Qed.

End Rollback.

Section Handlers.

Import Js App Vocabulary.
Local Open Scope string_scope.

Variable host : Host.

Lemma workout_id_is e x : Workout.id_is e x = true <-> Workout.id x = Some e.
Proof.
  unfold Workout.id_is. destruct (Workout.id x) as [i|].
  - rewrite String.eqb_eq. split; congruence.
  - split; discriminate.
Qed.

Lemma competition_id_is e x :
  Competition.id_is e x = true <-> Competition.id x = Some e.
Proof.
  unfold Competition.id_is. destruct (Competition.id x) as [i|].
  - rewrite String.eqb_eq. split; congruence.
  - split; discriminate.
Qed.

Lemma workout_fresh s l x :
  id_fresh Workout.id s l -> In x l -> Workout.id_is s x = false.
Proof.
  intros F Hx. destruct (Workout.id_is s x) eqn:E; [|reflexivity].
  apply workout_id_is in E. now apply F in Hx.
Qed.

Lemma competition_fresh s l x :
  id_fresh Competition.id s l -> In x l -> Competition.id_is s x = false.
Proof.
  intros F Hx. destruct (Competition.id_is s x) eqn:E; [|reflexivity].
  apply competition_id_is in E. now apply F in Hx.
Qed.

(** C2.  Whatever the mutating operation (a save, which creates or
    updates, or a delete, of a session or of a result), if the remote
    store reports an error to its request then both in-memory
    collections are, after the handler's rollback, exactly what they
    were before the handler ran.  Identifiers are those of a keyed
    store: no two entries share one, and the temporary identifier drawn
    for a create is carried by no entry. *)
Theorem failed_mutation_restores_collections :
  forall (env : Env) (n : nat) (st : State) (op : Mutation),
    ids_distinct Workout.id (rows st) ->
    ids_distinct Competition.id (comps st) ->
    id_fresh Workout.id (randomUUID env) (rows st) ->
    id_fresh Competition.id (randomUUID env) (comps st) ->
    fails_at env n ->
    rows (final (run env (handler host st op) n st)) = rows st
    /\ comps (final (run env (handler host st op) n st)) = comps st.
Proof.
  intros env n st op Dw Dc Fw Fc Hfail.
  destruct op as [|id| |id]; unfold handler.
  - (* saveWorkout *)
    unfold saveWorkout.
    destruct (session_user st) as [u|]; [|simpl; auto].
    destruct (truthy_id (editingId st)) as [e|].
    + cbn -[clean_workout].
      destruct (Hfail unit (UpdateWorkout
                  (Workout.with_id (clean_workout (draft st)) e) e))
        as [m ->].
      cbn -[clean_workout]. split; [|reflexivity].
      apply map_restore.
      * intros x y Hx Hy Px Py. apply workout_id_is in Px, Py.
        eapply Dw; eassumption.
      * apply workout_id_is. reflexivity.
    + cbn -[clean_workout].
      destruct (Hfail Workout.t (InsertWorkout
                  (Workout.with_user_id (clean_workout (draft st))
                     (user_ident u)))) as [m ->].
      cbn -[clean_workout filter]. split; [|reflexivity].
      apply (filter_fresh (Workout.id_is (randomUUID env))).
      * intros x Hx. now apply (workout_fresh _ (rows st)).
      * apply workout_id_is. reflexivity.
  - (* deleteWorkout *)
    unfold deleteWorkout. cbn.
    destruct (confirm env "Delete this session?"); cbn; [|auto].
    destruct (Hfail unit (DeleteWorkout id)) as [m ->]. cbn. auto.
  - (* saveCompetition *)
    unfold saveCompetition.
    destruct (session_user st) as [u|]; [|simpl; auto].
    destruct (truthy_id (ceditingId st)) as [e|].
    + cbn -[clean_competition].
      destruct (Hfail unit (UpdateCompetition
                  (Competition.with_id (clean_competition (cdraft st)) e) e))
        as [m ->].
      cbn -[clean_competition]. split; [reflexivity|].
      apply map_restore.
      * intros x y Hx Hy Px Py. apply competition_id_is in Px, Py.
        eapply Dc; eassumption.
      * apply competition_id_is. reflexivity.
    + cbn -[clean_competition].
      destruct (Hfail Competition.t (InsertCompetition
                  (Competition.with_user_id (clean_competition (cdraft st))
                     (user_ident u)))) as [m ->].
      cbn -[clean_competition filter]. split; [reflexivity|].
      apply (filter_fresh (Competition.id_is (randomUUID env))).
      * intros x Hx. now apply (competition_fresh _ (comps st)).
      * apply competition_id_is. reflexivity.
  - (* deleteCompetition *)
    unfold deleteCompetition. cbn.
    destruct (confirm env "Delete this result?"); cbn; [|auto].
    destruct (Hfail unit (DeleteCompetition id)) as [m ->]. cbn. auto.
Qed.

(** C9.  In create mode (nothing being edited, so the draft carries no
    identifier) a save by a signed-in owner issues one insert request;
    while it is pending the in-memory sequence is the former one with a
    new first element that equals the normalized draft except for its
    identifier, which is the temporary one; the record submitted is the
    normalized draft with the owner, and carries no identifier.  The
    same holds for results. *)
Theorem create_shows_normalized_draft_first :
  forall (env : Env) (n : nat) (st : State) (u : User),
    session_user st = Some u ->
    truthy_id (editingId st) = None ->
    truthy_id (ceditingId st) = None ->
    Workout.id (draft st) = None ->
    Competition.id (cdraft st) = None ->
    (exists inflight first rest,
       trace (run env (saveWorkout host st) n st)
       = EvRequest
           (InsertWorkout
              (Workout.with_user_id (clean_workout (draft st)) (user_ident u)))
           inflight :: rest
       /\ rows inflight = first :: rows st
       /\ Workout.id first = Some (randomUUID env)
       /\ same_but_id first (clean_workout (draft st))
       /\ Workout.id
            (Workout.with_user_id (clean_workout (draft st)) (user_ident u))
          = None)
    /\
    (exists inflight first rest,
       trace (run env (saveCompetition host st) n st)
       = EvRequest
           (InsertCompetition
              (Competition.with_user_id (clean_competition (cdraft st))
                 (user_ident u)))
           inflight :: rest
       /\ comps inflight = first :: comps st
       /\ Competition.id first = Some (randomUUID env)
       /\ same_result_but_id first (clean_competition (cdraft st))
       /\ Competition.id
            (Competition.with_user_id (clean_competition (cdraft st))
               (user_ident u))
          = None).
Proof.
  intros env n st u Hu He Hce Hd Hcd. split.
  - unfold saveWorkout. rewrite Hu, He. cbn -[clean_workout].
    eexists _, _, _. split; [reflexivity|].
    cbn -[clean_workout]. split; [reflexivity|].
    split; [reflexivity|]. split.
    + unfold same_but_id. cbn. tauto.
    + cbn. exact Hd.
  - unfold saveCompetition. rewrite Hu, Hce. cbn -[clean_competition].
    eexists _, _, _. split; [reflexivity|].
    cbn -[clean_competition]. split; [reflexivity|].
    split; [reflexivity|]. split.
    + unfold same_result_but_id. cbn. tauto.
    + cbn. exact Hcd.
Qed.

(** Once the store has confirmed the insert, the temporary entry is the
    confirmed record. *)
Lemma create_confirmed :
  forall (env : Env) (n : nat) (st : State) (u : User) (data : Workout.t),
    session_user st = Some u ->
    truthy_id (editingId st) = None ->
    id_fresh Workout.id (randomUUID env) (rows st) ->
    respond env Workout.t n
      (InsertWorkout
         (Workout.with_user_id (clean_workout (draft st)) (user_ident u)))
    = Ok data ->
    rows (final (run env (saveWorkout host st) n st)) = data :: rows st.
Proof.
  intros env n st u data Hu He Hf Hr.
  unfold saveWorkout. rewrite Hu, He. cbn -[clean_workout].
  rewrite Hr. cbn -[clean_workout].
  rewrite String.eqb_refl. f_equal.
  transitivity (map (fun x : Workout.t => x) (rows st)); [|apply map_id].
  apply map_ext_in.
  intros x Hx. now rewrite (workout_fresh _ _ _ Hf Hx).
Qed.

(** C10.  When the fetch of [refreshPBs] reports an error the state,
    hence the personal bests on display, is exactly what it was, and
    nothing else happens. *)
Theorem failed_refresh_keeps_personal_bests :
  forall (env : Env) (n : nat) (st : State) (m : string),
    respond env _ n SelectPersonalBests = Error m ->
    final (run env refreshPBs n st) = st
    /\ pbs (final (run env refreshPBs n st)) = pbs st
    /\ trace (run env refreshPBs n st) = [EvRequest SelectPersonalBests st].
Proof.
  intros env n st m Hr. unfold refreshPBs. cbn. rewrite Hr. cbn. auto.
Qed.

(** The personal bests are replaced when the fetch succeeds. *)
Lemma refresh_replaces_personal_bests :
  forall (env : Env) (n : nat) (st : State) (l : list PB.t),
    respond env _ n SelectPersonalBests = Ok (Some l) ->
    pbs (final (run env refreshPBs n st)) = l.
Proof.
  intros env n st l Hr. unfold refreshPBs. cbn. rewrite Hr. reflexivity.
Qed.

(** With nobody signed in, a save and a bulk import are rejected: the
    state is untouched, nothing is requested, and the user is asked to
    sign in. *)
Lemma signed_out_save_rejected :
  forall (env : Env) (n : nat) (st : State) (imported : list ImportRow.t),
    session_user st = None ->
    let rejected :=
      {| final := st; trace := [EvAlert "Please sign in first."];
         timers := [] |} in
    run env (saveWorkout host st) n st = rejected
    /\ run env (saveCompetition host st) n st = rejected
    /\ run env (onRows host st imported) n st = rejected.
Proof.
  intros env n st imported Hu. unfold saveWorkout, saveCompetition, onRows.
  rewrite Hu. cbn. auto.
Qed.


End Handlers.

(** ** The handlers on concrete states *)

Section Evaluations.

Import Js App Vocabulary.
Local Open Scope string_scope.

(** A failed update: the request leaves while the edited record is on
    display, and the former record is back afterwards. *)
Example failed_update_run :
  let out := run Sample.rejecting (saveWorkout Sample.host Sample.editing) 0 Sample.editing in
  trace out
  = [EvRequest
       (UpdateWorkout
          (Sample.session_of (of_Z 2000) "2024-05-01" "long" (Some "w1")) "w1")
       (setRows (fun _ =>
          [Sample.session_of (of_Z 2000) "2024-05-01" "long" (Some "w1")])
          Sample.editing);
     EvAlert "network error"]
  /\ rows (final out)
     = [Sample.session_of (of_Z 1500) "2024-05-01" "steady" (Some "w1")].
Proof. split; reflexivity. Qed.

Lemma failed_mutation_restores_collections_witness :
  (ids_distinct Workout.id (rows Sample.editing)
   /\ ids_distinct Competition.id (comps Sample.editing)
   /\ id_fresh Workout.id (randomUUID Sample.rejecting) (rows Sample.editing)
   /\ id_fresh Competition.id (randomUUID Sample.rejecting) (comps Sample.editing)
   /\ fails_at Sample.rejecting 0)
  /\ rows (final (run Sample.rejecting
                    (handler Sample.host Sample.editing SaveSession) 0 Sample.editing))
     = rows Sample.editing
  /\ comps (final (run Sample.rejecting
                     (handler Sample.host Sample.editing SaveSession) 0 Sample.editing))
     = comps Sample.editing.
Proof.
  assert (H1 : ids_distinct Workout.id (rows Sample.editing)).
  { intros e x y [<-|[]] [<-|[]] _ _. reflexivity. }
  assert (H2 : ids_distinct Competition.id (comps Sample.editing)).
  { intros e x y [<-|[]] [<-|[]] _ _. reflexivity. }
  assert (H3 : id_fresh Workout.id (randomUUID Sample.rejecting) (rows Sample.editing)).
  { intros x [<-|[]]. discriminate. }
  assert (H4 : id_fresh Competition.id (randomUUID Sample.rejecting)
                 (comps Sample.editing)).
  { intros x [<-|[]]. discriminate. }
  assert (H5 : fails_at Sample.rejecting 0).
  { intros A req. exists "network error". reflexivity. }
  split; [tauto|].
  exact (failed_mutation_restores_collections Sample.host Sample.rejecting 0
           Sample.editing SaveSession H1 H2 H3 H4 H5).
Defined.

Lemma create_shows_normalized_draft_first_witness :
  let st := Sample.signed_in in
  let env := Sample.accepting in
  (session_user st = Some Sample.swimmer
   /\ truthy_id (editingId st) = None
   /\ truthy_id (ceditingId st) = None
   /\ Workout.id (draft st) = None
   /\ Competition.id (cdraft st) = None)
  /\ (exists inflight first rest,
        trace (run env (saveWorkout Sample.host st) 0 st)
        = EvRequest
            (InsertWorkout
               (Workout.with_user_id (clean_workout (draft st))
                  (user_ident Sample.swimmer)))
            inflight :: rest
        /\ rows inflight = first :: rows st
        /\ Workout.id first = Some (randomUUID env)
        /\ same_but_id first (clean_workout (draft st))
        /\ Workout.id
             (Workout.with_user_id (clean_workout (draft st))
                (user_ident Sample.swimmer))
           = None)
  /\ (exists inflight first rest,
        trace (run env (saveCompetition Sample.host st) 0 st)
        = EvRequest
            (InsertCompetition
               (Competition.with_user_id (clean_competition (cdraft st))
                  (user_ident Sample.swimmer)))
            inflight :: rest
        /\ comps inflight = first :: comps st
        /\ Competition.id first = Some (randomUUID env)
        /\ same_result_but_id first (clean_competition (cdraft st))
        /\ Competition.id
             (Competition.with_user_id (clean_competition (cdraft st))
                (user_ident Sample.swimmer))
           = None).
Proof.
  intros st env.
  split; [repeat split; reflexivity|].
  exact (create_shows_normalized_draft_first Sample.host env 0 st
           Sample.swimmer eq_refl eq_refl eq_refl eq_refl eq_refl).
Defined.

Lemma failed_refresh_keeps_personal_bests_witness :
  let st := Sample.signed_in in
  respond Sample.rejecting _ 0 SelectPersonalBests = Error "network error"
  /\ final (run Sample.rejecting refreshPBs 0 st) = st
  /\ pbs (final (run Sample.rejecting refreshPBs 0 st)) = pbs st
  /\ trace (run Sample.rejecting refreshPBs 0 st)
     = [EvRequest SelectPersonalBests st].
Proof.
  intros st. split; [reflexivity|].
  exact (failed_refresh_keeps_personal_bests Sample.rejecting 0 st
           "network error" eq_refl).
Defined.



End Evaluations.

(** ** Normalization of the drafts *)

Section Normalization.

Import Js App Vocabulary.

Lemma num_eq_refl x : num_eq x x.
Proof. destruct x; simpl; auto. apply Qeq_refl. Qed.

Lemma truthy_not_NaN x : truthy_number x = true -> x <> NaN.
Proof. intros H E. subst. discriminate. Qed.

Lemma or_number_not_NaN x d : d <> NaN -> or_number x d <> NaN.
Proof.
  intros Hd. unfold or_number. destruct (truthy_number x) eqn:E.
  - now apply truthy_not_NaN.
  - exact Hd.
Qed.

Lemma Math_max_ge lo x :
  x <> NaN -> num_leb (Fin lo) (Math_max (Fin lo) x) = true.
Proof.
  intros Hx. destruct x as [| |q|]; simpl; try congruence.
  - apply Qle_bool_iff, Qle_refl.
  - destruct (Qle_bool lo q) eqn:E; simpl; [exact E|].
    apply Qle_bool_iff, Qle_refl.
Qed.

Lemma clamp_between lo hi x :
  (lo <= hi)%Q -> x <> NaN ->
  between (Fin lo) (Fin hi) (Math_min (Fin hi) (Math_max (Fin lo) x)).
Proof.
  intros Hlh Hx. unfold between.
  destruct x as [| |q|]; simpl; try congruence.
  - (* -Infinity *)
    destruct (Qle_bool hi lo) eqn:E; simpl.
    + split; apply Qle_bool_iff; [exact Hlh|apply Qle_refl].
    + split; apply Qle_bool_iff; [apply Qle_refl|exact Hlh].
  - (* finite *)
    destruct (Qle_bool lo q) eqn:E1; simpl.
    + destruct (Qle_bool hi q) eqn:E2; simpl.
      * split; apply Qle_bool_iff; [exact Hlh|apply Qle_refl].
      * split; [exact E1|]. apply Qle_bool_iff.
        apply Qlt_le_weak, Qnot_le_lt. intros H.
        apply Qle_bool_iff in H. congruence.
    + destruct (Qle_bool hi lo) eqn:E2; simpl.
      * split; apply Qle_bool_iff; [exact Hlh|apply Qle_refl].
      * split; apply Qle_bool_iff; [apply Qle_refl|exact Hlh].
  - (* +Infinity *)
    split; apply Qle_bool_iff; [exact Hlh|apply Qle_refl].
Qed.

(** On sessions the words of the table and the code agree. *)
Lemma clamp_min_zero x :
  num_eq (Math_max (of_Z 0) (or_number x (of_Z 0)))
         (spec_clamp_min (of_Z 0) (of_Z 0) x).
Proof.
  unfold or_number. destruct x as [| |q|];
    try (simpl; first [exact I | apply Qeq_refl]).
  unfold truthy_number. destruct (Qeq_bool q 0) eqn:E; cbn [negb].
  - change (Math_max (of_Z 0) (of_Z 0)) with (of_Z 0).
    apply Qeq_bool_iff in E. unfold spec_clamp_min, Math_max, num_leb, of_Z.
    destruct (Qle_bool (inject_Z 0) q); simpl; [|apply Qeq_refl].
    symmetry. exact E.
  - apply num_eq_refl.
Qed.

(** C4, as the code has it.  Before anything is sent, a session draft
    has its distance and duration clamped to at least 0, with 0 for a
    non-numeric value; its effort, when present and neither zero nor
    non-numeric, is clamped into [1,10], and is omitted otherwise.  A
    result draft has its distance replaced by 50 when it is non-numeric
    or zero and clamped to at least 25 otherwise, and its time replaced
    by 40 when it is non-numeric or zero and clamped to at least 1
    otherwise. *)
Theorem normalization_table :
  forall (d : Workout.t) (c : Competition.t),
    num_eq (Workout.distance_m (clean_workout d))
           (spec_clamp_min (of_Z 0) (of_Z 0) (Workout.distance_m d))
    /\ num_eq (Workout.duration_min (clean_workout d))
              (spec_clamp_min (of_Z 0) (of_Z 0) (Workout.duration_min d))
    /\ num_leb (of_Z 0) (Workout.distance_m (clean_workout d)) = true
    /\ num_leb (of_Z 0) (Workout.duration_min (clean_workout d)) = true
    /\ (forall n, Workout.rpe d = Some n -> truthy_number n = true ->
          Workout.rpe (clean_workout d)
          = Some (Math_min (of_Z 10) (Math_max (of_Z 1) n))
          /\ between (of_Z 1) (of_Z 10)
               (Math_min (of_Z 10) (Math_max (of_Z 1) n)))
    /\ (forall n, Workout.rpe d = Some n -> truthy_number n = false ->
          Workout.rpe (clean_workout d) = None)
    /\ (Workout.rpe d = None -> Workout.rpe (clean_workout d) = None)
    /\ (truthy_number (Competition.distance_m c) = true ->
          Competition.distance_m (clean_competition c)
          = Math_max (of_Z 25) (Competition.distance_m c))
    /\ (truthy_number (Competition.distance_m c) = false ->
          Competition.distance_m (clean_competition c) = of_Z 50)
    /\ num_leb (of_Z 25) (Competition.distance_m (clean_competition c)) = true
    /\ (truthy_number (Competition.time_sec c) = true ->
          Competition.time_sec (clean_competition c)
          = Math_max (of_Z 1) (Competition.time_sec c))
    /\ (truthy_number (Competition.time_sec c) = false ->
          Competition.time_sec (clean_competition c) = of_Z 40)
    /\ num_leb (of_Z 1) (Competition.time_sec (clean_competition c)) = true.
Proof.
  intros d c.
  assert (Z0 : of_Z 0 <> NaN) by discriminate.
  assert (Z50 : of_Z 50 <> NaN) by discriminate.
  assert (Z40 : of_Z 40 <> NaN) by discriminate.
  repeat match goal with |- _ /\ _ => split end.
  - apply clamp_min_zero.
  - apply clamp_min_zero.
  - apply Math_max_ge, or_number_not_NaN, Z0.
  - apply Math_max_ge, or_number_not_NaN, Z0.
  - intros n Hn Ht. simpl. rewrite Hn, Ht. split; [reflexivity|].
    apply clamp_between; [discriminate|now apply truthy_not_NaN].
  - intros n Hn Ht. simpl. now rewrite Hn, Ht.
  - intros Hn. simpl. now rewrite Hn.
  - intros Ht. simpl. unfold or_number. now rewrite Ht.
  - intros Ht. simpl. unfold or_number. rewrite Ht. reflexivity.
  - apply Math_max_ge, or_number_not_NaN, Z50.
  - intros Ht. simpl. unfold or_number. now rewrite Ht.
  - intros Ht. simpl. unfold or_number. rewrite Ht. reflexivity.
  - apply Math_max_ge, or_number_not_NaN, Z40.
Qed.

(** C4, as stated.  The rows of the table for results and for the
    effort do not hold of a zero: the table would clamp a distance of 0
    to 25, a time of 0 to 1 and an effort of 0 to 1, where the code
    answers 50, 40 and no effort at all. *)
Lemma normalization_table_as_stated_fails :
  ~ num_eq (Competition.distance_m (clean_competition Sample.zero_result))
           (spec_clamp_min (of_Z 25) (of_Z 50)
              (Competition.distance_m Sample.zero_result))
  /\ ~ num_eq (Competition.time_sec (clean_competition Sample.zero_result))
              (spec_clamp_min (of_Z 1) (of_Z 40)
                 (Competition.time_sec Sample.zero_result))
  /\ Workout.rpe (clean_workout Sample.effort_cleared)
     <> spec_effort (Workout.rpe Sample.effort_cleared).
Proof.
  repeat split; cbv; intros H; discriminate H.
Qed.

Lemma normalization_table_witness :
  let d := Sample.effort_cleared in
  let c := Sample.zero_result in
  Workout.rpe (clean_workout d) = None
  /\ Competition.distance_m (clean_competition c) = of_Z 50
  /\ Competition.time_sec (clean_competition c) = of_Z 40.
Proof.
  intros d c.
  destruct (normalization_table d c)
    as (_ & _ & _ & _ & _ & Hrpe & _ & _ & Hdist & _ & _ & Htime & _).
  split; [exact (Hrpe (of_Z 0) eq_refl eq_refl)|].
  split; [exact (Hdist eq_refl)|exact (Htime eq_refl)].
Defined.

(** What a save submits is the normalized draft. *)
Lemma save_submits_normalized (host : Host) :
  forall (env : Env) (n : nat) (st : State) (u : User),
    session_user st = Some u ->
    exists (A : Type) (payload : Request A) inflight rest,
      trace (run env (saveWorkout host st) n st)
      = EvRequest payload inflight :: rest
      /\ match payload with
         | InsertWorkout w | UpdateWorkout w _ =>
             Workout.distance_m w = Workout.distance_m (clean_workout (draft st))
             /\ Workout.duration_min w
                = Workout.duration_min (clean_workout (draft st))
             /\ Workout.rpe w = Workout.rpe (clean_workout (draft st))
         | _ => False
         end.
Proof.
  intros env n st u Hu. unfold saveWorkout. rewrite Hu.
  destruct (truthy_id (editingId st)) as [e|]; cbn -[clean_workout].
  - eexists _, (UpdateWorkout _ _), _, _. split; [reflexivity|].
    cbn -[clean_workout]. auto.
  - eexists _, (InsertWorkout _), _, _. split; [reflexivity|].
    cbn -[clean_workout]. auto.
Qed.

End Normalization.

(** ** Order of the in-memory sequence *)

Section Order.

Import Js App Vocabulary.

Lemma string_leb_trans s1 s2 s3 :
  String.leb s1 s2 = true -> String.leb s2 s3 = true ->
  String.leb s1 s3 = true.
Proof.
  unfold String.leb. intros H12 H23.
  pose proof (cmp_le_trans String.compare String_compare_ok s1 s2 s3) as T.
  destruct (String.compare s1 s2); try discriminate;
    destruct (String.compare s2 s3); try discriminate;
    destruct (String.compare s1 s3); try reflexivity;
    exfalso; apply T; congruence.
Qed.

Lemma date_geb_total a b : date_geb a b = true \/ date_geb b a = true.
Proof. unfold date_geb. apply String.leb_total. Qed.

Lemma date_geb_trans a b c :
  date_geb a b = true -> date_geb b c = true -> date_geb a c = true.
Proof. unfold date_geb. intros H1 H2. eapply string_leb_trans; eassumption. Qed.

Lemma sorted_strongly l :
  sorted_by_date_desc l <->
  StronglySorted (fun a b => date_geb a b = true) l.
Proof.
  split.
  - apply Sorted_StronglySorted. intros a b c. apply date_geb_trans.
  - apply StronglySorted_Sorted.
Qed.

Lemma sorted_filter (f : Workout.t -> bool) l :
  sorted_by_date_desc l -> sorted_by_date_desc (filter f l).
Proof.
  rewrite !sorted_strongly. induction 1 as [|x l Hs IH Hall]; simpl.
  - constructor.
  - destruct (f x); [|exact IH]. constructor; [exact IH|].
    rewrite Forall_forall in *. intros y Hy.
    apply filter_In in Hy as [Hy _]. now apply Hall.
Qed.

Lemma sorted_firstn k l :
  sorted_by_date_desc l -> sorted_by_date_desc (firstn k l).
Proof.
  rewrite !sorted_strongly. intros H. revert k.
  induction H as [|x l Hs IH Hall]; intros [|k]; simpl; try constructor.
  - apply IH.
  - rewrite Forall_forall in *. intros y Hy.
    apply Hall. eapply (In_nth_error) in Hy as [i Hi].
    apply nth_error_In with i.
    rewrite nth_error_firstn in Hi.
    destruct (i <? k)%nat; [exact Hi|discriminate].
Qed.

Lemma select_workouts_sorted table :
  sorted_by_date_desc (select_workouts table).
Proof.
  unfold select_workouts. apply sorted_firstn, sorted_strongly.
  apply sort_by_sorted; [apply date_geb_total|apply date_geb_trans].
Qed.

Lemma sorted_cons x l :
  sorted_by_date_desc l ->
  (sorted_by_date_desc (x :: l) <->
   forall r, hd_error l = Some r -> date_geb x r = true).
Proof.
  intros Hl. split.
  - intros H r Hr. apply Sorted_inv in H as [_ Hd].
    destruct l as [|y l]; [discriminate|]. injection Hr as <-.
    now inversion Hd.
  - intros H. constructor; [exact Hl|].
    destruct l as [|y l]; constructor. now apply H.
Qed.

Variable host : Host.

(** C5, as the code has it.  The in-memory sequence is sorted by date
    descending after every full fetch that succeeds, the store having
    answered the query in the order it asks for; a delete keeps a sorted
    sequence sorted, while its request is pending and afterwards; a
    create puts the new record first whatever its date, so that a sorted
    sequence stays sorted exactly when the new date is not earlier than
    that of the former first record. *)
Theorem sequence_sorted_after_fetch :
  forall (env : Env) (n : nat) (st : State),
    (forall table c p,
       respond env _ n SelectWorkouts = Ok (Some (select_workouts table)) ->
       respond env _ (S n) SelectCompetitions = Ok c ->
       respond env _ (S (S n)) SelectPersonalBests = Ok p ->
       rows (final (run env fetchAll n st)) = select_workouts table
       /\ sorted_by_date_desc (rows (final (run env fetchAll n st))))
    /\ (sorted_by_date_desc (rows st) ->
        forall id,
          sorted_by_date_desc
            (rows (final (run env (deleteWorkout st id) n st)))
          /\ Forall (fun s => sorted_by_date_desc (rows s))
               (inflight_states (trace (run env (deleteWorkout st id) n st))))
    /\ (sorted_by_date_desc (rows st) ->
        forall u,
          session_user st = Some u ->
          truthy_id (editingId st) = None ->
          exists inflight,
            inflight_states (trace (run env (saveWorkout host st) n st))
            = [inflight]
            /\ (sorted_by_date_desc (rows inflight) <->
                forall r, hd_error (rows st) = Some r ->
                          String.leb (Workout.date r)
                            (Workout.date (draft st)) = true)).
Proof.
  intros env n st. split; [|split].
  - intros table c p Hw Hc Hp. unfold fetchAll. cbn.
    rewrite Hw, Hc, Hp. cbn. split; [reflexivity|].
    apply select_workouts_sorted.
  - intros Hs id. unfold deleteWorkout. cbn.
    destruct (confirm env "Delete this session?"); cbn.
    + destruct (respond env unit n (DeleteWorkout id)); cbn.
      * split; [now apply sorted_filter|].
        constructor; [now apply sorted_filter|constructor].
      * split; [exact Hs|].
        constructor; [now apply sorted_filter|constructor].
    + split; [exact Hs|constructor].
  - intros Hs u Hu He. unfold saveWorkout. rewrite Hu, He.
    cbn -[clean_workout].
    eexists. split.
    + destruct (respond env Workout.t n _); reflexivity.
    + cbn -[clean_workout]. rewrite (sorted_cons _ _ Hs).
      unfold date_geb. cbn. tauto.
Qed.

End Order.

(** C5, as stated.  A signed-in owner who records a session of 2 May and
    then one of 1 January sees the January session first. *)
Lemma sequence_not_always_sorted :
  map App.Workout.date (App.rows Sample.after_two_creates)
  = ["2024-01-01"; "2024-05-02"]%string
  /\ ~ Vocabulary.sorted_by_date_desc (App.rows Sample.after_two_creates).
Proof.
  split; [reflexivity|].
  intros H. apply Sorted_inv in H as [_ H].
  inversion H as [|? ? Hd]; subst. discriminate Hd.
Qed.

Lemma sequence_sorted_after_fetch_witness :
  let st := Sample.signed_in in
  let env := Sample.accepting in
  Vocabulary.sorted_by_date_desc (App.rows st)
  /\ App.session_user st = Some Sample.swimmer
  /\ App.truthy_id (App.editingId st) = None
  /\ (App.rows (App.final (App.run env App.fetchAll 0 st)) = []
      /\ Vocabulary.sorted_by_date_desc
           (App.rows (App.final (App.run env (App.deleteWorkout st "w1") 0 st)))
      /\ exists inflight,
           Vocabulary.inflight_states
             (App.trace (App.run env (App.saveWorkout Sample.host st) 0 st))
           = [inflight]
           /\ (Vocabulary.sorted_by_date_desc (App.rows inflight) <->
               forall r, hd_error (App.rows st) = Some r ->
                         String.leb (App.Workout.date r)
                           (App.Workout.date (App.draft st)) = true)).
Proof.
  intros st env.
  assert (Hs : Vocabulary.sorted_by_date_desc (App.rows st)).
  { repeat constructor. }
  destruct (sequence_sorted_after_fetch Sample.host env 0 st)
    as (Hfetch & Hdelete & Hcreate).
  split; [exact Hs|]. split; [reflexivity|]. split; [reflexivity|].
  split; [|split].
  - exact (proj1 (Hfetch [] (Some []) (Some []) eq_refl eq_refl eq_refl)).
  - exact (proj1 (Hdelete Hs "w1"%string)).
  - exact (Hcreate Hs Sample.swimmer eq_refl eq_refl).
Defined.

(** ** The filtered and paginated view *)

Section View.

Import Js App Vocabulary.
Local Open Scope string_scope.

Lemma prefix_iff q s :
  String.prefix q s = true <-> exists b, s = q ++ b.
Proof.
  revert s. induction q as [|c q IH]; intros s.
  - destruct s; simpl; split; eauto.
  - destruct s as [|c' s]; simpl.
    + split; [discriminate|]. intros [b Hb]. discriminate.
    + destruct (ascii_dec c c') as [<-|Hne].
      * rewrite IH. split; intros [b Hb]; exists b; congruence.
      * split; [discriminate|]. intros [b Hb]. congruence.
Qed.

Lemma includes_iff s q : includes s q = true <-> occurs_in q s.
Proof.
  unfold occurs_in. induction s as [|c s IH]; cbn [includes].
  - rewrite orb_false_r, prefix_iff. split.
    + intros [b Hb]. exists "", b. exact Hb.
    + intros (a & b & H). destruct a; [now exists b|discriminate].
  - rewrite orb_true_iff, IH, prefix_iff. split.
    + intros [[b Hb]|(a & b & H)].
      * exists "", b. exact Hb.
      * exists (String c a), b. simpl. now rewrite H.
    + intros (a & b & H). destruct a as [|c' a]; simpl in H.
      * left. now exists b.
      * right. exists a, b. congruence.
Qed.

Lemma includes_empty s : includes s "" = true.
Proof. apply includes_iff. exists "", s. reflexivity. Qed.

Variable host : Host.

Lemma matches_empty r : matches host "" r = true.
Proof. unfold matches. now rewrite includes_empty. Qed.

Lemma filter_all {A} (f : A -> bool) (l : list A) :
  (forall x, f x = true) -> filter f l = l.
Proof.
  intros H. induction l as [|x l IH]; simpl; [reflexivity|].
  now rewrite H, IH.
Qed.

Lemma slice_page {A} (l : list A) (start : nat) :
  slice l start (start + 50) = firstn 50 (skipn start l).
Proof. unfold slice. f_equal. lia. Qed.

(** C6, as the code has it.  The view is the slice
    [page*50, page*50+50) of the records of which one of the date, the
    distance as text, the duration as text, the lower-cased stroke or
    the lower-cased notes contains the query once trimmed and
    lower-cased, in their original order; a query that is empty once
    trimmed filters nothing, and a page beyond the matches is empty. *)
Theorem view_is_page_of_matches :
  forall (rows : list Workout.t) (query : string) (page : nat),
    let q := toLowerCase host (trim host query) in
    let hits := filter (matches host q) rows in
    view host rows query page = slice hits (page * 50) (page * 50 + 50)
    /\ (forall r,
          matches host q r = true <->
          occurs_in q (Workout.date r)
          \/ occurs_in q (String_of_number host (Workout.distance_m r))
          \/ occurs_in q (String_of_number host (Workout.duration_min r))
          \/ occurs_in q (toLowerCase host
                            (Workout.stroke_text (Workout.stroke r)))
          \/ occurs_in q (toLowerCase host (match Workout.notes r with
                                       | Some s => s
                                       | None => ""
                                       end)))
    /\ (q = "" -> hits = rows)
    /\ (forall i, (i < 50)%nat ->
          nth_error (view host rows query page) i
          = nth_error hits (page * 50 + i))
    /\ (List.length (view host rows query page) <= 50)%nat
    /\ ((List.length hits <= page * 50)%nat ->
        view host rows query page = []).
Proof.
  intros rows query page q hits.
  assert (Hview : view host rows query page
                  = slice hits (page * 50) (page * 50 + 50)).
  { unfold view. fold q. destruct (String.eqb_spec q "") as [E|E].
    - unfold hits. rewrite E.
      now rewrite (filter_all _ rows matches_empty).
    - reflexivity. }
  split; [exact Hview|]. split; [|split; [|split; [|split]]].
  - intros r. unfold matches.
    rewrite !orb_true_iff, !includes_iff. tauto.
  - intros E. unfold hits. rewrite E. apply filter_all, matches_empty.
  - intros i Hi. rewrite Hview, slice_page, nth_error_firstn.
    apply Nat.ltb_lt in Hi. rewrite Hi. apply nth_error_skipn.
  - rewrite Hview, slice_page. apply firstn_le_length.
  - intros Hlen. rewrite Hview, slice_page.
    now rewrite (skipn_all2 hits Hlen).
Qed.

End View.

(** C6, as stated.  A query made of one blank is trimmed to the empty
    query, which filters nothing, although no field of the record
    contains a blank. *)
Lemma view_ignores_surrounding_blanks :
  App.view Sample.host (App.rows Sample.signed_in) " " 0
  = App.rows Sample.signed_in
  /\ Vocabulary.spec_view Sample.host (App.rows Sample.signed_in) " " 0 = []
  /\ App.view Sample.host (App.rows Sample.signed_in) " " 0
     <> Vocabulary.spec_view Sample.host (App.rows Sample.signed_in) " " 0.
Proof.
  split; [reflexivity|]. split; [reflexivity|].
  intros H. vm_compute in H. discriminate H.
Qed.

(** The example of the specification: the query "fly" against a
    backstroke session whose notes mention butterfly. *)
Example view_fly :
  App.view Sample.host
    [Sample.session_of (Js.of_Z 1500) "2024-05-01" "steady" (Some "w1"%string);
     Sample.effort_cleared;
     Sample.session_of (Js.of_Z 400) "2024-05-04" "ButterFLY drills" (Some "w3"%string)]
    "Fly" 0
  = [Sample.session_of (Js.of_Z 400) "2024-05-04" "ButterFLY drills" (Some "w3"%string)].
Proof. reflexivity. Qed.

(** The season of 250 sessions searched for " EASY ": the 125 easy swims
    fill two pages and half of a third. *)
Example view_of_season :
  map (fun page => List.length
                     (App.view Sample.host Rest.season " EASY " page))
    [0; 1; 2; 3]%nat
  = [50; 50; 25; 0]%nat
  /\ nth_error (App.view Sample.host Rest.season " EASY " 2) 24
     = nth_error Rest.season 248.
Proof. vm_compute. split; reflexivity. Qed.

Lemma view_is_page_of_matches_witness :
  let rows := Rest.season in
  let hits :=
    filter (App.matches Sample.host
              (App.toLowerCase Sample.host (App.trim Sample.host " EASY ")))
      rows in
  (24 < 50)%nat
  /\ (List.length hits <= 3 * 50)%nat
  /\ nth_error (App.view Sample.host rows " EASY " 2) 24
     = nth_error hits (2 * 50 + 24)
  /\ App.view Sample.host rows " EASY " 3 = [].
Proof.
  intros rows hits.
  destruct (view_is_page_of_matches Sample.host rows " EASY " 2)
    as (_ & _ & _ & Hnth & _ & _).
  destruct (view_is_page_of_matches Sample.host rows " EASY " 3)
    as (_ & _ & _ & _ & _ & Hout).
  assert (H50 : (24 < 50)%nat) by lia.
  assert (Hlen : (List.length hits <= 3 * 50)%nat).
  { vm_compute. lia. }
  split; [exact H50|]. split; [exact Hlen|].
  split; [exact (Hnth 24%nat H50)|exact (Hout Hlen)].
Defined.

(** ** The bulk import *)

Section BulkImport.

Import Js App Vocabulary.

Variable host : Host.

Lemma firstn_add {A} (a b : nat) (l : list A) :
  firstn (a + b) l = firstn a l ++ firstn b (skipn a l).
Proof.
  revert l. induction a as [|a IH]; intros l; simpl; [reflexivity|].
  destruct l as [|x l]; simpl.
  - now rewrite firstn_nil.
  - now rewrite IH.
Qed.

Lemma batch_firstn (l : list CleanedRow.t) (i : nat) :
  batch l i = firstn 500 (skipn (500 * i) l).
Proof. unfold batch, slice. f_equal. lia. Qed.

(** The first [j] batches are the first [500 * j] rows. *)
Lemma batches_concat (l : list CleanedRow.t) (j : nat) :
  List.concat (map (batch l) (seq 0 j)) = firstn (500 * j) l.
Proof.
  induction j as [|j IH].
  - reflexivity.
  - rewrite seq_S, map_app, concat_app, IH.
    cbn [map List.concat Nat.add].
    rewrite app_nil_r, batch_firstn.
    replace (500 * S j) with (500 * j + 500) by lia.
    now rewrite firstn_add.
Qed.

Lemma batch_full (l : list CleanedRow.t) (i : nat) :
  500 * i + 500 <= List.length l -> List.length (batch l i) = 500.
Proof.
  intros H. rewrite batch_firstn, length_firstn, length_skipn. lia.
Qed.

Lemma batch_nonempty (l : list CleanedRow.t) (i : nat) :
  500 * i < List.length l -> 1 <= List.length (batch l i) <= 500.
Proof.
  intros H. rewrite batch_firstn, length_firstn, length_skipn. lia.
Qed.

(** The loop from batch [k] on, followed by [q]. *)
Lemma insert_loop_run (env : Env) (st : State) (q : Prog)
  (cleaned : list CleanedRow.t) :
  forall fuel k,
    List.length cleaned <= 500 * k + fuel ->
    exists j alerts,
      k <= j
      /\ trace (run env (andThen (insert_loop fuel cleaned (500 * k)) q) k st)
         = map (fun i => EvRequest (InsertWorkouts (batch cleaned i)) st)
             (seq k (j - k))
           ++ alerts ++ trace (run env q j st)
      /\ final (run env (andThen (insert_loop fuel cleaned (500 * k)) q) k st)
         = final (run env q j st)
      /\ (forall i, k <= i < j -> 500 * i < List.length cleaned)
      /\ (forall i, k <= i -> S i < j ->
            respond env unit i (InsertWorkouts (batch cleaned i)) = Ok tt)
      /\ ((alerts = []
           /\ List.length cleaned <= 500 * j
           /\ forall i, k <= i < j ->
                respond env unit i (InsertWorkouts (batch cleaned i)) = Ok tt)
          \/ (exists m,
                k < j
                /\ respond env unit (j - 1)
                     (InsertWorkouts (batch cleaned (j - 1))) = Error m
                /\ alerts = [EvAlert m])).
Proof.
  induction fuel as [|fuel IH]; intros k Hfuel.
  - exists k, []. rewrite Nat.sub_diag. cbn [insert_loop andThen seq map app].
    split; [lia|]. split; [reflexivity|]. split; [reflexivity|].
    split; [intros; lia|]. split; [intros; lia|].
    left. split; [reflexivity|]. split; [lia|]. intros; lia.
  - cbn [insert_loop].
    destruct (500 * k <? List.length cleaned) eqn:Hlt.
    + apply Nat.ltb_lt in Hlt. cbn [andThen run].
      fold (batch cleaned k).
      destruct (respond env unit k (InsertWorkouts (batch cleaned k)))
        as [[]|m] eqn:Hr.
      * replace (500 * k + 500) with (500 * S k) by lia.
        destruct (IH (S k)) as (j & alerts & Hj & Ht & Hf & Hne & Hok & Hend);
          [lia|].
        exists j, alerts. split; [lia|].
        split; [|split; [|split; [|split]]].
        -- cbn [emit trace]. rewrite Ht.
           replace (j - k) with (S (j - S k)) by lia. reflexivity.
        -- cbn [emit final]. exact Hf.
        -- intros i Hi. destruct (Nat.eq_dec i k) as [->|Hik];
             [exact Hlt|apply Hne; lia].
        -- intros i Hi Hij. destruct (Nat.eq_dec i k) as [->|Hik];
             [exact Hr|apply Hok; lia].
        -- destruct Hend as [(Ha & Hlen & Hall)|(m & Hkj & Hm & Ha)].
           ++ left. split; [exact Ha|]. split; [exact Hlen|].
              intros i Hi. destruct (Nat.eq_dec i k) as [->|Hik];
                [exact Hr|apply Hall; lia].
           ++ right. exists m. split; [lia|]. split; assumption.
      * exists (S k), [EvAlert m].
        split; [lia|]. split; [|split; [|split; [|split]]].
        -- cbn [andThen run emit trace].
           replace (S k - k) with 1 by lia. reflexivity.
        -- reflexivity.
        -- intros i Hi. replace i with k by lia. exact Hlt.
        -- intros i Hi Hij. lia.
        -- right. exists m. replace (S k - 1) with k by lia.
           split; [lia|]. split; [exact Hr|reflexivity].
    + apply Nat.ltb_ge in Hlt.
      exists k, []. rewrite Nat.sub_diag. cbn [andThen seq map app].
      split; [lia|]. split; [reflexivity|]. split; [reflexivity|].
      split; [intros; lia|]. split; [intros; lia|].
      left. split; [reflexivity|]. split; [lia|]. intros; lia.
Qed.

(** A full re-list is its three requests, and no other. *)
Lemma fetchAll_relists (env : Env) (n : nat) (st : State) :
  exists rest,
    trace (run env fetchAll n st) = relist st ++ rest
    /\ inflight_states rest = [].
Proof.
  unfold fetchAll, relist. cbn. eexists. split; [reflexivity|].
  destruct (respond env _ n SelectWorkouts),
    (respond env _ (S n) SelectCompetitions),
    (respond env _ (S (S n)) SelectPersonalBests); reflexivity.
Qed.

(** When the three requests succeed the collections are those listed. *)
Lemma fetchAll_adopts_listing (env : Env) (n : nat) (st : State) w c p :
  respond env _ n SelectWorkouts = Ok (Some w) ->
  respond env _ (S n) SelectCompetitions = Ok (Some c) ->
  respond env _ (S (S n)) SelectPersonalBests = Ok (Some p) ->
  rows (final (run env fetchAll n st)) = w
  /\ comps (final (run env fetchAll n st)) = c
  /\ pbs (final (run env fetchAll n st)) = p.
Proof.
  intros Hw Hc Hp. unfold fetchAll. cbn. rewrite Hw, Hc, Hp. cbn. auto.
Qed.

(** What a full re-list leaves: its three requests, then either the
    three listings of the store in place of the collections, or the
    report of the first error and the collections as they were. *)
Lemma fetchAll_outcome (env : Env) (n : nat) (st : State) :
  exists rest,
    trace (run env fetchAll n st) = relist st ++ rest
    /\ inflight_states rest = []
    /\ (forall w c p,
          respond env _ n SelectWorkouts = Ok w ->
          respond env _ (S n) SelectCompetitions = Ok c ->
          respond env _ (S (S n)) SelectPersonalBests = Ok p ->
          rest = []
          /\ final (run env fetchAll n st)
             = setLoading false
                 (setPBs (match p with Some l => l | None => [] end)
                 (setComps (fun _ => match c with Some l => l | None => [] end)
                 (setRows (fun _ => match w with Some l => l | None => [] end)
                 (setLoading true st)))))
    /\ (forall m,
          Rest.first_error (respond env _ n SelectWorkouts)
            (respond env _ (S n) SelectCompetitions)
            (respond env _ (S (S n)) SelectPersonalBests) = Some m ->
          rest = [EvAlert (message_or m "Error loading data")]
          /\ final (run env fetchAll n st)
             = setLoading false (setLoading true st)).
Proof.
  unfold fetchAll, relist. cbn.
  destruct (respond env _ n SelectWorkouts) as [w|ew],
    (respond env _ (S n) SelectCompetitions) as [c|ec],
    (respond env _ (S (S n)) SelectPersonalBests) as [p|ep]; cbn;
    eexists; (split; [reflexivity|]); (split; [reflexivity|]);
    (split;
     [intros w' c' p' E1 E2 E3;
      first [discriminate E1|discriminate E2|discriminate E3|idtac];
      inversion E1; inversion E2; inversion E3; subst;
      split; reflexivity
     |intros m E; first [discriminate E|idtac];
      inversion E; subst; split; reflexivity]).
Qed.

(** C7.  A signed-in owner's import submits the normalized rows in
    consecutive batches of 500, in order, each non-empty and only the
    last possibly shorter; every batch before the last submitted one
    was accepted; either all were accepted and together they are the
    whole list, or the last submitted one failed, its failure is
    reported, and no later batch is sent; in both cases a full re-list
    follows and nothing else is requested, so that nothing undoes the
    accepted batches.  When the three requests of the re-list succeed,
    the sessions, results and personal bests on display at the end are
    the store's listings (an absent listing counting as empty), whatever
    was in memory before; when one of them fails, its error is reported
    and the collections in memory are those from before the import.
    The loading flag ends false. *)
Theorem import_in_batches_then_relist :
  forall (env : Env) (st : State) (imported : list ImportRow.t) (u : User),
    session_user st = Some u ->
    let cleaned := map (clean_row host (today env) (user_ident u)) imported in
    let out := run env (onRows host st imported) 0 st in
    exists j alerts rest,
      trace out
      = map (fun i => EvRequest (InsertWorkouts (batch cleaned i)) st)
          (seq 0 j)
        ++ alerts ++ relist st ++ rest
      /\ inflight_states rest = []
      /\ final out = final (run env fetchAll j st)
      /\ (forall i, i < j -> 1 <= List.length (batch cleaned i) <= 500)
      /\ (forall i, S i < j ->
            List.length (batch cleaned i) = 500
            /\ respond env unit i (InsertWorkouts (batch cleaned i)) = Ok tt)
      /\ ((alerts = []
           /\ List.concat (map (batch cleaned) (seq 0 j)) = cleaned
           /\ forall i, i < j ->
                respond env unit i (InsertWorkouts (batch cleaned i)) = Ok tt)
          \/ (exists m,
                0 < j
                /\ respond env unit (j - 1)
                     (InsertWorkouts (batch cleaned (j - 1))) = Error m
                /\ alerts = [EvAlert m]))
      /\ (forall w c p,
            respond env _ j SelectWorkouts = Ok w ->
            respond env _ (S j) SelectCompetitions = Ok c ->
            respond env _ (S (S j)) SelectPersonalBests = Ok p ->
            rest = []
            /\ rows (final out) = match w with Some l => l | None => [] end
            /\ comps (final out) = match c with Some l => l | None => [] end
            /\ pbs (final out) = match p with Some l => l | None => [] end)
      /\ (forall m,
            Rest.first_error (respond env _ j SelectWorkouts)
              (respond env _ (S j) SelectCompetitions)
              (respond env _ (S (S j)) SelectPersonalBests) = Some m ->
            rest = [EvAlert (message_or m "Error loading data")]
            /\ rows (final out) = rows st
            /\ comps (final out) = comps st
            /\ pbs (final out) = pbs st)
      /\ loading (final out) = false.
Proof.
  intros env st imported u Hu cleaned out.
  unfold out, onRows. rewrite Hu. cbn [run]. fold cleaned.
  destruct (insert_loop_run env st fetchAll cleaned (List.length cleaned) 0)
    as (j & alerts & _ & Ht & Hf & Hne & Hok & Hend); [lia|].
  change (500 * 0) with 0 in Ht, Hf.
  destruct (fetchAll_outcome env j st)
    as (rest & Hrest & Hquiet & Hlisted & Hfailed).
  exists j, alerts, rest.
  split; [|split; [|split; [|split; [|split; [|split; [|split; [|split]]]]]]].
  - rewrite Ht, Nat.sub_0_r, Hrest. reflexivity.
  - exact Hquiet.
  - exact Hf.
  - intros i Hi. apply batch_nonempty, Hne. lia.
  - intros i Hi. split; [|apply Hok; lia].
    apply batch_full. assert (500 * S i < List.length cleaned) by (apply Hne; lia).
    lia.
  - destruct Hend as [(Ha & Hlen & Hall)|(m & Hkj & Hm & Ha)].
    + left. split; [exact Ha|]. split.
      * rewrite batches_concat. now apply firstn_all2.
      * intros i Hi. apply Hall. lia.
    + right. exists m. auto.
  - intros w c p Hw Hc Hp.
    destruct (Hlisted w c p Hw Hc Hp) as [Hnone Hfinal].
    rewrite Hf, Hfinal. split; [exact Hnone|]. split; [|split]; reflexivity.
  - intros m Hm. destruct (Hfailed m Hm) as [Halert Hfinal].
    rewrite Hf, Hfinal. split; [exact Halert|]. split; [|split]; reflexivity.
  - rewrite Hf. unfold fetchAll. cbn.
    destruct (respond env _ j SelectWorkouts),
      (respond env _ (S j) SelectCompetitions),
      (respond env _ (S (S j)) SelectPersonalBests); reflexivity.
Qed.

(** ** The file reader's [onload] *)

Lemma parseCSV_length (text : string) :
  List.length (parseCSV host text)
  = pred (List.length
            (filter (fun l => negb (String.eqb l "")) (split_lines text))).
Proof.
  unfold parseCSV.
  destruct (filter _ (split_lines text)) as [|first rest]; [reflexivity|].
  cbn [List.length pred]. apply length_map.
Qed.

Lemma onRows_first_request (env : Env) (st : State) (u : User)
  (imported : list ImportRow.t) :
  session_user st = Some u ->
  imported <> [] ->
  exists first rest,
    trace (run env (onRows host st imported) 0 st)
    = EvRequest (InsertWorkouts first) st :: rest
    /\ first <> [].
Proof.
  intros Hu Hne. unfold onRows. rewrite Hu.
  destruct imported as [|r imported]; [congruence|].
  cbn [run map List.length insert_loop andThen Nat.ltb Nat.leb emit trace].
  eexists _, _. split; [reflexivity|].
  unfold slice. cbn. discriminate.
Qed.

(** C8.  The number of data rows is the number of non-empty lines
    after the first.  The import is rejected with the report that no
    rows were found exactly when there is no data row; then the state is
    untouched and nothing is requested, hence nothing inserted.  With a
    data row the rows are handed to the bulk insert, which for a
    signed-in owner opens with the insert of a non-empty batch. *)
Theorem import_rejected_iff_no_rows :
  forall (st : State) (text : string),
    List.length (parseCSV host text)
    = pred (List.length
              (filter (fun l => negb (String.eqb l "")) (split_lines text)))
    /\ (onload host (onRows host st) text = Alert no_rows_found Return
        <-> parseCSV host text = [])
    /\ (parseCSV host text = [] ->
        forall env n,
          run env (onload host (onRows host st) text) n st
          = {| final := st; trace := [EvAlert no_rows_found];
               timers := [] |})
    /\ (parseCSV host text <> [] ->
        onload host (onRows host st) text = onRows host st (parseCSV host text))
    /\ (parseCSV host text <> [] ->
        forall env u,
          session_user st = Some u ->
          exists first rest,
            trace (run env (onload host (onRows host st) text) 0 st)
            = EvRequest (InsertWorkouts first) st :: rest
            /\ first <> []).
Proof.
  intros st text.
  assert (Hsome : parseCSV host text <> [] ->
                  onload host (onRows host st) text
                  = onRows host st (parseCSV host text)).
  { intros Hne. unfold onload.
    destruct (parseCSV host text) as [|r l]; [congruence|reflexivity]. }
  assert (Hnone : parseCSV host text = [] ->
                  onload host (onRows host st) text
                  = Alert no_rows_found Return).
  { intros E. unfold onload. now rewrite E. }
  split; [apply parseCSV_length|]. split; [|split; [|split]].
  - split; [|exact Hnone].
    intros H. destruct (parseCSV host text) as [|r l] eqn:E; [reflexivity|].
    exfalso. rewrite Hsome in H by discriminate.
    unfold onRows in H. destruct (session_user st); discriminate H.
  - intros E env n. rewrite (Hnone E). reflexivity.
  - exact Hsome.
  - intros Hne env u Hu. rewrite (Hsome Hne).
    now apply onRows_first_request with u.
Qed.

End BulkImport.

(** ** The import on concrete files *)

Section ImportEvaluations.

Import Js App Vocabulary.

(** The example of the specification: the row
    [2024-05-01,1500,25,Free,6,steady]. *)
Example import_one_row :
  map (clean_row Sample.host "2024-05-02" "user-1")
    (parseCSV Sample.host Sample.one_row)
  = [ {| CleanedRow.date := Str "2024-05-01";
         CleanedRow.distance_m := of_Z 1500;
         CleanedRow.duration_min := of_Z 25;
         CleanedRow.stroke := Str "Free";
         CleanedRow.rpe := Num (of_Z 6);
         CleanedRow.notes := Str "steady";
         CleanedRow.user_id := "user-1" |} ].
Proof. reflexivity. Qed.

Example import_header_only : parseCSV Sample.host Sample.header_only = [].
Proof. reflexivity. Qed.

(** 1001 rows go out as 500, 500 and 1; when the second batch fails the
    third is not sent, the failure is reported, and the re-list
    follows. *)
Example import_1001_rows :
  let imported := repeat
    {| ImportRow.date := Str "2024-05-01"; ImportRow.distance_m := Str "1500";
       ImportRow.duration_min := Str "25"; ImportRow.stroke := Str "Free";
       ImportRow.rpe := Null; ImportRow.notes := Str "" |} 1001 in
  submitted_sizes
    (trace (run Sample.accepting
              (onRows Sample.host Sample.signed_in imported) 0 Sample.signed_in))
  = [500; 500; 1]
  /\ submitted_sizes
       (trace (run Sample.rejecting_second
                 (onRows Sample.host Sample.signed_in imported) 0
                 Sample.signed_in))
     = [500; 500]
  /\ In (EvAlert "network error")
        (trace (run Sample.rejecting_second
                  (onRows Sample.host Sample.signed_in imported) 0
                  Sample.signed_in))
  /\ inflight_states
       (skipn 3 (trace (run Sample.rejecting_second
                         (onRows Sample.host Sample.signed_in imported) 0
                         Sample.signed_in)))
     = repeat (setLoading true Sample.signed_in) 3.
Proof.
  vm_compute. repeat split. right. right. left. reflexivity.
Qed.

(** 1001 rows imported into a store that lists two other sessions: the
    three batches go out and the sessions on display at the end are the
    store's two, not the one that was in memory. *)
Example import_adopts_store_listing :
  let st := Sample.signed_in in
  let out :=
    run Rest.stocked (onRows Sample.host st Rest.thousand_and_one) 0 st in
  submitted_sizes (trace out) = [500; 500; 1]
  /\ rows st
     = [Sample.session_of (of_Z 1500) "2024-05-01" "steady" (Some "w1"%string)]
  /\ rows (final out) = Rest.listed_sessions
  /\ comps (final out) = Rest.listed_results
  /\ pbs (final out) = Rest.listed_bests.
Proof. vm_compute. repeat split. Qed.

Lemma import_in_batches_then_relist_witness :
  let env := Rest.stocked in
  let st := Sample.signed_in in
  let imported := Rest.thousand_and_one in
  let cleaned :=
    map (clean_row Sample.host (today env) (user_ident Sample.swimmer))
      imported in
  let out := run env (onRows Sample.host st imported) 0 st in
  session_user st = Some Sample.swimmer
  /\ exists j alerts rest,
       trace out
       = map (fun i => EvRequest (InsertWorkouts (batch cleaned i)) st)
           (seq 0 j)
         ++ alerts ++ relist st ++ rest
       /\ inflight_states rest = []
       /\ final out = final (run env fetchAll j st)
       /\ (forall i, i < j -> 1 <= List.length (batch cleaned i) <= 500)
       /\ (forall i, S i < j ->
             List.length (batch cleaned i) = 500
             /\ respond env unit i (InsertWorkouts (batch cleaned i)) = Ok tt)
       /\ ((alerts = []
            /\ List.concat (map (batch cleaned) (seq 0 j)) = cleaned
            /\ forall i, i < j ->
                 respond env unit i (InsertWorkouts (batch cleaned i)) = Ok tt)
           \/ (exists m,
                 0 < j
                 /\ respond env unit (j - 1)
                      (InsertWorkouts (batch cleaned (j - 1))) = Error m
                 /\ alerts = [EvAlert m]))
       /\ (forall w c p,
             respond env _ j SelectWorkouts = Ok w ->
             respond env _ (S j) SelectCompetitions = Ok c ->
             respond env _ (S (S j)) SelectPersonalBests = Ok p ->
             rest = []
             /\ rows (final out) = match w with Some l => l | None => [] end
             /\ comps (final out) = match c with Some l => l | None => [] end
             /\ pbs (final out) = match p with Some l => l | None => [] end)
       /\ (forall m,
             Rest.first_error (respond env _ j SelectWorkouts)
               (respond env _ (S j) SelectCompetitions)
               (respond env _ (S (S j)) SelectPersonalBests) = Some m ->
             rest = [EvAlert (message_or m "Error loading data")]
             /\ rows (final out) = rows st
             /\ comps (final out) = comps st
             /\ pbs (final out) = pbs st)
       /\ loading (final out) = false.
Proof.
  intros env st imported cleaned out.
  split; [reflexivity|].
  exact (import_in_batches_then_relist Sample.host env st imported
           Sample.swimmer eq_refl).
Defined.

Lemma import_rejected_iff_no_rows_witness :
  let st := Sample.signed_in in
  (parseCSV Sample.host Sample.header_only = []
   /\ parseCSV Sample.host Sample.one_row <> []
   /\ session_user st = Some Sample.swimmer)
  /\ run Sample.accepting
       (onload Sample.host (onRows Sample.host st) Sample.header_only) 0 st
     = {| final := st; trace := [EvAlert (no_rows_found)]; timers := [] |}
  /\ exists first rest,
       trace (run Sample.accepting
                (onload Sample.host (onRows Sample.host st) Sample.one_row)
                0 st)
       = EvRequest (InsertWorkouts first) st :: rest
       /\ first <> [].
Proof.
  intros st.
  assert (H0 : parseCSV Sample.host Sample.header_only = []) by reflexivity.
  assert (H1 : parseCSV Sample.host Sample.one_row <> [])
    by (vm_compute; discriminate).
  destruct (import_rejected_iff_no_rows Sample.host st Sample.header_only)
    as (_ & _ & Hrejected & _ & _).
  destruct (import_rejected_iff_no_rows Sample.host st Sample.one_row)
    as (_ & _ & _ & _ & Hsubmitted).
  split; [split; [exact H0|split; [exact H1|reflexivity]]|].
  split; [exact (Hrejected H0 Sample.accepting 0)|].
  exact (Hsubmitted H1 Sample.accepting Sample.swimmer eq_refl).
Defined.

End ImportEvaluations.

(* ===================================================================== *)
(** * Further properties of the handlers                                  *)
(* ===================================================================== *)

Section Gates.

Import Js App Vocabulary Rest.
Local Open Scope string_scope.
Local Open Scope list_scope.

Variable host : Host.

(** X1.  A delete the user does not confirm does nothing: the state is
    untouched, nothing is requested and no refresh is scheduled; this
    holds for sessions and for results. *)
Theorem declined_delete_does_nothing :
  forall (env : Env) (n : nat) (st : State) (id : string),
    confirm env "Delete this session?" = false ->
    confirm env "Delete this result?" = false ->
    run env (deleteWorkout st id) n st
    = {| final := st; trace := [EvConfirm "Delete this session?" false];
         timers := [] |}
    /\ run env (deleteCompetition st id) n st
       = {| final := st; trace := [EvConfirm "Delete this result?" false];
            timers := [] |}.
Proof.
  intros env n st id Hw Hc. unfold deleteWorkout, deleteCompetition.
  cbn. rewrite Hw, Hc. cbn. split; reflexivity.
Qed.

(** X2.  A confirmed delete that the store accepts leaves no entry with
    that identifier, keeps every other entry, in the order they had, and
    leaves the results alone. *)
Theorem accepted_delete_removes_the_entry :
  forall (env : Env) (n : nat) (st : State) (id : string),
    confirm env "Delete this session?" = true ->
    respond env unit n (DeleteWorkout id) = Ok tt ->
    let after := final (run env (deleteWorkout st id) n st) in
    (forall x, In x (rows after) <->
               In x (rows st) /\ Workout.id x <> Some id)
    /\ rows after = filter (fun x => negb (Workout.id_is id x)) (rows st)
    /\ (List.length (rows after) <= List.length (rows st))%nat
    /\ comps after = comps st.
Proof.
  intros env n st id Hc Hr after. unfold after, deleteWorkout.
  cbn. rewrite Hc. cbn. rewrite Hr. cbn.
  split; [|split; [reflexivity|split; [apply filter_length_le|reflexivity]]].
  intros x. rewrite filter_In, negb_true_iff.
  split; intros [Hin Hid]; (split; [exact Hin|]).
  - intros E. apply workout_id_is in E. congruence.
  - destruct (Workout.id_is id x) eqn:E; [|reflexivity].
    apply workout_id_is in E. congruence.
Qed.

(** X3.  When one of the three requests of a full fetch fails, none of
    the three collections is replaced, not even by the answers that did
    arrive; the first error in the order sessions, results, personal
    bests is reported, by its message or by "Error loading data" when
    the message is empty; and the loading flag ends false. *)
Theorem failed_fetch_replaces_nothing :
  forall (env : Env) (n : nat) (st : State) (m : string),
    first_error (respond env _ n SelectWorkouts)
      (respond env _ (S n) SelectCompetitions)
      (respond env _ (S (S n)) SelectPersonalBests) = Some m ->
    run env fetchAll n st
    = {| final := setLoading false st;
         trace := relist st
                  ++ [EvAlert (if String.eqb m "" then "Error loading data"
                                else m)];
         timers := [] |}.
Proof.
  intros env n st m. unfold fetchAll, relist. cbn.
  destruct (respond env _ n SelectWorkouts),
    (respond env _ (S n) SelectCompetitions),
    (respond env _ (S (S n)) SelectPersonalBests); cbn;
    intros H; inversion H; subst; reflexivity.
Qed.

(** X4.  Every save of a signed-in owner ends with the form reset: the
    editing identifier is cleared and the draft is the empty one,
    whether the store accepted or refused the request, so that a refused
    save does not keep what was typed.  This holds for both forms. *)
Theorem completed_save_resets_the_form :
  forall (env : Env) (n : nat) (st : State) (u : User),
    session_user st = Some u ->
    (editingId (final (run env (saveWorkout host st) n st)) = None
     /\ draft (final (run env (saveWorkout host st) n st)) = emptyWorkout host)
    /\ (ceditingId (final (run env (saveCompetition host st) n st)) = None
        /\ cdraft (final (run env (saveCompetition host st) n st))
           = emptyComp host).
Proof.
  intros env n st u Hu. unfold saveWorkout, saveCompetition. rewrite Hu.
  split.
  - destruct (truthy_id (editingId st)) as [e|]; cbn -[clean_workout];
      match goal with
      | |- context [respond ?e ?A ?k ?r] => destruct (respond e A k r)
      end; cbn; split; reflexivity.
  - destruct (truthy_id (ceditingId st)) as [e|]; cbn -[clean_competition];
      match goal with
      | |- context [respond ?e ?A ?k ?r] => destruct (respond e A k r)
      end; cbn; split; reflexivity.
Qed.

(** X5.  A save or a delete of a result that goes ahead schedules one
    refresh of the personal bests, 250 ms later, whether the store
    accepted or refused; the handlers of sessions schedule nothing and
    leave the results and the personal bests as they were. *)
Theorem result_mutations_schedule_one_refresh :
  forall (env : Env) (n : nat) (st : State) (u : User) (id : string),
    session_user st = Some u ->
    confirm env "Delete this result?" = true ->
    timers (run env (saveCompetition host st) n st) = [(refreshPBs, 250)]
    /\ timers (run env (deleteCompetition st id) n st) = [(refreshPBs, 250)]
    /\ timers (run env (saveWorkout host st) n st) = []
    /\ timers (run env (deleteWorkout st id) n st) = []
    /\ comps (final (run env (saveWorkout host st) n st)) = comps st
    /\ pbs (final (run env (saveWorkout host st) n st)) = pbs st
    /\ comps (final (run env (deleteWorkout st id) n st)) = comps st
    /\ pbs (final (run env (deleteWorkout st id) n st)) = pbs st.
Proof.
  intros env n st u id Hu Hc.
  unfold saveCompetition, deleteCompetition, saveWorkout, deleteWorkout.
  rewrite Hu.
  split; [|split; [|split; [|split; [|split; [|split; [|split]]]]]].
  - destruct (truthy_id (ceditingId st)) as [e|]; cbn -[clean_competition];
      match goal with
      | |- context [respond ?e ?A ?k ?r] => destruct (respond e A k r)
      end; reflexivity.
  - cbn. rewrite Hc. cbn.
    destruct (respond env unit n (DeleteCompetition id)); reflexivity.
  - destruct (truthy_id (editingId st)) as [e|]; cbn -[clean_workout];
      match goal with
      | |- context [respond ?e ?A ?k ?r] => destruct (respond e A k r)
      end; reflexivity.
  - cbn. destruct (confirm env "Delete this session?"); cbn; [|reflexivity].
    destruct (respond env unit n (DeleteWorkout id)); reflexivity.
  - destruct (truthy_id (editingId st)) as [e|]; cbn -[clean_workout];
      match goal with
      | |- context [respond ?e ?A ?k ?r] => destruct (respond e A k r)
      end; reflexivity.
  - destruct (truthy_id (editingId st)) as [e|]; cbn -[clean_workout];
      match goal with
      | |- context [respond ?e ?A ?k ?r] => destruct (respond e A k r)
      end; reflexivity.
  - cbn. destruct (confirm env "Delete this session?"); cbn; [|reflexivity].
    destruct (respond env unit n (DeleteWorkout id)); reflexivity.
  - cbn. destruct (confirm env "Delete this session?"); cbn; [|reflexivity].
    destruct (respond env unit n (DeleteWorkout id)); reflexivity.
Qed.

End Gates.

(** ** Identifiers stay distinct *)

Section Identifiers.

Import Js App Vocabulary Rest.

Context {A : Type} (id : A -> option string).

Lemma ids_distinct_filter (f : A -> bool) (l : list A) :
  ids_distinct id l -> ids_distinct id (filter f l).
Proof.
  intros D e x y Hx Hy. apply filter_In in Hx as [Hx _].
  apply filter_In in Hy as [Hy _]. now apply D.
Qed.

Lemma ids_distinct_cons (x : A) (l : list A) :
  ids_distinct id l ->
  (forall e, id x = Some e -> id_fresh id e l) ->
  ids_distinct id (x :: l).
Proof.
  intros D F e a b [<-|Ha] [<-|Hb] Ia Ib.
  - reflexivity.
  - exfalso. exact (F e Ia b Hb Ib).
  - exfalso. exact (F e Ib a Ha Ia).
  - eapply D; eassumption.
Qed.

Lemma ids_distinct_replace (P : A -> bool) (e : string) (upd : A)
  (l : list A) :
  (forall x, P x = true <-> id x = Some e) ->
  id upd = Some e ->
  ids_distinct id l ->
  ids_distinct id (map (fun x => if P x then upd else x) l).
Proof.
  intros HP Hupd D e0 a b Ha Hb Ia Ib.
  apply in_map_iff in Ha as (x & <- & Hx).
  apply in_map_iff in Hb as (y & <- & Hy).
  destruct (P x) eqn:Px, (P y) eqn:Py.
  - reflexivity.
  - exfalso. rewrite Hupd in Ia. injection Ia as <-.
    apply HP in Ib. congruence.
  - exfalso. rewrite Hupd in Ib. injection Ib as <-.
    apply HP in Ia. congruence.
  - eapply D; eassumption.
Qed.

Lemma replace_fresh (P : A -> bool) (data : A) (l : list A) :
  (forall x, In x l -> P x = false) ->
  map (fun x => if P x then data else x) l = l.
Proof.
  intros F. induction l as [|x l IH]; simpl; [reflexivity|].
  rewrite (F x (or_introl eq_refl)). f_equal.
  apply IH. intros; apply F; now right.
Qed.

End Identifiers.

Section IdentifiersOfHandlers.

Import Js App Vocabulary Rest.
Local Open Scope string_scope.
Local Open Scope list_scope.

Variable host : Host.

(** X6.  The handlers keep the identifiers distinct.  If no two entries
    share an identifier, the temporary identifier drawn for a create is
    carried by no entry, and the identifier the store assigns to an
    inserted record is carried by no entry either, then after a save or
    a delete, accepted or refused, still no two entries of either
    collection share an identifier. *)
Theorem mutations_keep_ids_distinct :
  forall (env : Env) (n : nat) (st : State) (op : Mutation),
    ids_distinct Workout.id (rows st) ->
    ids_distinct Competition.id (comps st) ->
    id_fresh Workout.id (randomUUID env) (rows st) ->
    id_fresh Competition.id (randomUUID env) (comps st) ->
    (forall payload data d,
       respond env _ n (InsertWorkout payload) = Ok data ->
       Workout.id data = Some d -> id_fresh Workout.id d (rows st)) ->
    (forall payload data d,
       respond env _ n (InsertCompetition payload) = Ok data ->
       Competition.id data = Some d -> id_fresh Competition.id d (comps st)) ->
    ids_distinct Workout.id (rows (final (run env (handler host st op) n st)))
    /\ ids_distinct Competition.id
         (comps (final (run env (handler host st op) n st))).
Proof.
  intros env n st op Dw Dc Fw Fc Sw Sc.
  destruct op as [|id| |id]; unfold handler.
  - unfold saveWorkout.
    destruct (session_user st) as [u|]; [|cbn; auto].
    destruct (truthy_id (editingId st)) as [e|].
    + cbn -[clean_workout].
      destruct (respond env unit n _) as [[]|m]; cbn -[clean_workout].
      * split; [|exact Dc].
        apply (ids_distinct_replace Workout.id (Workout.id_is e) e);
          [apply workout_id_is|reflexivity|exact Dw].
      * split; [|exact Dc].
        rewrite map_restore; [exact Dw| |apply workout_id_is; reflexivity].
        intros x y Hx Hy Px Py. apply workout_id_is in Px, Py.
        eapply Dw; eassumption.
    + cbn -[clean_workout].
      destruct (respond env Workout.t n _) as [data|m] eqn:Hr;
        cbn -[clean_workout filter].
      * split; [|exact Dc].
        rewrite String.eqb_refl.
        rewrite (replace_fresh (Workout.id_is (randomUUID env)));
          [|intros x Hx; now apply (workout_fresh _ (rows st))].
        apply ids_distinct_cons; [exact Dw|].
        intros d Hd. eapply Sw; eassumption.
      * split; [|exact Dc].
        rewrite (filter_fresh (Workout.id_is (randomUUID env)));
          [exact Dw| |apply workout_id_is; reflexivity].
        intros x Hx. now apply (workout_fresh _ (rows st)).
  - unfold deleteWorkout. cbn.
    destruct (confirm env "Delete this session?"); cbn; [|auto].
    destruct (respond env unit n (DeleteWorkout id)); cbn.
    + split; [now apply ids_distinct_filter|exact Dc].
    + auto.
  - unfold saveCompetition.
    destruct (session_user st) as [u|]; [|cbn; auto].
    destruct (truthy_id (ceditingId st)) as [e|].
    + cbn -[clean_competition].
      destruct (respond env unit n _) as [[]|m]; cbn -[clean_competition].
      * split; [exact Dw|].
        apply (ids_distinct_replace Competition.id (Competition.id_is e) e);
          [apply competition_id_is|reflexivity|exact Dc].
      * split; [exact Dw|].
        rewrite map_restore; [exact Dc| |apply competition_id_is; reflexivity].
        intros x y Hx Hy Px Py. apply competition_id_is in Px, Py.
        eapply Dc; eassumption.
    + cbn -[clean_competition].
      destruct (respond env Competition.t n _) as [data|m] eqn:Hr;
        cbn -[clean_competition filter].
      * split; [exact Dw|].
        rewrite String.eqb_refl.
        rewrite (replace_fresh (Competition.id_is (randomUUID env)));
          [|intros x Hx; now apply (competition_fresh _ (comps st))].
        apply ids_distinct_cons; [exact Dc|].
        intros d Hd. eapply Sc; eassumption.
      * split; [exact Dw|].
        rewrite (filter_fresh (Competition.id_is (randomUUID env)));
          [exact Dc| |apply competition_id_is; reflexivity].
        intros x Hx. now apply (competition_fresh _ (comps st)).
  - unfold deleteCompetition. cbn.
    destruct (confirm env "Delete this result?"); cbn; [|auto].
    destruct (respond env unit n (DeleteCompetition id)); cbn.
    + split; [exact Dw|now apply ids_distinct_filter].
    + auto.
Qed.

(** X7.  A save the store accepts adopts the record.  On a create the
    sequence becomes the record returned by the store followed by the
    former entries; on an update every entry with the edited identifier
    becomes the normalized draft under that identifier, the others and
    the length of the sequence being unchanged. *)
Theorem accepted_save_adopts_the_record :
  forall (env : Env) (n : nat) (st : State) (u : User),
    session_user st = Some u ->
    id_fresh Workout.id (randomUUID env) (rows st) ->
    (forall data,
       truthy_id (editingId st) = None ->
       respond env _ n
         (InsertWorkout
            (Workout.with_user_id (clean_workout (draft st)) (user_ident u)))
       = Ok data ->
       rows (final (run env (saveWorkout host st) n st)) = data :: rows st)
    /\ (forall e,
          truthy_id (editingId st) = Some e ->
          respond env _ n
            (UpdateWorkout (Workout.with_id (clean_workout (draft st)) e) e)
          = Ok tt ->
          let after := rows (final (run env (saveWorkout host st) n st)) in
          List.length after = List.length (rows st)
          /\ forall i x, nth_error (rows st) i = Some x ->
               nth_error after i
               = Some (if Workout.id_is e x
                       then Workout.with_id (clean_workout (draft st)) e
                       else x)).
Proof.
  intros env n st u Hu Hf. split.
  - intros data He Hr. unfold saveWorkout. rewrite Hu, He.
    cbn -[clean_workout]. rewrite Hr. cbn -[clean_workout].
    rewrite String.eqb_refl. f_equal.
    apply (replace_fresh (Workout.id_is (randomUUID env))).
    intros x Hx. now apply (workout_fresh _ (rows st)).
  - intros e He Hr after. unfold after, saveWorkout. rewrite Hu, He.
    cbn -[clean_workout]. rewrite Hr. cbn -[clean_workout].
    split; [apply length_map|].
    intros i x Hi. rewrite nth_error_map, Hi. reflexivity.
Qed.

End IdentifiersOfHandlers.

(** ** Normalizing twice, and editing *)

Section Renormalization.

Import Js App Vocabulary Rest.
Local Open Scope string_scope.
Local Open Scope list_scope.

Lemma Qle_bool_refl q : Qle_bool q q = true.
Proof. apply Qle_bool_iff, Qle_refl. Qed.

Lemma positive_truthy lo q :
  (0 < lo)%Q -> Qle_bool lo q = true -> Qeq_bool q 0 = false.
Proof.
  intros Hlo Hq. apply Qle_bool_iff in Hq.
  destruct (Qeq_bool q 0) eqn:E; [|reflexivity].
  apply Qeq_bool_iff in E. rewrite E in Hq.
  exfalso. apply (Qlt_irrefl 0). eapply Qlt_le_trans; eassumption.
Qed.

(** A number clamped from below by a positive bound, with a default at
    or above the bound, is left as it is by the same clamp. *)
Lemma clamp_min_again (lo dflt : Q) (x : number) :
  (0 < lo)%Q ->
  Qle_bool lo dflt = true ->
  Math_max (Fin lo)
    (or_number (Math_max (Fin lo) (or_number x (Fin dflt))) (Fin dflt))
  = Math_max (Fin lo) (or_number x (Fin dflt)).
Proof.
  intros Hlo Hd.
  assert (Hcases : Math_max (Fin lo) (or_number x (Fin dflt)) = PosInf
                   \/ exists q, Math_max (Fin lo) (or_number x (Fin dflt))
                                = Fin q /\ Qle_bool lo q = true).
  { unfold or_number. destruct x as [| |q|]; cbn.
    - rewrite Hd. right. eauto.
    - right. exists lo. split; [reflexivity|apply Qle_bool_refl].
    - destruct (Qeq_bool q 0); cbn.
      + rewrite Hd. right. eauto.
      + destruct (Qle_bool lo q) eqn:E; right; eauto using Qle_bool_refl.
    - left. reflexivity. }
  destruct Hcases as [->|(q & -> & Hq)]; unfold or_number; cbn.
  - reflexivity.
  - rewrite (positive_truthy lo q Hlo Hq). cbn. now rewrite Hq.
Qed.

(** The same for the clamp to at least zero with default zero. *)
Lemma clamp_zero_again (x : number) :
  Math_max (of_Z 0)
    (or_number (Math_max (of_Z 0) (or_number x (of_Z 0))) (of_Z 0))
  = Math_max (of_Z 0) (or_number x (of_Z 0)).
Proof.
  unfold or_number. destruct x as [| |q|]; try reflexivity.
  unfold truthy_number. destruct (Qeq_bool q 0) eqn:E; cbn [negb];
    [reflexivity|].
  unfold Math_max, num_leb, of_Z.
  destruct (Qle_bool (inject_Z 0) q) eqn:L; cbn.
  - rewrite E. cbn. now rewrite L.
  - reflexivity.
Qed.

(** A number clamped into an interval of positive bounds is truthy and
    is left as it is by the same clamp. *)
Lemma clamp_between_again (lo hi : Q) (x : number) :
  (0 < lo)%Q -> Qle_bool lo hi = true -> x <> NaN ->
  let r := Math_min (Fin hi) (Math_max (Fin lo) x) in
  truthy_number r = true
  /\ Math_min (Fin hi) (Math_max (Fin lo) r) = r.
Proof.
  intros Hlo Hlh Hx r.
  assert (Hhi : Qeq_bool hi 0 = false) by (eapply positive_truthy; eassumption).
  assert (Hcases : r = Fin hi
                   \/ exists q, r = Fin q /\ Qle_bool lo q = true
                                /\ Qle_bool hi q = false).
  { unfold r. destruct x as [| |q|]; cbn; try congruence.
    - destruct (Qle_bool hi lo) eqn:E; [now left|].
      right. exists lo. auto using Qle_bool_refl.
    - destruct (Qle_bool lo q) eqn:E1; cbn.
      + destruct (Qle_bool hi q) eqn:E2; [now left|right; eauto].
      + destruct (Qle_bool hi lo) eqn:E2; [now left|].
        right. exists lo. auto using Qle_bool_refl.
    - now left. }
  destruct Hcases as [->|(q & -> & H1 & H2)]; cbn.
  - rewrite Hhi, Hlh. cbn. rewrite Qle_bool_refl. auto.
  - rewrite (positive_truthy lo q Hlo H1), H1. cbn. rewrite H2. auto.
Qed.

(** X8.  Normalization is idempotent: a normalized session draft, or
    result draft, is left unchanged by a second normalization, so that
    re-saving a record the code itself produced does not alter it. *)
Theorem normalization_is_idempotent :
  forall (d : Workout.t) (c : Competition.t),
    clean_workout (clean_workout d) = clean_workout d
    /\ clean_competition (clean_competition c) = clean_competition c.
Proof.
  intros d c. split.
  - unfold clean_workout at 1. cbn [Workout.id Workout.user_id Workout.date
      Workout.distance_m Workout.duration_min Workout.stroke Workout.rpe
      Workout.notes clean_workout].
    rewrite !clamp_zero_again.
    replace (match
               match Workout.rpe d with
               | Some n =>
                   if truthy_number n
                   then Some (Math_min (of_Z 10) (Math_max (of_Z 1) n))
                   else None
               | None => None
               end
             with
             | Some n =>
                 if truthy_number n
                 then Some (Math_min (of_Z 10) (Math_max (of_Z 1) n))
                 else None
             | None => None
             end)
      with (match Workout.rpe d with
            | Some n =>
                if truthy_number n
                then Some (Math_min (of_Z 10) (Math_max (of_Z 1) n))
                else None
            | None => None
            end); [reflexivity|].
    destruct (Workout.rpe d) as [n|]; [|reflexivity].
    destruct (truthy_number n) eqn:T; [|reflexivity].
    destruct (clamp_between_again 1 10 n) as [Ht Hr];
      [reflexivity|reflexivity|intros ->; discriminate|].
    unfold of_Z. change (inject_Z 10) with (10 : Q).
    change (inject_Z 1) with (1 : Q).
    rewrite Ht. now rewrite Hr.
  - unfold clean_competition at 1. cbn [Competition.id Competition.user_id
      Competition.date Competition.meet Competition.distance_m
      Competition.stroke Competition.time_sec Competition.location
      Competition.notes clean_competition].
    unfold of_Z.
    rewrite (clamp_min_again (inject_Z 25) (inject_Z 50));
      [|reflexivity|reflexivity].
    rewrite (clamp_min_again (inject_Z 1) (inject_Z 40));
      [|reflexivity|reflexivity].
    reflexivity.
Qed.

End Renormalization.

Section Editing.

Import Js App Vocabulary Rest.
Local Open Scope string_scope.
Local Open Scope list_scope.

Variable host : Host.

Lemma with_own_id (r : Workout.t) (id : string) :
  Workout.id r = Some id -> Workout.with_id r id = r.
Proof. destruct r; cbn. intros ->. reflexivity. Qed.

(** X9.  Editing loads the first entry with the identifier into the form
    and leaves the sequence alone; an identifier that no entry carries
    changes nothing.  The save that follows sends an update for that
    identifier, never an insert; and when the entry is already
    normalized and the store accepts, the sequence ends as it was. *)
Theorem edit_then_save_updates :
  forall (env : Env) (n : nat) (st : State) (id : string),
    (find (Workout.id_is id) (rows st) = None ->
     run env (editWorkout st id) n st
     = {| final := st; trace := []; timers := [] |})
    /\ (forall r u,
          find (Workout.id_is id) (rows st) = Some r ->
          id <> "" ->
          session_user st = Some u ->
          let st1 := final (run env (editWorkout st id) n st) in
          editingId st1 = Some id
          /\ draft st1 = r
          /\ rows st1 = rows st
          /\ (exists inflight rest,
                trace (run env (saveWorkout host st1) n st1)
                = EvRequest
                    (UpdateWorkout (Workout.with_id (clean_workout r) id) id)
                    inflight :: rest)
          /\ (ids_distinct Workout.id (rows st) ->
              clean_workout r = r ->
              respond env _ n
                (UpdateWorkout (Workout.with_id (clean_workout r) id) id)
              = Ok tt ->
              rows (final (run env (saveWorkout host st1) n st1)) = rows st)).
Proof.
  intros env n st id. split.
  - intros H. unfold editWorkout. rewrite H. reflexivity.
  - intros r u Hfind Hid Hu st1.
    assert (Est : st1 = setDraft r (setEditingId (Some id) st)).
    { unfold st1, editWorkout. rewrite Hfind. reflexivity. }
    assert (Htruthy : truthy_id (Some id) = Some id).
    { unfold truthy_id. destruct (String.eqb_spec id ""); congruence. }
    rewrite Est. cbn [editingId draft rows setDraft setEditingId].
    split; [reflexivity|]. split; [reflexivity|]. split; [reflexivity|].
    assert (Hsave : saveWorkout host (setDraft r (setEditingId (Some id) st))
                    = SetState (setRows (map (fun x =>
                        if Workout.id_is id x
                        then Workout.with_id (clean_workout r) id else x)))
                      (Await (UpdateWorkout
                                (Workout.with_id (clean_workout r) id) id)
                         (fun resp =>
                            match resp with
                            | Error m =>
                                Alert m
                                  (SetState (setRows (map (fun x =>
                                     if Workout.id_is id x
                                     then restore
                                            (find (Workout.id_is id) (rows st)) x
                                     else x)))
                                  (SetState (setEditingId None)
                                  (SetState (setDraft (emptyWorkout host))
                                   Return)))
                            | Ok _ =>
                                SetState (setEditingId None)
                               (SetState (setDraft (emptyWorkout host)) Return)
                            end))).
    { unfold saveWorkout.
      change (session_user (setDraft r (setEditingId (Some id) st)))
        with (session_user st).
      rewrite Hu.
      change (editingId (setDraft r (setEditingId (Some id) st)))
        with (Some id).
      rewrite Htruthy. reflexivity. }
    rewrite Hsave. split.
    + cbn -[clean_workout]. eexists _, _. reflexivity.
    + intros Dw Hclean Hr. cbn -[clean_workout]. rewrite Hr.
      cbn -[clean_workout]. rewrite Hclean.
      apply find_some in Hfind as [Hin Hr_id].
      apply workout_id_is in Hr_id. rewrite (with_own_id r id Hr_id).
      transitivity (map (fun x : Workout.t => x) (rows st)); [|apply map_id].
      apply map_ext_in. intros x Hx.
      destruct (Workout.id_is id x) eqn:E; [|reflexivity].
      apply workout_id_is in E. eapply Dw; eassumption.
Qed.

End Editing.

(** ** Pages and queries *)

Section Paging.

Import Js App Vocabulary Rest.
Local Open Scope list_scope.

Variable host : Host.

Lemma view_as_slice (rows : list Workout.t) (query : string) (page : nat) :
  view host rows query page
  = firstn 50 (skipn (50 * page)
                 (filter (matches host (toLowerCase host (trim host query)))
                    rows)).
Proof.
  unfold view.
  replace (page * 50) with (50 * page) by lia. rewrite slice_page.
  destruct (String.eqb_spec (toLowerCase host (trim host query)) "") as [E|E];
    [|reflexivity].
  rewrite E. now rewrite (filter_all _ rows (matches_empty host)).
Qed.

(** X10.  The pages partition the matches: pages 0 to n-1 put end to
    end are the first 50 n matching records, nothing lost, repeated or
    reordered, and they are all the matches once 50 n reaches their
    number. *)
Theorem pages_partition_the_matches :
  forall (rows : list Workout.t) (query : string) (n : nat),
    let hits :=
      filter (matches host (toLowerCase host (trim host query))) rows in
    List.concat (map (view host rows query) (seq 0 n)) = firstn (50 * n) hits
    /\ (List.length hits <= 50 * n ->
        List.concat (map (view host rows query) (seq 0 n)) = hits).
Proof.
  intros rows query n hits.
  assert (H : List.concat (map (view host rows query) (seq 0 n))
              = firstn (50 * n) hits).
  { induction n as [|n IH]; [reflexivity|].
    rewrite seq_S, map_app, concat_app, IH.
    cbn [map List.concat Nat.add]. rewrite app_nil_r, view_as_slice.
    fold hits. replace (50 * S n) with (50 * n + 50) by lia.
    now rewrite firstn_add. }
  split; [exact H|].
  intros Hlen. rewrite H. now apply firstn_all2.
Qed.

Lemma in_firstn_inv {A} (k : nat) (l : list A) (x : A) :
  In x (firstn k l) -> In x l.
Proof.
  intros H. rewrite <- (firstn_skipn k l). apply in_or_app. now left.
Qed.

Lemma in_skipn_inv {A} (k : nat) (l : list A) (x : A) :
  In x (skipn k l) -> In x l.
Proof.
  intros H. rewrite <- (firstn_skipn k l). apply in_or_app. now right.
Qed.

Lemma append_assoc (a b c : string) :
  String.append (String.append a b) c = String.append a (String.append b c).
Proof. induction a as [|x a IH]; cbn; [reflexivity|now rewrite IH]. Qed.

Lemma occurs_in_trans (a b c : string) :
  occurs_in a b -> occurs_in b c -> occurs_in a c.
Proof.
  intros (p & s & ->) (p' & s' & ->).
  exists (String.append p' p), (String.append s s').
  now rewrite !append_assoc.
Qed.

(** X11.  A query that contains another matches no record that the
    other does not match: every record shown for it, on any page,
    belongs to the list and matches the contained query as well, so that
    typing further characters only narrows what is shown. *)
Theorem longer_query_narrows :
  forall (rows : list Workout.t) (query query' : string) (page : nat)
         (r : Workout.t),
    occurs_in (toLowerCase host (trim host query'))
      (toLowerCase host (trim host query)) ->
    In r (view host rows query page) ->
    In r rows
    /\ In r (filter (matches host (toLowerCase host (trim host query'))) rows).
Proof.
  intros rows query query' page r Hsub Hin.
  rewrite view_as_slice in Hin.
  assert (Hhit : In r (filter (matches host
                                 (toLowerCase host (trim host query))) rows)).
  { apply (in_skipn_inv (50 * page)), (in_firstn_inv 50). exact Hin. }
  apply filter_In in Hhit as [Hrows Hm].
  split; [exact Hrows|]. apply filter_In. split; [exact Hrows|].
  unfold matches in *.
  rewrite !orb_true_iff in *. rewrite !includes_iff in *.
  repeat match goal with
         | H : _ \/ _ |- _ => destruct H as [H|H]
         end;
    eauto 6 using occurs_in_trans.
Qed.

End Paging.

(* ===================================================================== *)
(** * Further properties of the [personal_bests] view                     *)
(* ===================================================================== *)

Section ViewRows.

Import Schema Rest.
Local Open Scope list_scope.

Lemma sorted_after (l1 l2 : list Competitions.row) (x c' : Competitions.row) :
  StronglySorted (fun a b => order_leb a b = true) (l1 ++ x :: l2) ->
  In c' l2 -> order_leb x c' = true.
Proof.
  intros Hs Hin. induction l1 as [|z l1 IH]; simpl in Hs.
  - inversion Hs as [|? ? _ Hall]; subst.
    rewrite Forall_forall in Hall. now apply Hall.
  - inversion Hs; subst. now apply IH.
Qed.

(** A row of the view is the projection of a result that the order puts
    before every result of its key. *)
Lemma view_row_first (competitions : list Competitions.row)
  (p : PersonalBests.row) :
  In p (personal_bests competitions) ->
  exists x, In x competitions /\ p = project x
            /\ forall c', In c' competitions -> same_key c' x = true ->
                          order_leb x c' = true.
Proof.
  unfold personal_bests. set (l := sort_by order_leb competitions).
  intros Hp. apply in_map_iff in Hp as (x & <- & Hx).
  assert (Hperm : Permutation competitions l) by apply sort_by_perm.
  assert (Hsorted : StronglySorted (fun a b => order_leb a b = true) l).
  { apply sort_by_sorted; [apply order_leb_total|apply order_leb_trans]. }
  pose proof (distinct_on_unseen same_key x [] l Hx) as [Hxl _].
  exists x. split; [|split; [reflexivity|]].
  - eapply Permutation_in; [apply Permutation_sym; exact Hperm|exact Hxl].
  - intros c' Hc' Hk.
    destruct (distinct_on_first same_key same_key_trans x [] l Hx)
      as (l1 & l2 & El & Hl1).
    assert (Hc'l : In c' l) by (eapply Permutation_in; eassumption).
    rewrite El in Hc'l, Hsorted.
    apply in_app_or in Hc'l as [Hin|[<-|Hin]].
    + rewrite same_key_sym, (Hl1 c' Hin) in Hk. discriminate.
    + apply order_leb_refl.
    + eapply sorted_after; eassumption.
Qed.

Lemma distinct_on_length {A} (same : A -> A -> bool) (seen l : list A) :
  List.length (distinct_on same seen l) <= List.length l.
Proof.
  revert seen. induction l as [|x l IH]; intros seen; simpl; [lia|].
  destruct (existsb (same x) seen); simpl.
  - specialize (IH seen). lia.
  - specialize (IH (x :: seen)). lia.
Qed.

Lemma distinct_on_keys (seen l : list Competitions.row) :
  NoDup (map row_key (distinct_on same_key seen l)).
Proof.
  revert seen. induction l as [|x l IH]; intros seen; simpl.
  - constructor.
  - destruct (existsb (same_key x) seen); [apply IH|].
    simpl. constructor; [|apply IH].
    intros Hin. apply in_map_iff in Hin as (y & Hy & Hin).
    apply distinct_on_unseen in Hin as [_ Hun]. simpl in Hun.
    apply orb_false_iff in Hun as [Hyx _].
    assert (same_key y x = true) as K.
    { apply same_key_iff. unfold row_key in Hy. injection Hy. auto. }
    congruence.
Qed.

(** X12.  The view invents nothing and repeats no key: each of its rows
    is the projection of a result of the table, no two of its rows have
    the same (user, stroke, distance), and it has at most as many rows
    as there are results; with no result it is empty. *)
Theorem view_rows_come_from_results :
  forall competitions : list Competitions.row,
    (forall p, In p (personal_bests competitions) ->
               exists c, In c competitions /\ p = project c)
    /\ NoDup (map pb_key (personal_bests competitions))
    /\ List.length (personal_bests competitions) <= List.length competitions
    /\ personal_bests [] = [].
Proof.
  intros competitions. split; [|split; [|split; [|reflexivity]]].
  - intros p Hp. apply view_row_first in Hp as (x & Hx & -> & _). eauto.
  - unfold personal_bests. rewrite map_map.
    apply (distinct_on_keys [] (sort_by order_leb competitions)).
  - unfold personal_bests. rewrite length_map.
    etransitivity; [apply distinct_on_length|].
    now rewrite <- (Permutation_length (sort_by_perm order_leb competitions)).
Qed.

(** Two tables that record the same results under a key show the same
    time and date for it. *)
Lemma view_rows_agree (c : Competitions.row)
  (l1 l2 : list Competitions.row) (p1 p2 : PersonalBests.row) :
  same_results_for c l1 l2 ->
  In p1 (personal_bests l1) -> has_key c p1 = true ->
  In p2 (personal_bests l2) -> has_key c p2 = true ->
  (PersonalBests.time_sec p1 == PersonalBests.time_sec p2)%Q
  /\ PersonalBests.date p1 = PersonalBests.date p2.
Proof.
  intros Hsame H1 K1 H2 K2.
  apply view_row_first in H1 as (x1 & Hx1 & -> & M1).
  apply view_row_first in H2 as (x2 & Hx2 & -> & M2).
  rewrite has_key_project in K1, K2.
  assert (K12 : same_key x1 x2 = true).
  { eapply same_key_trans; [exact K1|now rewrite same_key_sym]. }
  assert (K21 : same_key x2 x1 = true) by now rewrite same_key_sym.
  assert (L12 : order_leb x1 x2 = true).
  { apply M1; [|exact K21]. now apply (Hsame x2 K2). }
  assert (L21 : order_leb x2 x1 = true).
  { apply M2; [|exact K12]. now apply (Hsame x1 K1). }
  destruct (order_leb_same_key x1 x2 K12 L12) as [T12 D12].
  destruct (order_leb_same_key x2 x1 K21 L21) as [T21 D21].
  assert (E : (Competitions.time_sec x1 == Competitions.time_sec x2)%Q)
    by now apply Qle_antisym.
  split; [exact E|]. cbn.
  apply Z.le_antisymm; [apply D12; now symmetry|apply D21; exact E].
Qed.

(** X13.  The view does not depend on the order in which the results are
    stored: over two tables with the same results, the rows of a key
    show the same time and the same date. *)
Theorem view_independent_of_storage_order :
  forall (l1 l2 : list Competitions.row) (c : Competitions.row)
         (p1 p2 : PersonalBests.row),
    Permutation l1 l2 ->
    In p1 (personal_bests l1) -> has_key c p1 = true ->
    In p2 (personal_bests l2) -> has_key c p2 = true ->
    (PersonalBests.time_sec p1 == PersonalBests.time_sec p2)%Q
    /\ PersonalBests.date p1 = PersonalBests.date p2.
Proof.
  intros l1 l2 c p1 p2 Hperm. apply view_rows_agree.
  intros x _. split; apply Permutation_in;
    [exact Hperm|apply Permutation_sym; exact Hperm].
Qed.

(** X14.  Recording a further result never makes a personal best
    slower: the row of a key shows a time at most the former one, and at
    most the time of the new result when it is of that key; the rows of
    the other keys keep their time and date. *)
Theorem new_result_never_slows_a_best :
  forall (competitions : list Competitions.row)
         (new c : Competitions.row) (p p' : PersonalBests.row),
    In p (personal_bests competitions) -> has_key c p = true ->
    In p' (personal_bests (new :: competitions)) -> has_key c p' = true ->
    (PersonalBests.time_sec p' <= PersonalBests.time_sec p)%Q
    /\ (same_key new c = true ->
        (PersonalBests.time_sec p' <= Competitions.time_sec new)%Q)
    /\ (same_key new c = false ->
        (PersonalBests.time_sec p' == PersonalBests.time_sec p)%Q
        /\ PersonalBests.date p' = PersonalBests.date p).
Proof.
  intros competitions new c p p' Hp Kp Hp' Kp'.
  split; [|split].
  - apply view_row_first in Hp as (x & Hx & -> & _).
    apply view_row_first in Hp' as (x' & Hx' & -> & M').
    rewrite has_key_project in Kp, Kp'.
    assert (K : same_key x' x = true).
    { eapply same_key_trans; [exact Kp'|now rewrite same_key_sym]. }
    assert (L : order_leb x' x = true).
    { apply M'; [now right|now rewrite same_key_sym]. }
    apply (order_leb_same_key x' x K L).
  - intros Knew.
    apply view_row_first in Hp' as (x' & Hx' & -> & M').
    rewrite has_key_project in Kp'.
    assert (K : same_key x' new = true).
    { eapply same_key_trans; [exact Kp'|now rewrite same_key_sym]. }
    assert (L : order_leb x' new = true).
    { apply M'; [now left|now rewrite same_key_sym]. }
    apply (order_leb_same_key x' new K L).
  - intros Knew.
    apply (view_rows_agree c (new :: competitions) competitions); auto.
    intros x Kx. split.
    + intros [<-|H]; [congruence|exact H].
    + intros H. now right.
Qed.

End ViewRows.

(* ===================================================================== *)
(** * Further properties of the CSV import and export                     *)
(* ===================================================================== *)

Section Separators.

Import Js App Vocabulary Rest.
Local Open Scope list_scope.

Lemma avoids_app bad (a b : string) :
  avoids bad (String.append a b) = avoids bad a && avoids bad b.
Proof.
  induction a as [|c a IH]; cbn; [reflexivity|].
  now rewrite IH, andb_assoc.
Qed.

Lemma avoids_separator (s : string) :
  avoids is_separator s = true ->
  avoids is_comma s = true /\ avoids is_break s = true.
Proof.
  induction s as [|c s IH]; cbn; [auto|].
  unfold is_separator at 1. rewrite negb_orb, !andb_true_iff.
  intros [[H1 H2] H3]. destruct (IH H3). auto.
Qed.

Lemma replaceAll_no_comma (s : string) :
  avoids is_comma (replaceAll "," " " s) = true.
Proof.
  induction s as [|c s IH]; cbn; [reflexivity|].
  rewrite IH, andb_true_r. unfold is_comma.
  destruct (Ascii.eqb c ",") eqn:E; [reflexivity|now rewrite E].
Qed.

Lemma replaceAll_no_break (s : string) :
  avoids is_break s = true ->
  avoids is_break (replaceAll "," " " s) = true.
Proof.
  induction s as [|c s IH]; cbn; [reflexivity|].
  rewrite !andb_true_iff. intros [H1 H2]. split; [|now apply IH].
  destruct (Ascii.eqb c ","); [reflexivity|exact H1].
Qed.

Lemma split_on_comma_plain (a : string) :
  avoids is_comma a = true -> split_on "," a = [a].
Proof.
  induction a as [|c a IH]; cbn; [reflexivity|].
  unfold is_comma at 1. rewrite andb_true_iff, negb_true_iff.
  intros [H1 H2]. rewrite H1, (IH H2). reflexivity.
Qed.

Lemma split_on_comma_app (a rest : string) :
  avoids is_comma a = true ->
  split_on "," (String.append a (String "," rest)) = a :: split_on "," rest.
Proof.
  induction a as [|c a IH]; cbn; [reflexivity|].
  unfold is_comma at 1. rewrite andb_true_iff, negb_true_iff.
  intros [H1 H2]. rewrite H1, (IH H2). reflexivity.
Qed.

Lemma split_on_comma_concat (fields : list string) :
  fields <> [] ->
  Forall (fun f => avoids is_comma f = true) fields ->
  split_on "," (String.concat "," fields) = fields.
Proof.
  induction fields as [|f fields IH]; [congruence|].
  intros _ Hall. inversion Hall as [|? ? Hf Hrest]; subst.
  destruct fields as [|g fields].
  - cbn. now apply split_on_comma_plain.
  - cbn [String.concat]. cbn [String.append].
    rewrite (split_on_comma_app f _ Hf). f_equal.
    apply IH; [discriminate|exact Hrest].
Qed.

Lemma not_break (c : ascii) :
  is_break c = false -> Ascii.eqb c LF = false /\ Ascii.eqb c CR = false.
Proof. unfold is_break. now rewrite orb_false_iff. Qed.

Lemma split_lines_plain (a : string) :
  avoids is_break a = true -> split_lines a = [a].
Proof.
  induction a as [|c a IH]; cbn -[LF CR is_break]; [reflexivity|].
  rewrite andb_true_iff, negb_true_iff. intros [H1 H2].
  destruct (not_break c H1) as [-> ->]. cbn -[LF CR]. now rewrite (IH H2).
Qed.

Lemma split_lines_app (a rest : string) :
  avoids is_break a = true ->
  split_lines (String.append a (String LF rest)) = a :: split_lines rest.
Proof.
  induction a as [|c a IH]; cbn -[LF CR is_break];
    [now rewrite Ascii.eqb_refl|].
  rewrite andb_true_iff, negb_true_iff. intros [H1 H2].
  destruct (not_break c H1) as [-> ->]. cbn -[LF CR]. now rewrite (IH H2).
Qed.

Lemma split_lines_concat (lines : list string) :
  lines <> [] ->
  Forall (fun l => avoids is_break l = true) lines ->
  split_lines (String.concat (String LF "") lines) = lines.
Proof.
  induction lines as [|l lines IH]; [congruence|].
  intros _ Hall. inversion Hall as [|? ? Hl Hrest]; subst.
  destruct lines as [|g lines].
  - cbn. now apply split_lines_plain.
  - cbn [String.concat]. cbn [String.append].
    rewrite (split_lines_app l _ Hl). f_equal.
    apply IH; [discriminate|exact Hrest].
Qed.

Lemma filter_keeps_all {A} (f : A -> bool) (l : list A) :
  Forall (fun x => f x = true) l -> filter f l = l.
Proof.
  induction 1 as [|x l Hx Hl IH]; cbn; [reflexivity|].
  now rewrite Hx, IH.
Qed.

End Separators.

Section RoundTrip.

Import Js App Vocabulary Rest.
Local Open Scope string_scope.
Local Open Scope list_scope.

Variable host : Host.
Hypothesis plain : keeps_plain_words host.

Lemma stroke_text_plain (s : Workout.Stroke) :
  avoids is_separator (Workout.stroke_text s) = true
  /\ String.eqb (Workout.stroke_text s) "" = false.
Proof. destruct s; split; reflexivity. Qed.

Lemma exported_header_read :
  map (fun h => toLowerCase host (trim host h))
    (split_on ","
       (String.concat ","
          ["date"; "distance_m"; "duration_min"; "stroke"; "rpe"; "notes"]))
  = exported_names.
Proof.
  change (split_on "," (String.concat ","
            ["date"; "distance_m"; "duration_min"; "stroke"; "rpe"; "notes"]))
    with exported_names.
  rewrite <- (map_id exported_names) at 2.
  apply map_ext_in. intros name Hname. now apply plain.
Qed.

Lemma append_not_empty (a : string) (c : ascii) (s : string) :
  String.eqb (String.append a (String c s)) "" = false.
Proof. destruct a; reflexivity. Qed.

(** The columns of an exported line are the six fields. *)
Lemma export_line_columns (r : Workout.t) :
  exportable host r ->
  split_on "," (export_line host r)
  = [ Workout.date r;
      String_of_number host (Workout.distance_m r);
      String_of_number host (Workout.duration_min r);
      Workout.stroke_text (Workout.stroke r);
      match Workout.rpe r with
      | Some n => String_of_number host n
      | None => ""
      end;
      replaceAll "," " " (match Workout.notes r with
                          | Some s => s
                          | None => ""
                          end) ].
Proof.
  intros (Hd & Hm & Hu & Hr & Hn). unfold export_line.
  apply split_on_comma_concat; [discriminate|].
  repeat constructor.
  - now apply avoids_separator.
  - now apply avoids_separator.
  - now apply avoids_separator.
  - apply avoids_separator, stroke_text_plain.
  - destruct (Workout.rpe r) as [n|]; [|reflexivity].
    now apply avoids_separator, Hr.
  - apply replaceAll_no_comma.
Qed.

Lemma export_line_unbroken (r : Workout.t) :
  exportable host r ->
  avoids is_break (export_line host r) = true
  /\ String.eqb (export_line host r) "" = false.
Proof.
  intros (Hd & Hm & Hu & Hr & Hn). unfold export_line.
  cbn [String.concat]. split; [|apply append_not_empty].
  rewrite !avoids_app. cbn [avoids].
  apply avoids_separator in Hd as [_ ->], Hm as [_ ->], Hu as [_ ->].
  destruct (stroke_text_plain (Workout.stroke r)) as [Hs _].
  apply avoids_separator in Hs as [_ ->].
  rewrite (replaceAll_no_break _ Hn).
  destruct (Workout.rpe r) as [n|].
  - destruct (avoids_separator _ (Hr n eq_refl)) as [_ ->]. reflexivity.
  - reflexivity.
Qed.

Lemma or_undefined (a z : value) : or (or a Undefined) z = or a z.
Proof. unfold or. destruct (truthy a) eqn:E; [now rewrite E|reflexivity]. Qed.

Lemma or_trimmed_empty (s : string) :
  or (Str (trim host s)) (Str "") = Str (trim host s).
Proof.
  unfold or. cbn.
  destruct (String.eqb_spec (trim host s) "") as [->|]; reflexivity.
Qed.

(** What [parseCSV] makes of an exported line under the exported header. *)
Lemma exported_line_parsed (r : Workout.t) :
  exportable host r ->
  let header :=
    map (fun h => toLowerCase host (trim host h))
      (split_on ","
         (String.concat ","
            ["date"; "distance_m"; "duration_min"; "stroke"; "rpe"; "notes"]))
  in
  let idx (name : string) := indexOf header name in
  let cols := split_on "," (export_line host r) in
  {| ImportRow.date := trimmed host (at_index cols (idx "date"));
     ImportRow.distance_m :=
       or (or (cell (at_index cols (idx "distance_m")))
              (cell (at_index cols (idx "distance"))))
          (Num (of_Z 0));
     ImportRow.duration_min :=
       or (or (cell (at_index cols (idx "duration_min")))
              (cell (at_index cols (idx "duration"))))
          (Num (of_Z 0));
     ImportRow.stroke :=
       or (trimmed host (at_index cols (idx "stroke"))) (Str "Free");
     ImportRow.rpe := or (cell (at_index cols (idx "rpe"))) Null;
     ImportRow.notes :=
       or (trimmed host (at_index cols (idx "notes"))) (Str "") |}
  = reimported host r.
Proof.
  intros Hr header idx cols.
  assert (Hcols := export_line_columns r Hr). fold cols in Hcols.
  assert (Hidx : forall name, idx name = indexOf exported_names name).
  { intros name. unfold idx, header. now rewrite exported_header_read. }
  rewrite !Hidx, Hcols.
  cbn [exported_names indexOf String.eqb Ascii.eqb Bool.eqb option_map
       at_index nth_error trimmed cell].
  rewrite !or_undefined, or_trimmed_empty.
  destruct (stroke_text_plain (Workout.stroke r)) as (_ & He).
  destruct plain as [_ Ht].
  unfold reimported. f_equal.
  - unfold or. cbn [truthy]. now rewrite Ht, He.
  - destruct (Workout.rpe r) as [n|]; reflexivity.
Qed.

(** What [parseCSV] makes of an exported text. *)
Lemma exported_text_parsed (rows : list Workout.t) :
  Forall (exportable host) rows ->
  parseCSV host (exportCSV host rows) = map (reimported host) rows.
Proof.
  intros Hrows.
  assert (Hlines :
    filter (fun l => negb (String.eqb l ""))
      (split_lines (exportCSV host rows))
    = String.concat ","
        ["date"; "distance_m"; "duration_min"; "stroke"; "rpe"; "notes"]
      :: map (export_line host) rows).
  { unfold exportCSV. rewrite split_lines_concat.
    - apply filter_keeps_all. constructor; [reflexivity|].
      apply Forall_map. eapply Forall_impl; [|exact Hrows].
      intros r Hr. destruct (export_line_unbroken r Hr) as [_ ->].
      reflexivity.
    - discriminate.
    - constructor; [reflexivity|].
      apply Forall_map. eapply Forall_impl; [|exact Hrows].
      intros r Hr. apply (export_line_unbroken r Hr). }
  unfold parseCSV. rewrite Hlines. rewrite map_map.
  apply map_ext_in. intros r Hr.
  apply exported_line_parsed.
  rewrite Forall_forall in Hrows. now apply Hrows.
Qed.

End RoundTrip.

Section ImportedRows.

Import Js App Vocabulary Rest.
Local Open Scope string_scope.
Local Open Scope list_scope.

Variable host : Host.

(** X16.  Importing an export reads every session back.  When no date or
    number text holds a comma or a line break and no notes hold a line
    break, [parseCSV] applied to the text of [exportCSV] yields exactly
    one row per exported session, in order, holding the trimmed date,
    the distance, duration and effort as the texts that were written (an
    empty text reading as 0, respectively as no effort), the stroke, and
    the notes with their commas turned into blanks and trimmed.  The
    host's [trim] and [toLowerCase] enter only through the column and
    stroke names, which they leave as they are. *)
Theorem export_then_parse :
  forall rows : list Workout.t,
    keeps_plain_words host ->
    Forall (exportable host) rows ->
    parseCSV host (exportCSV host rows) = map (reimported host) rows
    /\ List.length (parseCSV host (exportCSV host rows)) = List.length rows.
Proof.
  intros rows Hplain Hrows.
  rewrite (exported_text_parsed host Hplain rows Hrows), length_map.
  split; reflexivity.
Qed.

Lemma or_truthy_default (a d : value) :
  or a d = d \/ (or a d = a /\ truthy a = true).
Proof. unfold or. destruct (truthy a); auto. Qed.

(** The shape of the rows that [parseCSV] builds. *)
Lemma parseCSV_shape (text : string) (r : ImportRow.t) :
  In r (parseCSV host text) ->
  (ImportRow.date r = Undefined \/ exists s, ImportRow.date r = Str s)
  /\ (exists s, ImportRow.stroke r = Str s /\ String.eqb s "" = false)
  /\ (ImportRow.rpe r = Null
      \/ exists s, ImportRow.rpe r = Str s /\ String.eqb s "" = false)
  /\ (exists s, ImportRow.notes r = Str s).
Proof.
  unfold parseCSV.
  destruct (filter _ (split_lines text)) as [|first rest]; [intros []|].
  intros Hin. apply in_map_iff in Hin as (line & <- & _).
  cbn [ImportRow.date ImportRow.stroke ImportRow.rpe ImportRow.notes].
  split; [|split; [|split]].
  - destruct (at_index _ _); cbn; eauto.
  - destruct (at_index (split_on "," line) (indexOf _ "stroke")) as [s|];
      cbn [trimmed]; unfold or; cbn [truthy].
    + destruct (String.eqb (trim host s) "") eqn:E; cbn [negb]; eauto.
    + eauto.
  - destruct (at_index (split_on "," line) (indexOf _ "rpe")) as [s|];
      cbn [cell]; unfold or; cbn [truthy]; [|now left].
    destruct (String.eqb s "") eqn:E; cbn [negb]; eauto.
  - destruct (at_index (split_on "," line) (indexOf _ "notes")) as [s|];
      cbn [trimmed]; unfold or; cbn [truthy].
    + destruct (String.eqb (trim host s) ""); cbn [negb]; eauto.
    + eauto.
Qed.

(** X15.  Whatever the file, every row that an import submits has a
    stroke among the six of a session (an unknown one reads as Free), a
    distance and a duration that are numbers of at least 0, a date and
    notes that are texts, the owner's identifier, and an effort that is
    null, or within [1,10], or not a number when the effort text does
    not read as one. *)
Theorem imported_rows_are_in_range :
  forall (text today uid : string) (c : CleanedRow.t),
    In c (map (clean_row host today uid) (parseCSV host text)) ->
    In (CleanedRow.stroke c) (map Str session_strokes)
    /\ num_leb (of_Z 0) (CleanedRow.distance_m c) = true
    /\ num_leb (of_Z 0) (CleanedRow.duration_min c) = true
    /\ (CleanedRow.rpe c = Null
        \/ CleanedRow.rpe c = Num NaN
        \/ exists n, CleanedRow.rpe c = Num n
                     /\ between (of_Z 1) (of_Z 10) n)
    /\ (exists s, CleanedRow.date c = Str s)
    /\ (exists s, CleanedRow.notes c = Str s)
    /\ CleanedRow.user_id c = uid.
Proof.
  intros text today uid c Hin.
  apply in_map_iff in Hin as (r & <- & Hr).
  apply parseCSV_shape in Hr
    as (Hdate & (s & Hs & Hsne) & Hrpe & (nt & Hnotes)).
  assert (Z0 : of_Z 0 <> NaN) by discriminate.
  unfold clean_row.
  cbn [CleanedRow.stroke CleanedRow.distance_m CleanedRow.duration_min
       CleanedRow.rpe CleanedRow.date CleanedRow.notes CleanedRow.user_id].
  split; [|split; [|split; [|split; [|split; [|split]]]]].
  - rewrite Hs. cbn [String_].
    destruct (existsb (String.eqb s) _) eqn:E.
    + apply existsb_exists in E as (k & Hk & Ek).
      apply String.eqb_eq in Ek. subst k.
      apply in_map. exact Hk.
    + left. reflexivity.
  - apply Math_max_ge, or_number_not_NaN, Z0.
  - apply Math_max_ge, or_number_not_NaN, Z0.
  - destruct Hrpe as [->|(t & -> & Ht)]; [now left|].
    cbn [truthy]. rewrite Ht. cbn [negb Number].
    destruct (Number_of_string host t) eqn:En; try (now right; left);
      right; right; eexists; (split; [reflexivity|]);
      apply clamp_between; discriminate.
  - destruct Hdate as [->|(t & ->)]; cbn; eauto.
  - rewrite Hnotes. cbn. eauto.
  - reflexivity.
Qed.

(** What an import submits for a row read back from an export. *)
Lemma reimported_row_normalized (today uid : string) (r : Workout.t) :
  read_back host r ->
  let c := clean_row host today uid (reimported host r) in
  CleanedRow.distance_m c = Workout.distance_m (clean_workout r)
  /\ CleanedRow.duration_min c = Workout.duration_min (clean_workout r)
  /\ CleanedRow.stroke c = Str (Workout.stroke_text (Workout.stroke r))
  /\ CleanedRow.date c = Str (trim host (Workout.date r))
  /\ CleanedRow.notes c
     = Str (trim host (replaceAll "," " " (match Workout.notes r with
                                           | Some s => s
                                           | None => ""
                                           end)))
  /\ CleanedRow.rpe c
     = match Workout.rpe r with
       | Some n => Num (Math_min (of_Z 10) (Math_max (of_Z 1) n))
       | None => Null
       end
  /\ CleanedRow.user_id c = uid.
Proof.
  intros (Hd & Hm & Nd & Nm & Hrpe) c. unfold c, clean_row, reimported.
  cbn [ImportRow.date ImportRow.distance_m ImportRow.duration_min
       ImportRow.stroke ImportRow.rpe ImportRow.notes
       CleanedRow.date CleanedRow.distance_m CleanedRow.duration_min
       CleanedRow.stroke CleanedRow.rpe CleanedRow.notes
       CleanedRow.user_id].
  assert (Hor : forall t z, t <> "" -> or (Str t) z = Str t).
  { intros t z Ht. unfold or. cbn.
    destruct (String.eqb_spec t ""); [congruence|reflexivity]. }
  rewrite (Hor _ _ Hd), (Hor _ _ Hm). cbn [Number]. rewrite Nd, Nm.
  split; [reflexivity|]. split; [reflexivity|]. split.
  { cbn [String_]. destruct (Workout.stroke r); reflexivity. }
  split; [reflexivity|]. split; [reflexivity|].
  split; [|reflexivity].
  destruct (Workout.rpe r) as [n|]; [|reflexivity].
  destruct (Hrpe n eq_refl) as [Hn Nn].
  rewrite (Hor _ _ Hn). cbn [truthy Number].
  destruct (String.eqb_spec (String_of_number host n) ""); [congruence|].
  cbn [negb]. now rewrite Nn.
Qed.

(** X17.  Sessions exported and imported again are normalized as a save
    would, but for the effort.  When the host reads back the numbers it
    wrote, the rows that an import cleans from [parseCSV] applied to the
    text of [exportCSV] are, one per exported session and in order, rows
    with the distance and duration that a save of that session would
    send, its stroke, its trimmed date, its notes with commas turned
    into blanks and trimmed, and the importing owner; an effort that was
    present is clamped into [1,10] even when it is 0, which a save would
    omit, and an absent one is null. *)
Theorem reimported_session_is_normalized :
  forall (today uid : string) (rows : list Workout.t),
    keeps_plain_words host ->
    Forall (exportable host) rows ->
    Forall (read_back host) rows ->
    Forall2
      (fun (r : Workout.t) (c : CleanedRow.t) =>
         CleanedRow.distance_m c = Workout.distance_m (clean_workout r)
         /\ CleanedRow.duration_min c
            = Workout.duration_min (clean_workout r)
         /\ CleanedRow.stroke c = Str (Workout.stroke_text (Workout.stroke r))
         /\ CleanedRow.date c = Str (trim host (Workout.date r))
         /\ CleanedRow.notes c
            = Str (trim host
                     (replaceAll "," " " (match Workout.notes r with
                                          | Some s => s
                                          | None => ""
                                          end)))
         /\ CleanedRow.rpe c
            = match Workout.rpe r with
              | Some n => Num (Math_min (of_Z 10) (Math_max (of_Z 1) n))
              | None => Null
              end
         /\ CleanedRow.user_id c = uid)
      rows
      (map (clean_row host today uid) (parseCSV host (exportCSV host rows))).
Proof.
  intros today uid rows Hplain Hexp Hback.
  rewrite (exported_text_parsed host Hplain rows Hexp), map_map.
  clear Hexp. induction Hback as [|r rows Hr _ IH]; cbn [map].
  - constructor.
  - constructor; [|exact IH].
    exact (reimported_row_normalized today uid r Hr).
Qed.

End ImportedRows.

Section Lines.

Import Js App Vocabulary Rest.
Local Open Scope string_scope.
Local Open Scope list_scope.

Variable host : Host.

Lemma split_lines_app_crlf (a rest : string) :
  avoids is_break a = true ->
  split_lines (String.append a (String CR (String LF rest)))
  = a :: split_lines rest.
Proof.
  induction a as [|c a IH]; cbn -[LF CR is_break].
  - intros _. replace (Ascii.eqb CR LF) with false by reflexivity.
    rewrite !Ascii.eqb_refl. reflexivity.
  - rewrite andb_true_iff, negb_true_iff. intros [H1 H2].
    destruct (not_break c H1) as [-> ->]. cbn -[LF CR]. now rewrite (IH H2).
Qed.

Lemma split_lines_concat_crlf (lines : list string) :
  lines <> [] ->
  Forall (fun l => avoids is_break l = true) lines ->
  split_lines (String.concat CRLF lines) = lines.
Proof.
  induction lines as [|l lines IH]; [congruence|].
  intros _ Hall. inversion Hall as [|? ? Hl Hrest]; subst.
  destruct lines as [|g lines].
  - cbn. now apply split_lines_plain.
  - cbn [String.concat]. unfold CRLF at 1. cbn [String.append].
    rewrite (split_lines_app_crlf l _ Hl). f_equal.
    apply IH; [discriminate|exact Hrest].
Qed.

Lemma filter_idem {A} (f : A -> bool) (l : list A) :
  filter f (filter f l) = filter f l.
Proof.
  induction l as [|x l IH]; cbn; [reflexivity|].
  destruct (f x) eqn:E; cbn; [now rewrite E, IH|exact IH].
Qed.

Lemma avoids_filter (f : string -> bool) (lines : list string) :
  Forall (fun l => avoids is_break l = true) lines ->
  Forall (fun l => avoids is_break l = true) (filter f lines).
Proof.
  intros H. rewrite Forall_forall in *. intros l Hl.
  apply filter_In in Hl as [Hl _]. now apply H.
Qed.

(** The non-empty lines that [parseCSV] works on. *)
Lemma lines_read (sep : string) (lines : list string) :
  sep = String LF "" \/ sep = CRLF ->
  Forall (fun l => avoids is_break l = true) lines ->
  filter (fun l => negb (String.eqb l ""))
    (split_lines (String.concat sep lines))
  = filter nonempty lines.
Proof.
  intros Hsep Hall. destruct lines as [|l lines]; [reflexivity|].
  destruct Hsep as [->| ->].
  - rewrite split_lines_concat; [reflexivity|discriminate|exact Hall].
  - rewrite split_lines_concat_crlf; [reflexivity|discriminate|exact Hall].
Qed.

(** X18.  Line ends and empty lines do not matter to [parseCSV]: lines
    joined by carriage return and line feed are read as the same lines
    joined by line feeds, and as the non-empty ones among them. *)
Theorem line_ends_and_empty_lines_ignored :
  forall lines : list string,
    Forall (fun l => avoids is_break l = true) lines ->
    parseCSV host (String.concat CRLF lines)
    = parseCSV host (String.concat (String LF "") lines)
    /\ parseCSV host (String.concat (String LF "") lines)
       = parseCSV host (String.concat (String LF "") (filter nonempty lines)).
Proof.
  intros lines Hall. unfold parseCSV.
  rewrite !lines_read; auto using avoids_filter.
  unfold nonempty. rewrite filter_idem. split; reflexivity.
Qed.

(** X19.  The header is read by its column names only: two files with
    the same data lines whose header lines have the same names, once
    trimmed and lower-cased, in the same columns, are read as the same
    rows. *)
Theorem header_read_by_column_names :
  forall (header header' : string) (data : list string),
    avoids is_break header = true ->
    avoids is_break header' = true ->
    nonempty header = true ->
    nonempty header' = true ->
    Forall (fun l => avoids is_break l = true) data ->
    column_names host header = column_names host header' ->
    parseCSV host (String.concat (String LF "") (header :: data))
    = parseCSV host (String.concat (String LF "") (header' :: data)).
Proof.
  intros header header' data Hh Hh' Nh Nh' Hdata Hnames. unfold parseCSV.
  rewrite !lines_read; auto.
  cbn [filter]. rewrite Nh, Nh'.
  unfold column_names in Hnames. now rewrite Hnames.
Qed.

End Lines.

(* ===================================================================== *)
(** * The further properties on concrete inputs                           *)
(* ===================================================================== *)

Section FurtherEvaluations.

Import Js App Vocabulary Rest.
Local Open Scope string_scope.
Local Open Scope list_scope.

Lemma declined_delete_does_nothing_witness :
  let st := Sample.signed_in in
  (confirm declining "Delete this session?" = false
   /\ confirm declining "Delete this result?" = false)
  /\ run declining (deleteWorkout st "w1") 0 st
     = {| final := st; trace := [EvConfirm "Delete this session?" false];
          timers := [] |}
  /\ run declining (deleteCompetition st "c1") 0 st
     = {| final := st; trace := [EvConfirm "Delete this result?" false];
          timers := [] |}.
Proof.
  intros st. split; [split; reflexivity|].
  exact (declined_delete_does_nothing declining 0 st "w1" eq_refl eq_refl).
Defined.

Lemma accepted_delete_removes_the_entry_witness :
  let st := Sample.signed_in in
  let env := Sample.accepting in
  (confirm env "Delete this session?" = true
   /\ respond env unit 0 (DeleteWorkout "w1") = Ok tt)
  /\ let after := final (run env (deleteWorkout st "w1") 0 st) in
     (forall x, In x (rows after) <->
                In x (rows st) /\ Workout.id x <> Some "w1")
     /\ rows after = filter (fun x => negb (Workout.id_is "w1" x)) (rows st)
     /\ (List.length (rows after) <= List.length (rows st))%nat
     /\ comps after = comps st.
Proof.
  intros st env. split; [split; reflexivity|].
  exact (accepted_delete_removes_the_entry env 0 st "w1" eq_refl eq_refl).
Defined.

Lemma failed_fetch_replaces_nothing_witness :
  let st := Sample.signed_in in
  let env := Sample.rejecting_second in
  first_error (respond env _ 0 SelectWorkouts)
    (respond env _ 1 SelectCompetitions)
    (respond env _ 2 SelectPersonalBests) = Some "network error"
  /\ run env fetchAll 0 st
     = {| final := setLoading false st;
          trace := relist st ++ [EvAlert "network error"];
          timers := [] |}.
Proof.
  intros st env. split; [reflexivity|].
  exact (failed_fetch_replaces_nothing env 0 st "network error" eq_refl).
Defined.

Lemma completed_save_resets_the_form_witness :
  let st := Sample.editing in
  let env := Sample.rejecting in
  session_user st = Some Sample.swimmer
  /\ (editingId (final (run env (saveWorkout Sample.host st) 0 st)) = None
      /\ draft (final (run env (saveWorkout Sample.host st) 0 st))
         = emptyWorkout Sample.host)
  /\ (ceditingId (final (run env (saveCompetition Sample.host st) 0 st)) = None
      /\ cdraft (final (run env (saveCompetition Sample.host st) 0 st))
         = emptyComp Sample.host).
Proof.
  intros st env. split; [reflexivity|].
  exact (completed_save_resets_the_form Sample.host env 0 st Sample.swimmer
           eq_refl).
Defined.

Lemma result_mutations_schedule_one_refresh_witness :
  let st := Sample.signed_in in
  let env := Sample.accepting in
  (session_user st = Some Sample.swimmer
   /\ confirm env "Delete this result?" = true)
  /\ timers (run env (saveCompetition Sample.host st) 0 st)
     = [(refreshPBs, 250)]
  /\ timers (run env (deleteCompetition st "c1") 0 st) = [(refreshPBs, 250)]
  /\ timers (run env (saveWorkout Sample.host st) 0 st) = []
  /\ timers (run env (deleteWorkout st "c1") 0 st) = []
  /\ comps (final (run env (saveWorkout Sample.host st) 0 st)) = comps st
  /\ pbs (final (run env (saveWorkout Sample.host st) 0 st)) = pbs st
  /\ comps (final (run env (deleteWorkout st "c1") 0 st)) = comps st
  /\ pbs (final (run env (deleteWorkout st "c1") 0 st)) = pbs st.
Proof.
  intros st env. split; [split; reflexivity|].
  exact (result_mutations_schedule_one_refresh Sample.host env 0 st
           Sample.swimmer "c1" eq_refl eq_refl).
Defined.

Lemma mutations_keep_ids_distinct_witness :
  let st := Sample.signed_in in
  let env := Sample.accepting in
  (ids_distinct Workout.id (rows st)
   /\ ids_distinct Competition.id (comps st)
   /\ id_fresh Workout.id (randomUUID env) (rows st)
   /\ id_fresh Competition.id (randomUUID env) (comps st))
  /\ ids_distinct Workout.id
       (rows (final (run env (handler Sample.host st SaveSession) 0 st)))
  /\ ids_distinct Competition.id
       (comps (final (run env (handler Sample.host st SaveSession) 0 st))).
Proof.
  intros st env.
  assert (H1 : ids_distinct Workout.id (rows st)).
  { intros e x y [<-|[]] [<-|[]] _ _. reflexivity. }
  assert (H2 : ids_distinct Competition.id (comps st)).
  { intros e x y [<-|[]] [<-|[]] _ _. reflexivity. }
  assert (H3 : id_fresh Workout.id (randomUUID env) (rows st)).
  { intros x [<-|[]]. discriminate. }
  assert (H4 : id_fresh Competition.id (randomUUID env) (comps st)).
  { intros x [<-|[]]. discriminate. }
  assert (H5 : forall payload data d,
             respond env _ 0 (InsertWorkout payload) = Ok data ->
             Workout.id data = Some d -> id_fresh Workout.id d (rows st)).
  { intros payload data d Hr Hd x [<-|[]]. cbn in Hr.
    injection Hr as <-. cbn in Hd. injection Hd as <-. discriminate. }
  assert (H6 : forall payload data d,
             respond env _ 0 (InsertCompetition payload) = Ok data ->
             Competition.id data = Some d ->
             id_fresh Competition.id d (comps st)).
  { intros payload data d Hr Hd x [<-|[]]. cbn in Hr.
    injection Hr as <-. cbn in Hd. injection Hd as <-. discriminate. }
  split; [tauto|].
  exact (mutations_keep_ids_distinct Sample.host env 0 st SaveSession
           H1 H2 H3 H4 H5 H6).
Defined.

Lemma accepted_save_adopts_the_record_witness :
  let st := Sample.signed_in in
  let env := Sample.accepting in
  (session_user st = Some Sample.swimmer
   /\ id_fresh Workout.id (randomUUID env) (rows st)
   /\ truthy_id (editingId st) = None)
  /\ rows (final (run env (saveWorkout Sample.host st) 0 st))
     = Workout.with_id
         (Workout.with_user_id (clean_workout (draft st)) "user-1")
         "server-0"
       :: rows st.
Proof.
  intros st env.
  assert (H : id_fresh Workout.id (randomUUID env) (rows st)).
  { intros x [<-|[]]. discriminate. }
  split; [split; [reflexivity|split; [exact H|reflexivity]]|].
  exact (proj1 (accepted_save_adopts_the_record Sample.host env 0 st
                  Sample.swimmer eq_refl H) _ eq_refl eq_refl).
Defined.

Lemma edit_then_save_updates_witness :
  let st := Sample.signed_in in
  let env := Sample.accepting in
  let r := Sample.session_of (of_Z 1500) "2024-05-01" "steady" (Some "w1") in
  (find (Workout.id_is "w1") (rows st) = Some r
   /\ find (Workout.id_is "w9") (rows st) = None
   /\ "w1" <> ""
   /\ session_user st = Some Sample.swimmer
   /\ ids_distinct Workout.id (rows st)
   /\ clean_workout r = r)
  /\ run env (editWorkout st "w9") 0 st
     = {| final := st; trace := []; timers := [] |}
  /\ let st1 := final (run env (editWorkout st "w1") 0 st) in
     editingId st1 = Some "w1"
     /\ draft st1 = r
     /\ rows (final (run env (saveWorkout Sample.host st1) 0 st1)) = rows st.
Proof.
  intros st env r.
  assert (D : ids_distinct Workout.id (rows st)).
  { intros e x y [<-|[]] [<-|[]] _ _. reflexivity. }
  assert (N : "w1" <> "") by discriminate.
  destruct (edit_then_save_updates Sample.host env 0 st "w9") as [Habsent _].
  destruct (edit_then_save_updates Sample.host env 0 st "w1") as [_ Hpresent].
  destruct (Hpresent r Sample.swimmer eq_refl N eq_refl)
    as (He & Hd & _ & _ & Hsame).
  split; [repeat split; [exact N|exact D]|].
  split; [exact (Habsent eq_refl)|].
  split; [exact He|]. split; [exact Hd|].
  exact (Hsame D eq_refl eq_refl).
Defined.

Lemma pages_partition_the_matches_witness :
  let rows := Rest.season in
  let hits :=
    filter (matches Sample.host
              (toLowerCase Sample.host (trim Sample.host "easy"))) rows in
  (List.length hits <= 50 * 3)%nat
  /\ List.length hits = 125%nat
  /\ map (fun page => List.length (view Sample.host rows "easy" page))
       (seq 0 3)
     = [50; 50; 25]%nat
  /\ List.concat (map (view Sample.host rows "easy") (seq 0 3)) = hits.
Proof.
  intros rows hits.
  assert (H : (List.length hits <= 50 * 3)%nat) by (vm_compute; lia).
  split; [exact H|]. split; [reflexivity|]. split; [reflexivity|].
  exact (proj2 (pages_partition_the_matches Sample.host rows "easy" 3) H).
Defined.

Lemma longer_query_narrows_witness :
  let rows := Rest.season in
  let r := Sample.session_of (of_Z 1106) "2024-05-01" "Easy swim"
             (Some "server-106") in
  (occurs_in (toLowerCase Sample.host (trim Sample.host " Sy"))
     (toLowerCase Sample.host (trim Sample.host "easy s "))
   /\ In r (view Sample.host rows "easy s " 1))
  /\ In r rows
  /\ In r (filter (matches Sample.host
                     (toLowerCase Sample.host (trim Sample.host " Sy")))
           rows).
Proof.
  intros rows r.
  assert (H1 : occurs_in (toLowerCase Sample.host (trim Sample.host " Sy"))
                 (toLowerCase Sample.host (trim Sample.host "easy s "))).
  { exists "ea", " s". reflexivity. }
  assert (H2 : In r (view Sample.host rows "easy s " 1)).
  { apply (nth_error_In _ 3). reflexivity. }
  split; [split; assumption|].
  exact (longer_query_narrows Sample.host rows "easy s " " Sy" 1 r H1 H2).
Defined.

Lemma view_rows_come_from_results_witness :
  let p := Schema.project (Sample.swim "r3" 50 (2810 # 100) 8766) in
  In p (Schema.personal_bests three_swims)
  /\ exists c, In c three_swims /\ p = Schema.project c.
Proof.
  intros p.
  assert (H : In p (Schema.personal_bests three_swims)) by (left; reflexivity).
  split; [exact H|].
  exact (proj1 (view_rows_come_from_results three_swims) p H).
Defined.

Lemma view_independent_of_storage_order_witness :
  let c := Sample.swim "r1" 50 (281 # 10) 8797 in
  let p := Schema.project (Sample.swim "r3" 50 (2810 # 100) 8766) in
  (Permutation three_swims (rev three_swims)
   /\ In p (Schema.personal_bests three_swims)
   /\ Schema.has_key c p = true
   /\ In p (Schema.personal_bests (rev three_swims)))
  /\ (Schema.PersonalBests.time_sec p == Schema.PersonalBests.time_sec p)%Q
  /\ Schema.PersonalBests.date p = Schema.PersonalBests.date p.
Proof.
  intros c p.
  assert (H0 : Permutation three_swims (rev three_swims))
    by apply Permutation_rev.
  assert (H1 : In p (Schema.personal_bests three_swims))
    by (left; reflexivity).
  assert (H2 : In p (Schema.personal_bests (rev three_swims)))
    by (left; reflexivity).
  split; [repeat split; assumption|].
  exact (view_independent_of_storage_order three_swims (rev three_swims)
           c p p H0 H1 eq_refl H2 eq_refl).
Defined.

Lemma new_result_never_slows_a_best_witness :
  let c := Sample.swim "r1" 50 (281 # 10) 8797 in
  let p := Schema.project (Sample.swim "r3" 50 (2810 # 100) 8766) in
  let p' := Schema.project faster_swim in
  (In p (Schema.personal_bests three_swims)
   /\ In p' (Schema.personal_bests (faster_swim :: three_swims))
   /\ Schema.same_key faster_swim c = true)
  /\ (Schema.PersonalBests.time_sec p' <= Schema.PersonalBests.time_sec p)%Q
  /\ (Schema.PersonalBests.time_sec p'
      <= Schema.Competitions.time_sec faster_swim)%Q.
Proof.
  intros c p p'.
  assert (H1 : In p (Schema.personal_bests three_swims))
    by (left; reflexivity).
  assert (H2 : In p' (Schema.personal_bests (faster_swim :: three_swims)))
    by (left; reflexivity).
  destruct (new_result_never_slows_a_best three_swims faster_swim c p p'
              H1 eq_refl H2 eq_refl) as (Hle & Hnew & _).
  split; [repeat split; assumption|].
  split; [exact Hle|exact (Hnew eq_refl)].
Defined.

Lemma imported_rows_are_in_range_witness :
  let c :=
    {| CleanedRow.date := Str "2024-05-01";
       CleanedRow.distance_m := of_Z 1500;
       CleanedRow.duration_min := of_Z 25;
       CleanedRow.stroke := Str "Free";
       CleanedRow.rpe := Num (of_Z 6);
       CleanedRow.notes := Str "steady";
       CleanedRow.user_id := "user-1" |} in
  In c (map (clean_row Sample.host "2024-05-02" "user-1")
          (parseCSV Sample.host Sample.one_row))
  /\ In (CleanedRow.stroke c) (map Str session_strokes)
  /\ num_leb (of_Z 0) (CleanedRow.distance_m c) = true
  /\ num_leb (of_Z 0) (CleanedRow.duration_min c) = true.
Proof.
  intros c.
  assert (H : In c (map (clean_row Sample.host "2024-05-02" "user-1")
                      (parseCSV Sample.host Sample.one_row)))
    by (left; reflexivity).
  destruct (imported_rows_are_in_range Sample.host Sample.one_row
              "2024-05-02" "user-1" c H) as (H1 & H2 & H3 & _).
  split; [exact H|]. split; [exact H1|]. split; [exact H2|exact H3].
Defined.

Lemma sample_host_keeps_plain_words : keeps_plain_words Sample.host.
Proof.
  split.
  - intros name Hname. cbn in Hname.
    repeat (destruct Hname as [<-|Hname]; [reflexivity|]).
    destruct Hname.
  - intros s. destruct s; reflexivity.
Qed.

Lemma logbook_exportable : Forall (exportable Sample.host) logbook.
Proof.
  repeat constructor;
    intros n E; injection E as <-; reflexivity.
Qed.

Lemma logbook_read_back : Forall (read_back Sample.host) logbook.
Proof.
  apply Forall_forall.
  intros r [<-|[<-|[<-|[]]]];
    (split; [discriminate|]); (split; [discriminate|]);
    (split; [reflexivity|]); (split; [reflexivity|]);
    intros n E; injection E as <-; (split; [discriminate|reflexivity]).
Qed.

Lemma export_then_parse_witness :
  let rows := logbook in
  (keeps_plain_words Sample.host /\ Forall (exportable Sample.host) rows)
  /\ parseCSV Sample.host (exportCSV Sample.host rows)
     = map (reimported Sample.host) rows
  /\ List.length (parseCSV Sample.host (exportCSV Sample.host rows))
     = List.length rows.
Proof.
  intros rows.
  split; [split; [exact sample_host_keeps_plain_words
                 |exact logbook_exportable]|].
  exact (export_then_parse Sample.host rows sample_host_keeps_plain_words
           logbook_exportable).
Defined.

(** The exported text of the three sessions, and what is read back from
    it: the comma of the notes has become a blank. *)
Example export_of_logbook :
  exportCSV Sample.host logbook
  = String.concat (String LF "")
      [ "date,distance_m,duration_min,stroke,rpe,notes";
        "2024-05-01,1500,25,Free,6,steady  then fast";
        "2024-05-03,1000,20,Back,0,";
        "2024-05-04,400,25,Free,6,ButterFLY drills" ]
  /\ map ImportRow.notes (parseCSV Sample.host (exportCSV Sample.host logbook))
     = [Str "steady  then fast"; Str ""; Str "ButterFLY drills"].
Proof. split; reflexivity. Qed.

(** Notes that hold a line break are exported over two lines and come
    back as two rows. *)
Example export_breaks_on_line_break :
  List.length
    (parseCSV Sample.host
       (exportCSV Sample.host
          [Sample.session_of (of_Z 400) "2024-05-04"
             (String.append "warm up" (String LF "sprints")) None]))
  = 2%nat.
Proof. reflexivity. Qed.

Lemma reimported_session_is_normalized_witness :
  let rows := logbook in
  let submitted :=
    map (clean_row Sample.host "2024-05-02" "user-1")
      (parseCSV Sample.host (exportCSV Sample.host rows)) in
  (keeps_plain_words Sample.host
   /\ Forall (exportable Sample.host) rows
   /\ Forall (read_back Sample.host) rows)
  /\ Forall2
       (fun (r : Workout.t) (c : CleanedRow.t) =>
          CleanedRow.distance_m c = Workout.distance_m (clean_workout r)
          /\ CleanedRow.duration_min c
             = Workout.duration_min (clean_workout r)
          /\ CleanedRow.stroke c
             = Str (Workout.stroke_text (Workout.stroke r))
          /\ CleanedRow.date c = Str (trim Sample.host (Workout.date r))
          /\ CleanedRow.notes c
             = Str (trim Sample.host
                      (replaceAll "," " " (match Workout.notes r with
                                           | Some s => s
                                           | None => ""
                                           end)))
          /\ CleanedRow.rpe c
             = match Workout.rpe r with
               | Some n => Num (Math_min (of_Z 10) (Math_max (of_Z 1) n))
               | None => Null
               end
          /\ CleanedRow.user_id c = "user-1")
       rows submitted.
Proof.
  intros rows submitted.
  split; [split; [exact sample_host_keeps_plain_words
                 |split; [exact logbook_exportable
                         |exact logbook_read_back]]|].
  exact (reimported_session_is_normalized Sample.host "2024-05-02" "user-1"
           rows sample_host_keeps_plain_words logbook_exportable
           logbook_read_back).
Defined.

(** The efforts submitted for the three sessions: the effort of 0 comes
    back as 1, where a save omits it. *)
Example reimported_efforts :
  map CleanedRow.rpe
    (map (clean_row Sample.host "2024-05-02" "user-1")
       (parseCSV Sample.host (exportCSV Sample.host logbook)))
  = [Num (of_Z 6); Num (of_Z 1); Num (of_Z 6)]
  /\ Workout.rpe (clean_workout Sample.effort_cleared) = None.
Proof. split; reflexivity. Qed.

Lemma line_ends_and_empty_lines_ignored_witness :
  let lines :=
    [Sample.header_line; ""; "2024-05-01,1500,25,Free,6,steady"] in
  Forall (fun l => avoids is_break l = true) lines
  /\ parseCSV Sample.host (String.concat CRLF lines)
     = parseCSV Sample.host (String.concat (String LF "") lines)
  /\ parseCSV Sample.host (String.concat (String LF "") lines)
     = parseCSV Sample.host
         (String.concat (String LF "") (filter nonempty lines)).
Proof.
  intros lines.
  assert (H : Forall (fun l => avoids is_break l = true) lines)
    by (repeat constructor).
  split; [exact H|].
  exact (line_ends_and_empty_lines_ignored Sample.host lines H).
Defined.

Lemma header_read_by_column_names_witness :
  let data := ["2024-05-01,1500,25,Free,6,steady"] in
  (avoids is_break Sample.header_line = true
   /\ avoids is_break shouting_header = true
   /\ nonempty Sample.header_line = true
   /\ nonempty shouting_header = true
   /\ Forall (fun l => avoids is_break l = true) data
   /\ column_names Sample.host Sample.header_line
      = column_names Sample.host shouting_header)
  /\ parseCSV Sample.host
       (String.concat (String LF "") (Sample.header_line :: data))
     = parseCSV Sample.host
         (String.concat (String LF "") (shouting_header :: data)).
Proof.
  intros data.
  assert (H : Forall (fun l => avoids is_break l = true) data)
    by (repeat constructor).
  split; [repeat split; exact H|].
  exact (header_read_by_column_names Sample.host Sample.header_line
           shouting_header data
           eq_refl eq_refl eq_refl eq_refl H eq_refl).
Defined.

End FurtherEvaluations.

Section Fetching.

Import Js App Vocabulary Rest.
Local Open Scope string_scope.
Local Open Scope list_scope.

(** When the three requests of a full fetch succeed, the three
    collections become what the store listed, a missing listing reading
    as the empty one; nothing is reported, nothing else is requested,
    and the loading flag ends false, the rest of the state being kept. *)
Theorem accepted_fetch_adopts_listings :
  forall (env : Env) (n : nat) (st : State)
         (w : option (list Workout.t)) (c : option (list Competition.t))
         (p : option (list PB.t)),
    respond env _ n SelectWorkouts = Ok w ->
    respond env _ (S n) SelectCompetitions = Ok c ->
    respond env _ (S (S n)) SelectPersonalBests = Ok p ->
    let out := run env fetchAll n st in
    rows (final out) = match w with Some l => l | None => [] end
    /\ comps (final out) = match c with Some l => l | None => [] end
    /\ pbs (final out) = match p with Some l => l | None => [] end
    /\ loading (final out) = false
    /\ session (final out) = session st
    /\ draft (final out) = draft st
    /\ editingId (final out) = editingId st
    /\ trace out = relist st.
Proof.
  intros env n st w c p Hw Hc Hp out. unfold out, fetchAll, relist. cbn.
  rewrite Hw, Hc, Hp. cbn. repeat split.
Qed.

Lemma accepted_fetch_adopts_listings_witness :
  let st := Sample.signed_in in
  let env := Sample.accepting in
  (respond env _ 0 SelectWorkouts = Ok (Some [])
   /\ respond env _ 1 SelectCompetitions = Ok (Some [])
   /\ respond env _ 2 SelectPersonalBests = Ok (Some []))
  /\ rows (final (run env fetchAll 0 st)) = []
  /\ comps (final (run env fetchAll 0 st)) = []
  /\ loading (final (run env fetchAll 0 st)) = false
  /\ trace (run env fetchAll 0 st) = relist st.
Proof.
  intros st env.
  destruct (accepted_fetch_adopts_listings env 0 st (Some []) (Some [])
              (Some []) eq_refl eq_refl eq_refl)
    as (Hr & Hc & _ & Hl & _ & _ & _ & Ht).
  split; [repeat split|].
  split; [exact Hr|]. split; [exact Hc|]. split; [exact Hl|exact Ht].
Defined.

(** X20.  With nobody signed in, or with a session that holds no user,
    a save of a session, a save of a result and a bulk import are each
    turned down at once: the state is untouched, the form keeps what was
    typed, nothing is requested or scheduled, and the only effect is the
    request to sign in. *)
Theorem signed_out_save_and_import_turned_down :
  forall (host : Host) (env : Env) (n : nat) (st : State)
         (imported : list ImportRow.t),
    session_user st = None ->
    run env (saveWorkout host st) n st
    = {| final := st; trace := [EvAlert "Please sign in first."];
         timers := [] |}
    /\ run env (saveCompetition host st) n st
       = {| final := st; trace := [EvAlert "Please sign in first."];
            timers := [] |}
    /\ run env (onRows host st imported) n st
       = {| final := st; trace := [EvAlert "Please sign in first."];
            timers := [] |}.
Proof.
  intros host env n st imported Hu.
  unfold saveWorkout, saveCompetition, onRows. rewrite Hu.
  repeat split.
Qed.

Lemma signed_out_save_and_import_turned_down_witness :
  let st := setSession (Some {| user := None |}) Sample.signed_in in
  session_user st = None
  /\ run Sample.accepting (saveWorkout Sample.host st) 0 st
     = {| final := st; trace := [EvAlert "Please sign in first."];
          timers := [] |}
  /\ run Sample.accepting (saveCompetition Sample.host st) 0 st
     = {| final := st; trace := [EvAlert "Please sign in first."];
          timers := [] |}
  /\ run Sample.accepting
       (onRows Sample.host st (parseCSV Sample.host Sample.one_row)) 0 st
     = {| final := st; trace := [EvAlert "Please sign in first."];
          timers := [] |}.
Proof.
  intros st. split; [reflexivity|].
  exact (signed_out_save_and_import_turned_down Sample.host Sample.accepting
           0 st (parseCSV Sample.host Sample.one_row) eq_refl).
Defined.

End Fetching.
